(** * LiveTalking session orchestration

    A shallow embedding of [livetalking/app_fixed.py]: the session registry
    [nerfreals], the offer handler with its two control-plane segments (up
    to and after [await loop.run_in_executor(None, build_nerfreal, ...)]),
    the connection-state callback, the command handlers and the health
    endpoint.

    Conventions.
    - The registry is the Python dict [nerfreals : Dict[int, BaseReal]]; a
      [None] value is the placeholder written at admission.  It is a
      [gmap Z (option BaseReal)].
    - A handler body is a computation in the monad [M]: it threads the
      process-wide mutable state and either returns or raises; an exception
      keeps the state reached so far, as in Python.
    - Everything the environment decides (request bodies, the value drawn
      by [random.randint], whether a renderer constructor or a collaborator
      call raises, which transport notification fires next) is an argument
      of the handler or a label of the transition system. *)

From Stdlib Require Import ZArith Ascii String List Lia DecimalString.
From stdpp Require Import base gmap list strings.

Local Open Scope string_scope.
Local Open Scope list_scope.
Local Open Scope Z_scope.

(** ** Python values used by the handlers *)

(** Outcome of a Python expression: a value, or an exception whose
    [str(e)] is [msg]. *)
Inductive result (A : Type) : Type :=
| Ok (a : A)
| Raise (msg : string).
Arguments Ok {A} a.
Arguments Raise {A} msg.

(** [str(z)] for a Python [int]. *)
Definition str_of_int (z : Z) : string := NilZero.string_of_int (Z.to_int z).

(** The flat dicts given to [json.dumps], keys in insertion order. *)
Inductive jval : Type :=
| JInt (z : Z)
| JStr (s : string).

Definition response : Type := list (string * jval).

Definition code_msg (code : Z) (msg : string) : response :=
  [("code", JInt code); ("msg", JStr msg)].

Definition resp_ok : response := code_msg 0 "ok".
Definition resp_session_not_found : response := code_msg (-1) "session not found".
Definition resp_reach_max : response := code_msg (-1) "reach max session".

(** ** [randN] *)

Section RandN.
(** [random.randint], chosen by the environment. *)
Variable randint : Z -> Z -> Z.

(** [randN(N)], lines 36-40.  [pow(10, N - 1)] is [10 ^ (N - 1)] for
    [N >= 1]; for [N < 1] Python leaves the integers and the model is not
    meant to be used there. *)
Definition randN (N : Z) : Z :=
  let min_val := 10 ^ (N - 1) in
  let max_val := 10 ^ N in
  randint min_val (max_val - 1).
End RandN.

(** ** Renderers and [build_nerfreal] *)

(** The three renderer classes; [oid] is the identity of the constructed
    object. *)
Inductive BaseReal : Type :=
| LipReal (oid : nat)
| MuseReal (oid : nat)
| LightReal (oid : nat).

#[global] Instance BaseReal_eq_dec : EqDecision BaseReal.
Proof. solve_decision. Defined.

(** The parsed command line: [opt.model] and [opt.max_session] ([None] when
    the attribute is missing, the case [hasattr] guards against). *)
Record Opt : Type := {
  model : string;
  max_session : option Z;
}.

(** [build_nerfreal], lines 42-68.  [ctor] is the outcome of importing and
    calling the selected constructor ([Raise] for a failed allocation); the
    [except] clause logs and re-raises.  [opt] is the module global, [None]
    until [main] has parsed the command line.  The assignment
    [opt.sessionid = sessionid] is read by the constructors only and is
    left out. *)
Definition build_nerfreal (opt : option Opt) (ctor : result nat) : result BaseReal :=
  match opt with
  | None => Raise "'NoneType' object has no attribute 'model'"
  | Some o =>
      if String.eqb (model o) "wav2lip" then
        match ctor with Ok oid => Ok (LipReal oid) | Raise e => Raise e end
      else if String.eqb (model o) "musetalk" then
        match ctor with Ok oid => Ok (MuseReal oid) | Raise e => Raise e end
      else if String.eqb (model o) "ultralight" then
        match ctor with Ok oid => Ok (LightReal oid) | Raise e => Raise e end
      else Raise ("Unknown model: " +:+ model o)
  end.

(** ** Video codec preferences, lines 156-179 *)

Record RTCRtpCodecCapability : Type := {
  mimeType : string;
  clockRate : Z;
  parameters : string;
}.

(** One of the three loops
    [for codec in capabilities.codecs: if codec.mimeType == family:
       preferences.append(codec)]. *)
Definition append_matching (family : string)
    (codecs preferences : list RTCRtpCodecCapability) : list RTCRtpCodecCapability :=
  fold_left
    (fun prefs codec =>
       if String.eqb (mimeType codec) family then prefs ++ [codec] else prefs)
    codecs preferences.

Definition codec_preferences (codecs : list RTCRtpCodecCapability)
    : list RTCRtpCodecCapability :=
  let preferences := [] in
  let preferences := append_matching "video/H264" codecs preferences in
  let preferences := append_matching "video/VP8" codecs preferences in
  let preferences := append_matching "video/rtx" codecs preferences in
  preferences.

(** A transceiver of the peer connection; [preferred] is the argument of
    the last [setCodecPreferences] call on it, if any. *)
Record RTCRtpTransceiver : Type := {
  kind : string;
  preferred : option (list RTCRtpCodecCapability);
}.

(** [for transceiver in transceivers: if transceiver.kind == "video":
      transceiver.setCodecPreferences(preferences); break] *)
Fixpoint set_first_video (preferences : list RTCRtpCodecCapability)
    (transceivers : list RTCRtpTransceiver) : list RTCRtpTransceiver :=
  match transceivers with
  | [] => []
  | t :: rest =>
      if String.eqb (kind t) "video"
      then {| kind := kind t; preferred := Some preferences |} :: rest
      else t :: set_first_video preferences rest
  end.

(** The whole [try] block.  [capabilities] is what
    [RTCRtpSender.getCapabilities("video")] gives: an exception, [None], or
    an object with a [codecs] list.  The [except] clause only logs. *)
Definition apply_codec_preferences
    (capabilities : result (option (list RTCRtpCodecCapability)))
    (transceivers : list RTCRtpTransceiver) : list RTCRtpTransceiver :=
  match capabilities with
  | Raise _ => transceivers
  | Ok None => transceivers
  | Ok (Some codecs) =>
      match codecs with
      | [] => transceivers
      | _ :: _ =>
          match codec_preferences codecs with
          | [] => transceivers
          | (_ :: _) as preferences => set_first_video preferences transceivers
          end
      end
  end.

(** ** Process-wide state and the handler monad *)

(** Calls into collaborators that the handlers make: renderer methods, the
    executor submission of [llm_response], and the audio store. *)
Inductive Effect : Type :=
| flush_talk (r : BaseReal)
| put_msg_txt (r : BaseReal) (text : string)
| put_audio_file (r : BaseReal) (audio_path : string)
| set_curr_state (r : BaseReal) (audiotype : Z)
| executor_llm_response (text : string) (r : option BaseReal)
| os_makedirs (path : string)
| write_file (path content : string).

Record RTCPeerConnection : Type := {
  tracks : list string;
  transceivers : list RTCRtpTransceiver;
}.

(** The module globals [nerfreals] and [pcs] (peer connections by object
    identity), the [sessionid] captured by the [connectionstatechange]
    closure registered on each peer connection, the next fresh object
    identity, and the collaborator calls made so far. *)
Record State : Type := {
  nerfreals : gmap Z (option BaseReal);
  pcs : gmap nat RTCPeerConnection;
  handlers : gmap nat Z;
  next_pc : nat;
  calls : list Effect;
}.

Definition set_nerfreals (f : gmap Z (option BaseReal) -> gmap Z (option BaseReal))
    (s : State) : State :=
  {| nerfreals := f (nerfreals s); pcs := pcs s; handlers := handlers s;
     next_pc := next_pc s; calls := calls s |}.

Definition set_pcs (f : gmap nat RTCPeerConnection -> gmap nat RTCPeerConnection)
    (s : State) : State :=
  {| nerfreals := nerfreals s; pcs := f (pcs s); handlers := handlers s;
     next_pc := next_pc s; calls := calls s |}.

Definition set_handlers (f : gmap nat Z -> gmap nat Z) (s : State) : State :=
  {| nerfreals := nerfreals s; pcs := pcs s; handlers := f (handlers s);
     next_pc := next_pc s; calls := calls s |}.

Definition set_next_pc (n : nat) (s : State) : State :=
  {| nerfreals := nerfreals s; pcs := pcs s; handlers := handlers s;
     next_pc := n; calls := calls s |}.

Definition add_call (e : Effect) (s : State) : State :=
  {| nerfreals := nerfreals s; pcs := pcs s; handlers := handlers s;
     next_pc := next_pc s; calls := calls s ++ [e] |}.

(** A handler body: from a state to an outcome and the state reached. *)
Definition M (A : Type) : Type := State -> result A * State.

#[global] Instance M_ret : MRet M := fun A a s => (Ok a, s).
#[global] Instance M_bind : MBind M := fun A B k c s =>
  match c s with
  | (Ok a, s') => k a s'
  | (Raise e, s') => (Raise e, s')
  end.

Definition raise {A : Type} (msg : string) : M A := fun s => (Raise msg, s).

Definition lift {A : Type} (r : result A) : M A := fun s => (r, s).

Definition gets {A : Type} (f : State -> A) : M A := fun s => (Ok (f s), s).

Definition modify (f : State -> State) : M unit := fun s => (Ok tt, f s).

(** [try: body / except Exception as e: handler(str(e))] *)
Definition try_except {A : Type} (body : M A) (handler : string -> M A) : M A :=
  fun s =>
    match body s with
    | (Ok a, s') => (Ok a, s')
    | (Raise e, s') => handler e s'
    end.

(** [sessionid in nerfreals] *)
Definition contains (sessionid : Z) : M bool :=
  gets (fun s => bool_decide (is_Some (nerfreals s !! sessionid))).

(** [nerfreals[sessionid]]; a missing key raises [KeyError(sessionid)]. *)
Definition getitem (sessionid : Z) : M (option BaseReal) :=
  fun s =>
    match nerfreals s !! sessionid with
    | Some v => (Ok v, s)
    | None => (Raise (str_of_int sessionid), s)
    end.

(** [nerfreals[sessionid] = v] *)
Definition setitem (sessionid : Z) (v : option BaseReal) : M unit :=
  modify (set_nerfreals (insert sessionid v)).

(** [del nerfreals[sessionid]]; a missing key raises [KeyError]. *)
Definition delitem (sessionid : Z) : M unit :=
  fun s =>
    match nerfreals s !! sessionid with
    | Some _ => (Ok tt, set_nerfreals (delete sessionid) s)
    | None => (Raise (str_of_int sessionid), s)
    end.

(** Attribute access [v.name] on a registry value: [None] has no methods. *)
Definition attr (name : string) (v : option BaseReal) : M BaseReal :=
  match v with
  | Some r => mret r
  | None => raise ("'NoneType' object has no attribute '" +:+ name +:+ "'")
  end.

(** ** Request bodies *)

(** [/human]: the decoded JSON object.  A field is [None] when the key is
    absent; [hp_interrupt] is the truth value of [params.get('interrupt')]. *)
Record HumanParams : Type := {
  hp_sessionid : option Z;
  hp_type : option string;
  hp_text : option string;
  hp_interrupt : bool;
}.

(** [/interrupt] *)
Record InterruptParams : Type := {
  ip_sessionid : option Z;
}.

(** [/set_audiotype] *)
Record AudiotypeParams : Type := {
  ap_sessionid : option Z;
  ap_audiotype : option Z;
}.

(** A value of the multipart form of [/humanaudio]: an uploaded file or a
    plain text field. *)
Inductive FormValue : Type :=
| FileField (filename : string) (content : string)
| TextField (text : string).

Record AudioForm : Type := {
  af_sessionid : option string;
  af_file : option FormValue;
}.

(** [/offer] *)
Record OfferParams : Type := {
  op_sdp : option string;
  op_type : option string;
}.

(** What the collaborators do during the second segment of [offer]:
    whether building the [HumanPlayer] and adding its tracks raises, what
    [getCapabilities] gives, and the local description reached by the three
    awaited negotiation calls (or the exception one of them raises). *)
Record OfferEnv : Type := {
  human_player : option string;
  capabilities : result (option (list RTCRtpCodecCapability));
  local_description : result (string * string);
}.

Section Handlers.
(** The module global [opt], constant once [main] has set it. *)
Variable opt : option Opt.
(** [int(s)] on a form string (Python built-in). *)
Variable py_int : string -> result Z.
(** The [aiortc] constructor, which validates its [type] argument. *)
Variable RTCSessionDescription : string -> string -> result (string * string).

Section Commands.
(** Which collaborator calls raise during this request. *)
Variable raises : Effect -> option string.

Definition call (e : Effect) : M unit :=
  fun s =>
    (match raises e with None => Ok tt | Some msg => Raise msg end, add_call e s).

(** [sessionid not in nerfreals or nerfreals[sessionid] is None] *)
Definition not_found (sessionid : Z) : M bool :=
  present ← contains sessionid;
  if (present : bool) then
    v ← getitem sessionid;
    mret (bool_decide (v = None))
  else mret true.

(** [sessionid in nerfreals and nerfreals[sessionid] is not None] *)
Definition attached (sessionid : Z) : M bool :=
  present ← contains sessionid;
  if (present : bool) then
    v ← getitem sessionid;
    mret (negb (bool_decide (v = None)))
  else mret false.

(** [human], lines 209-246 *)
Definition human_body (body : result HumanParams) : M response :=
  params ← lift body;
  let sessionid := default 0 (hp_sessionid params) in
  missing ← not_found sessionid;
  if (missing : bool) then mret resp_session_not_found
  else
    _ ← (if hp_interrupt params then
           v ← getitem sessionid;
           r ← attr "flush_talk" v;
           call (flush_talk r)
         else mret tt);
    _ ← (if bool_decide (hp_type params = Some "echo") then
           let text := default "" (hp_text params) in
           v ← getitem sessionid;
           r ← attr "put_msg_txt" v;
           call (put_msg_txt r text)
         else if bool_decide (hp_type params = Some "chat") then
           let text := default "" (hp_text params) in
           v ← getitem sessionid;
           call (executor_llm_response text v)
         else mret tt);
    mret resp_ok.

Definition human (body : result HumanParams) : M response :=
  try_except (human_body body) (fun e => mret (code_msg (-1) e)).

(** [interrupt_talk], lines 248-268 *)
Definition interrupt_talk_body (body : result InterruptParams) : M response :=
  params ← lift body;
  let sessionid := default 0 (ip_sessionid params) in
  ready ← attached sessionid;
  _ ← (if (ready : bool) then
         v ← getitem sessionid;
         r ← attr "flush_talk" v;
         call (flush_talk r)
       else mret tt);
  mret resp_ok.

Definition interrupt_talk (body : result InterruptParams) : M response :=
  try_except (interrupt_talk_body body) (fun e => mret (code_msg (-1) e)).

(** [humanaudio], lines 270-305 *)
Definition humanaudio_body (form : result AudioForm) : M response :=
  form ← lift form;
  sessionid ← lift (match af_sessionid form with
                    | Some s => py_int s
                    | None => Ok 0
                    end);
  let fileobj := af_file form in
  missing ← not_found sessionid;
  if (missing : bool) then mret resp_session_not_found
  else
    _ ← (match fileobj with
         | None => mret tt
         | Some (TextField "") => mret tt
         | Some (TextField _) => raise "'str' object has no attribute 'filename'"
         | Some (FileField filename content) =>
             let audio_path :=
               "/tmp/audio/audio_" +:+ str_of_int sessionid +:+ "_" +:+ filename in
             _ ← call (os_makedirs "/tmp/audio");
             _ ← call (write_file audio_path content);
             v ← getitem sessionid;
             r ← attr "put_audio_file" v;
             call (put_audio_file r audio_path)
         end);
    mret resp_ok.

Definition humanaudio (form : result AudioForm) : M response :=
  try_except (humanaudio_body form) (fun e => mret (code_msg (-1) e)).

(** [set_audiotype], lines 307-328 *)
Definition set_audiotype_body (body : result AudiotypeParams) : M response :=
  params ← lift body;
  let sessionid := default 0 (ap_sessionid params) in
  let audiotype := default 0 (ap_audiotype params) in
  ready ← attached sessionid;
  _ ← (if (ready : bool) then
         v ← getitem sessionid;
         r ← attr "set_curr_state" v;
         call (set_curr_state r audiotype)
       else mret tt);
  mret resp_ok.

Definition set_audiotype (body : result AudiotypeParams) : M response :=
  try_except (set_audiotype_body body) (fun e => mret (code_msg (-1) e)).
End Commands.

(** [health], lines 330-339 *)
Definition health : M response :=
  n ← gets (fun s => size (nerfreals s));
  mret [("status", JStr "healthy");
        ("sessions", JInt (Z.of_nat n));
        ("model", JStr (match opt with Some o => model o | None => "unknown" end))].

(** *** [offer], first segment: lines 74-99, up to the suspension at
    [await loop.run_in_executor(None, build_nerfreal, sessionid)].

    The result is [inl r] when the handler has returned the response [r],
    and [inr sessionid] when it is suspended on the executor with the
    placeholder written.  Nothing between the capacity test and the
    placeholder assignment awaits. *)
Definition at_capacity (n : nat) : bool :=
  match opt with
  | Some o =>
      match max_session o with
      | Some m => bool_decide (m <= Z.of_nat n)
      | None => false
      end
  | None => false
  end.

Definition offer_admit_body (randint : Z -> Z -> Z) (body : result OfferParams)
    : M (response + Z) :=
  params ← lift body;
  sdp ← (match op_sdp params with Some v => mret v | None => raise "'sdp'" end);
  type ← (match op_type params with Some v => mret v | None => raise "'type'" end);
  offer ← lift (RTCSessionDescription sdp type);
  n ← gets (fun s => size (nerfreals s));
  if at_capacity n then mret (inl resp_reach_max)
  else
    let sessionid := randN randint 6 in
    _ ← setitem sessionid None;
    mret (inr sessionid).

Definition offer_admit (randint : Z -> Z -> Z) (body : result OfferParams)
    : M (response + Z) :=
  try_except (offer_admit_body randint body)
             (fun e => mret (inl (code_msg (-1) e))).

(** *** [offer], second segment: lines 99-207, from the completion of the
    executor call.  [built] is what [build_nerfreal] produced in the
    worker; awaiting it re-raises its exception.  The three awaited
    negotiation calls at the end touch neither [nerfreals] nor [pcs], so
    the segment is run to its response at once. *)
Definition new_pc : M nat :=
  pc ← gets next_pc;
  _ ← modify (fun s =>
                set_next_pc (S pc)
                  (set_pcs (insert pc {| tracks := []; transceivers := [] |}) s));
  mret pc.

Definition add_tracks (pc : nat) : M unit :=
  modify (set_pcs (alter (fun p =>
    {| tracks := tracks p ++ ["audio"; "video"];
       transceivers := transceivers p ++
         [ {| kind := "audio"; preferred := None |};
           {| kind := "video"; preferred := None |} ] |}) pc)).

Definition offer_resume_body (sessionid : Z) (built : result BaseReal)
    (env : OfferEnv) : M response :=
  nerfreal ← lift built;
  _ ← setitem sessionid (Some nerfreal);
  pc ← new_pc;
  _ ← modify (set_handlers (insert pc sessionid));
  _ ← getitem sessionid;
  _ ← (match human_player env with Some e => raise e | None => mret tt end);
  _ ← add_tracks pc;
  _ ← modify (set_pcs (alter (fun p =>
         {| tracks := tracks p;
            transceivers :=
              apply_codec_preferences (capabilities env) (transceivers p) |}) pc));
  d ← lift (local_description env);
  mret [("sdp", JStr (fst d)); ("type", JStr (snd d)); ("sessionid", JInt sessionid)].

Definition offer_resume (sessionid : Z) (built : result BaseReal) (env : OfferEnv)
    : M response :=
  try_except (offer_resume_body sessionid built env)
             (fun e => mret (code_msg (-1) e)).

(** *** [on_connectionstatechange], lines 113-128.

    The registry part shared by the [failed] branch (after its
    [await pc.close()]) and the [closed] branch:
    [pcs.discard(pc); if sessionid in nerfreals: del nerfreals[sessionid]]. *)
Definition cleanup (pc : nat) (sessionid : Z) : M unit :=
  _ ← modify (set_pcs (delete pc));
  present ← contains sessionid;
  if (present : bool) then delitem sessionid else mret tt.
End Handlers.

(** ** The control plane as a transition system

    The event loop runs one handler segment at a time.  A configuration is
    the shared state together with the suspended coroutines that matter for
    the registry: the [offer] coroutines waiting for the executor (each
    holds its [sessionid]) and the [failed] callbacks waiting in
    [await pc.close()]. *)

Inductive connectionState : Type :=
| cs_new | cs_connecting | cs_connected | cs_disconnected | cs_failed | cs_closed.

Record Sys : Type := {
  shared : State;
  building : list Z;
  closing : list nat;
}.

(** What the environment does next.  A [failed] callback waiting in
    [await pc.close()] resumes with [EvCloseReturned]; a [pc.close()] that
    raises ends the callback, which has no [try], before it touches the
    shared state, so that for the state it is a close that never returns
    and it has no event of its own. *)
Inductive Event : Type :=
| EvOffer (body : result OfferParams) (randint : Z -> Z -> Z)
| EvBuilt (sessionid : Z) (ctor : result nat) (env : OfferEnv)
| EvConnectionState (pc : nat) (st : connectionState)
| EvCloseReturned (pc : nat)
| EvHuman (raises : Effect -> option string) (body : result HumanParams)
| EvInterrupt (raises : Effect -> option string) (body : result InterruptParams)
| EvHumanAudio (raises : Effect -> option string) (form : result AudioForm)
| EvSetAudiotype (raises : Effect -> option string) (body : result AudiotypeParams)
| EvHealth.

(** What the segment that ran produced. *)
Inductive Output : Type :=
| Replied (r : response)
| Suspended
| Escaped (msg : string)
| Silent.

Fixpoint remove_first {A : Type} `{EqDecision A} (x : A) (l : list A) : list A :=
  match l with
  | [] => []
  | y :: l' => if decide (x = y) then l' else y :: remove_first x l'
  end.

Definition initial : Sys :=
  {| shared := {| nerfreals := ∅; pcs := ∅; handlers := ∅; next_pc := 0%nat; calls := [] |};
     building := []; closing := [] |}.

Section System.
Variable opt : option Opt.
Variable py_int : string -> result Z.
Variable RTCSessionDescription : string -> string -> result (string * string).

Definition with_shared (y : Sys) (s : State) : Sys :=
  {| shared := s; building := building y; closing := closing y |}.

Definition replied (y : Sys) (out : result response * State) : Sys * Output :=
  match out with
  | (Ok r, s) => (with_shared y s, Replied r)
  | (Raise e, s) => (with_shared y s, Escaped e)
  end.

Definition callback (y : Sys) (out : result unit * State) : Sys * Output :=
  match out with
  | (Ok _, s) => (with_shared y s, Silent)
  | (Raise e, s) => (with_shared y s, Escaped e)
  end.

Definition step (y : Sys) (ev : Event) : Sys * Output :=
  match ev with
  | EvOffer body randint =>
      match offer_admit opt RTCSessionDescription randint body (shared y) with
      | (Ok (inl r), s) => (with_shared y s, Replied r)
      | (Ok (inr sessionid), s) =>
          ({| shared := s; building := sessionid :: building y;
              closing := closing y |}, Suspended)
      | (Raise e, s) => (with_shared y s, Escaped e)
      end
  | EvBuilt sessionid ctor env =>
      if bool_decide (sessionid ∈ building y) then
        replied {| shared := shared y;
                   building := remove_first sessionid (building y);
                   closing := closing y |}
                (offer_resume sessionid (build_nerfreal opt ctor) env (shared y))
      else (y, Silent)
  | EvConnectionState pc st =>
      match handlers (shared y) !! pc with
      | None => (y, Silent)
      | Some sessionid =>
          match st with
          | cs_failed =>
              ({| shared := shared y; building := building y;
                  closing := pc :: closing y |}, Suspended)
          | cs_closed => callback y (cleanup pc sessionid (shared y))
          | _ => (y, Silent)
          end
      end
  | EvCloseReturned pc =>
      match handlers (shared y) !! pc with
      | None => (y, Silent)
      | Some sessionid =>
          if bool_decide (pc ∈ closing y) then
            callback {| shared := shared y; building := building y;
                        closing := remove_first pc (closing y) |}
                     (cleanup pc sessionid (shared y))
          else (y, Silent)
      end
  | EvHuman raises body => replied y (human raises body (shared y))
  | EvInterrupt raises body => replied y (interrupt_talk raises body (shared y))
  | EvHumanAudio raises form => replied y (humanaudio py_int raises form (shared y))
  | EvSetAudiotype raises body => replied y (set_audiotype raises body (shared y))
  | EvHealth => replied y (health opt (shared y))
  end.

Definition run (y : Sys) (evs : list Event) : Sys :=
  fold_left (fun y ev => fst (step y ev)) evs y.

(** The session id whose cleanup the event runs: the id captured by the
    [connectionstatechange] callback of [pc], when the event makes that
    callback run [pcs.discard(pc)] and the guarded [del] (lines 124-126
    on "closed", lines 119-121 when the [pc.close()] awaited on "failed"
    returns). *)
Definition cleans (y : Sys) (ev : Event) : option Z :=
  match ev with
  | EvConnectionState pc cs_closed => handlers (shared y) !! pc
  | EvCloseReturned pc =>
      if bool_decide (pc ∈ closing y) then handlers (shared y) !! pc else None
  | _ => None
  end.

(** The event does not take the registry entry away from an [offer] that
    is waiting for its build under the same id. *)
Definition undisturbed_at (y : Sys) (ev : Event) : bool :=
  match cleans y ev with
  | Some sessionid => bool_decide (sessionid ∉ building y)
  | None => true
  end.

Fixpoint undisturbed (y : Sys) (evs : list Event) : bool :=
  match evs with
  | [] => true
  | ev :: evs' => undisturbed_at y ev && undisturbed (fst (step y ev)) evs'
  end.
End System.

Definition registry (y : Sys) : gmap Z (option BaseReal) := nerfreals (shared y).
Definition count (y : Sys) : Z := Z.of_nat (size (registry y)).

(** ** Notions used to state the properties *)

(** *** Codecs *)

#[global] Instance RTCRtpCodecCapability_eq_dec : EqDecision RTCRtpCodecCapability.
Proof. solve_decision. Defined.

(** [codec.mimeType == family] *)
Definition in_family (family : string) (codec : RTCRtpCodecCapability) : bool :=
  String.eqb (mimeType codec) family.

(** How often a codec occurs in a list, [list.count]. *)
Definition occurrences (codecs : list RTCRtpCodecCapability)
    (c : RTCRtpCodecCapability) : nat :=
  count_occ RTCRtpCodecCapability_eq_dec codecs c.

(** The capabilities of the example: a VP8 entry, two H264 entries that
    differ in their profile, and an rtx entry. *)
Definition codec_VP8 : RTCRtpCodecCapability :=
  {| mimeType := "video/VP8"; clockRate := 90000; parameters := "" |}.
Definition codec_H264_a : RTCRtpCodecCapability :=
  {| mimeType := "video/H264"; clockRate := 90000;
     parameters := "packetization-mode=1;profile-level-id=42001f" |}.
Definition codec_H264_b : RTCRtpCodecCapability :=
  {| mimeType := "video/H264"; clockRate := 90000;
     parameters := "packetization-mode=1;profile-level-id=42e01f" |}.
Definition codec_rtx : RTCRtpCodecCapability :=
  {| mimeType := "video/rtx"; clockRate := 90000; parameters := "" |}.

(** *** States and requests *)

(** The session has an entry whose renderer is attached. *)
Definition session_ready (s : State) (sessionid : Z) : bool :=
  match nerfreals s !! sessionid with
  | Some (Some _) => true
  | _ => false
  end.

(** A registry whose only entry is a placeholder. *)
Definition pending_only : State :=
  {| nerfreals := {[ 123456 := None ]}; pcs := ∅; handlers := ∅;
     next_pc := 0%nat; calls := [] |}.

(** A registry whose only entry has its renderer attached. *)
Definition one_attached : State :=
  {| nerfreals := {[ 123456 := Some (MuseReal 0) ]}; pcs := ∅; handlers := ∅;
     next_pc := 0%nat; calls := [] |}.

(** The part of the state that session management reads and writes. *)
Definition frame (s : State) :=
  (nerfreals s, pcs s, handlers s, next_pc s).

(** The computation reads that part of the state at most. *)
Definition readonly {A : Type} (c : M A) : Prop :=
  forall s, frame (snd (c s)) = frame s.

(** The request body decodes to a session description: the JSON parses,
    carries [sdp] and [type], and the constructor accepts them. *)
Definition well_formed (RTCSessionDescription : string -> string -> result (string * string))
    (body : result OfferParams) : bool :=
  match body with
  | Ok params =>
      match op_sdp params, op_type params with
      | Some sdp, Some type =>
          match RTCSessionDescription sdp type with Ok _ => true | Raise _ => false end
      | _, _ => false
      end
  | Raise _ => false
  end.

(** A server started with [--model wav2lip --max_session n]. *)
Definition wav2lip_with (n : Z) : option Opt :=
  Some {| model := "wav2lip"; max_session := Some n |}.

(** A session-description constructor that accepts the type ["offer"]. *)
Definition accept_offer (sdp type : string) : result (string * string) :=
  if String.eqb type "offer" then Ok (sdp, type)
  else Raise "invalid session description type".

(** No form field is a decimal number. *)
Definition no_int (s : string) : result Z := Raise "invalid literal for int()".

(** The body [{"sdp": "v=0", "type": "offer"}]. *)
Definition sample_offer : result OfferParams :=
  Ok {| op_sdp := Some "v=0"; op_type := Some "offer" |}.

(** The collaborators all succeed. *)
Definition smooth : OfferEnv :=
  {| human_player := None;
     capabilities := Ok (Some [codec_VP8; codec_H264_a; codec_rtx; codec_H264_b]);
     local_description := Ok ("v=0", "answer") |}.

(** A [random.randint] that answers [z]. *)
Definition draws (z : Z) : Z -> Z -> Z := fun _ _ => z.

(** The executions behind the counterexamples: a session is admitted with
    id 111111 and attached; a later offer draws 111111 again. *)
Definition reused_id : list Event :=
  [ EvOffer sample_offer (draws 111111);
    EvBuilt 111111 (Ok 1%nat) smooth;
    EvOffer sample_offer (draws 111111) ].

(** The event writes the registry entry of [sessionid]: an offer that draws
    it, or the completion of a build for it. *)
Definition writes (sessionid : Z) (ev : Event) : bool :=
  match ev with
  | EvOffer _ randint => bool_decide (randN randint 6 = sessionid)
  | EvBuilt sid _ _ => bool_decide (sid = sessionid)
  | _ => false
  end.

(** The event runs a segment of a request handler ([offer] before or
    after its build, a command, [health]), not the connection-state
    callback of a peer connection. *)
Definition handler_segment (ev : Event) : bool :=
  match ev with
  | EvConnectionState _ _ | EvCloseReturned _ => false
  | _ => true
  end.

(** *** Steps and invariants *)

Section Acts.
Variable opt : option Opt.
Variable RTCSessionDescription : string -> string -> result (string * string).

(** The five ways in which a step can act on the registry, the suspended
    offers and the captured session ids. *)
Inductive acts (y : Sys) : Event -> Sys -> Prop :=
| acts_idle ev y' :
    registry y' = registry y ->
    building y' = building y ->
    handlers (shared y') = handlers (shared y) ->
    acts y ev y'
| acts_admitted body randint y' :
    well_formed RTCSessionDescription body = true ->
    at_capacity opt (size (registry y)) = false ->
    registry y' = <[randN randint 6 := None]> (registry y) ->
    building y' = randN randint 6 :: building y ->
    handlers (shared y') = handlers (shared y) ->
    acts y (EvOffer body randint) y'
| acts_build_failed sessionid ctor env y' :
    sessionid ∈ building y ->
    registry y' = registry y ->
    building y' = remove_first sessionid (building y) ->
    handlers (shared y') = handlers (shared y) ->
    acts y (EvBuilt sessionid ctor env) y'
| acts_attached sessionid ctor env r y' :
    sessionid ∈ building y ->
    build_nerfreal opt ctor = Ok r ->
    registry y' = <[sessionid := Some r]> (registry y) ->
    building y' = remove_first sessionid (building y) ->
    handlers (shared y') = <[next_pc (shared y) := sessionid]> (handlers (shared y)) ->
    acts y (EvBuilt sessionid ctor env) y'
| acts_cleaned ev pc sessionid y' :
    handlers (shared y) !! pc = Some sessionid ->
    registry y' = delete sessionid (registry y) ->
    building y' = building y ->
    handlers (shared y') = handlers (shared y) ->
    acts y ev y'.
End Acts.

(** ** Start-up, the chat responder and shutdown *)

(** [load_models], lines 354-380.  [loader] is the outcome of importing
    the selected module and calling its [load_model()] and
    [load_avatar(opt.avatar_id)]: the loaded model and avatar, or the
    exception; the [except] clause logs and re-raises.  [main] calls it
    before the server is started, so a server that runs has seen it
    return. *)
Definition load_models (opt : option Opt) (loader : result (nat * nat))
    : result (nat * nat) :=
  match opt with
  | None => Raise "'NoneType' object has no attribute 'model'"
  | Some o =>
      if String.eqb (model o) "musetalk" then loader
      else if String.eqb (model o) "wav2lip" then loader
      else if String.eqb (model o) "ultralight" then loader
      else Raise ("Unknown model: " +:+ model o)
  end.

(** [llm_response], lines 349-352, the job that [human] hands to the
    executor for a chat message (strings are UTF-8 bytes). *)
Definition llm_response (raises : Effect -> option string)
    (message : string) (nerfreal : option BaseReal) : M unit :=
  r ← attr "put_msg_txt" nerfreal;
  call raises (put_msg_txt r ("收到: " +:+ message)).

(** [on_shutdown], lines 341-347:
    it awaits [asyncio.gather] over [pc.close()] for every [pc] in [pcs]
    and then calls [pcs.clear()].  [close_raises] tells which [pc.close()] raise; [gather]
    propagates an exception to the awaiting coroutine, which then does not
    reach [pcs.clear()]. *)
Definition on_shutdown (close_raises : nat -> option string) : M unit :=
  fun s =>
    match list_find (fun pc => is_Some (close_raises pc)) (map_to_list (pcs s)).*1 with
    | Some (_, pc) =>
        (match close_raises pc with Some e => Raise e | None => Ok tt end, s)
    | None => (Ok tt, set_pcs (fun _ => ∅) s)
    end.

(** The events that are command requests. *)
Definition is_command (ev : Event) : bool :=
  match ev with
  | EvHuman _ _ | EvInterrupt _ _ | EvHumanAudio _ _ | EvSetAudiotype _ _ | EvHealth => true
  | _ => false
  end.

(** The collaborator calls that [human] makes for an attached renderer
    [r], in order: the flush when the interrupt flag is set, then the text
    for an echo or the executor job for a chat. *)
Definition human_calls (params : HumanParams) (r : BaseReal) : list Effect :=
  (if hp_interrupt params then [flush_talk r] else [])
  ++ (if bool_decide (hp_type params = Some "echo")
      then [put_msg_txt r (default "" (hp_text params))]
      else if bool_decide (hp_type params = Some "chat")
      then [executor_llm_response (default "" (hp_text params)) (Some r)]
      else []).

(** The state with further collaborator calls recorded. *)
Definition add_calls (es : list Effect) (s : State) : State :=
  {| nerfreals := nerfreals s; pcs := pcs s; handlers := handlers s;
     next_pc := next_pc s; calls := calls s ++ es |}.

(** The renderer class that [build_nerfreal] selects for a model name. *)
Definition renderer_class (name : string) : option (nat -> BaseReal) :=
  if String.eqb name "wav2lip" then Some LipReal
  else if String.eqb name "musetalk" then Some MuseReal
  else if String.eqb name "ultralight" then Some LightReal
  else None.

(** The [str(e)] that the first segment of [offer] reports for a body that
    does not decode: the exception of [request.json()], the [KeyError] of
    the first missing key ([sdp] before [type]), or the exception of the
    session-description constructor. *)
Definition offer_error
    (RTCSessionDescription : string -> string -> result (string * string))
    (body : result OfferParams) : string :=
  match body with
  | Raise e => e
  | Ok params =>
      match op_sdp params with
      | None => "'sdp'"
      | Some sdp =>
          match op_type params with
          | None => "'type'"
          | Some type =>
              match RTCSessionDescription sdp type with
              | Raise e => e
              | Ok _ => ""
              end
          end
      end
  end.

(** The reply of a handler whose last collaborator call is [e]. *)
Definition reply_after (raises : Effect -> option string) (e : Effect) : response :=
  match raises e with
  | None => resp_ok
  | Some msg => code_msg (-1) msg
  end.

(** The path under which [humanaudio] stores an upload:
    [f"/tmp/audio/audio_{sessionid}_{filename}"]. *)
Definition audio_path (sessionid : Z) (filename : string) : string :=
  "/tmp/audio/audio_" +:+ str_of_int sessionid +:+ "_" +:+ filename.

(** The two transceivers that adding the player's audio and video tracks
    creates on a new peer connection. *)
Definition audio_transceiver : RTCRtpTransceiver :=
  {| kind := "audio"; preferred := None |}.
Definition video_transceiver : RTCRtpTransceiver :=
  {| kind := "video"; preferred := None |}.

(** [random.randint(a, b)] answers within its bounds. *)
Definition honest_randint (randint : Z -> Z -> Z) : Prop :=
  forall a b, a <= b -> a <= randint a b <= b.

(** Every offer of the execution draws from such a [randint]. *)
Definition honest_events (evs : list Event) : Prop :=
  Forall (fun ev => match ev with
                    | EvOffer _ randint => honest_randint randint
                    | _ => True
                    end) evs.

(** The [closed] notifications of the given peer connections, one after
    the other. *)
Definition closed_events (l : list nat) : list Event :=
  map (fun pc => EvConnectionState pc cs_closed) l.

(** The peer connections in [pcs]. *)
Definition open_pcs (s : State) : list nat := (map_to_list (pcs s)).*1.

(** Every attached session is reachable through an open peer connection
    whose callback has captured its id, and the identities handed out so
    far are below the next fresh one. *)
Record tracked (s : State) : Prop := {
  attached_has_pc :
    forall sessionid r,
      nerfreals s !! sessionid = Some (Some r) ->
      exists pc, is_Some (pcs s !! pc) /\ handlers s !! pc = Some sessionid;
  identities_below_next :
    forall pc, is_Some (handlers s !! pc) \/ is_Some (pcs s !! pc) ->
               (pc < next_pc s)%nat;
}.

(** [codec.mimeType] is one of the three preferred families. *)
Definition preferred_family (c : RTCRtpCodecCapability) : bool :=
  in_family "video/H264" c || in_family "video/VP8" c || in_family "video/rtx" c.

(** [transceiver.kind == "video"] *)
Definition is_video (t : RTCRtpTransceiver) : bool := String.eqb (kind t) "video".

(** * The TTS front end, [tts-frontend/server.py]

    The Flask service that forwards text to the [/human] endpoint above and
    keeps the voice templates.  A handler is a function from the module
    globals and the decoded request to the reply [(json, status)] and the
    new globals.  JSON fields are typed as the handlers use them (text and
    ids as strings, the channel and the session id as integers, the
    connected flag as a boolean). *)

Module Frontend.

#[local] Unset Elimination Schemes.
(** The values given to [jsonify]. *)
Inductive fjson : Type :=
| FBool (b : bool)
| FNum (z : Z)
| FStr (s : string)
| FList (l : list fjson)
| FObj (fields : list (string * fjson)).
#[local] Set Elimination Schemes.

Definition reply : Type := (fjson * Z)%type.

Definition error_reply (msg : string) (status : Z) : reply :=
  (FObj [("error", FStr msg)], status).

(** One entry of [voice_templates]. *)
Record Template : Type := {
  t_id : string;
  t_name : string;
  t_path : string;
  t_description : string;
}.

(** An uploaded file ([werkzeug] [FileStorage]); it is false when its
    filename is empty. *)
Record FileStorage : Type := {
  fs_filename : string;
  fs_content : string;
}.

(** The module globals, the files on disk (path to content) and the
    requests posted to LiveTalking so far.  [voice_templates] is a Python
    dict: an association list in insertion order with distinct keys. *)
Record Front : Type := {
  digital_human_connected : bool;
  digital_human_sessionid : Z;
  voice_templates : list (string * Template);
  files : gmap string string;
  posted : list HumanParams;
}.

Definition DIGITAL_HUMAN_CHANNEL_ID : Z := 100.

(** *** Python dicts in insertion order *)

(** [d[k]] for a present key, [None] for [k not in d]. *)
Fixpoint dict_get {V : Type} (k : string) (d : list (string * V)) : option V :=
  match d with
  | [] => None
  | (k', v) :: rest => if String.eqb k k' then Some v else dict_get k rest
  end.

(** [d[k] = v]: a present key keeps its place, a new key goes last. *)
Fixpoint dict_set {V : Type} (k : string) (v : V) (d : list (string * V))
    : list (string * V) :=
  match d with
  | [] => [(k, v)]
  | (k', v') :: rest =>
      if String.eqb k k' then (k, v) :: rest else (k', v') :: dict_set k v rest
  end.

(** [del d[k]] for a present key. *)
Fixpoint dict_del {V : Type} (k : string) (d : list (string * V))
    : list (string * V) :=
  match d with
  | [] => []
  | (k', v') :: rest =>
      if String.eqb k k' then rest else (k', v') :: dict_del k rest
  end.

(** *** [os.path.join] on POSIX, two components *)

Definition startswith_sep (b : string) : bool :=
  match b with
  | String c _ => Ascii.eqb c "/"%char
  | EmptyString => false
  end.

Fixpoint endswith_sep (a : string) : bool :=
  match a with
  | EmptyString => false
  | String c EmptyString => Ascii.eqb c "/"%char
  | String _ rest => endswith_sep rest
  end.

Definition path_join (a b : string) : string :=
  if startswith_sep b then b
  else if String.eqb a "" || endswith_sep a then a +:+ b
  else a +:+ "/" +:+ b.

(** *** Truth values *)

(** [not s] for a form or JSON string that may be absent. *)
Definition falsy (s : option string) : bool :=
  match s with
  | None => true
  | Some v => String.eqb v ""
  end.

(** [not voice_file] *)
Definition no_file (f : option FileStorage) : bool :=
  match f with
  | None => true
  | Some v => String.eqb (fs_filename v) ""
  end.

Section Handlers.
(** [VOICES_DIR], read from the environment at import. *)
Variable VOICES_DIR : string.
(** [int(s)] on a form string. *)
Variable py_int : string -> result Z.

(** [send_to_livetalking], lines 82-97.  [post] is the outcome of
    [requests.post]: the status code of the response, or an exception.
    The JSON body has the keys [type], [text] and [sessionid]. *)
Definition send_to_livetalking (post : HumanParams -> result Z)
    (text : string) (sessionid : Z) (st : Front) : bool * Front :=
  let body := {| hp_sessionid := Some sessionid; hp_type := Some "echo";
                 hp_text := Some text; hp_interrupt := false |} in
  let st' := {| digital_human_connected := digital_human_connected st;
                digital_human_sessionid := digital_human_sessionid st;
                voice_templates := voice_templates st;
                files := files st;
                posted := posted st ++ [body] |} in
  match post body with
  | Ok status => (bool_decide (status = 200), st')
  | Raise _ => (false, st')
  end.

(** [tts_and_send], lines 99-120.  The looked-up [voice_path] is not used
    afterwards. *)
Definition tts_and_send (post : HumanParams -> result Z)
    (text voice_id : string) (st : Front) : bool * Front :=
  let voice_path :=
    if negb (String.eqb voice_id "") && negb (String.eqb voice_id "default") then
      match dict_get voice_id (voice_templates st) with
      | Some t => Some (t_path t)
      | None => None
      end
    else None in
  send_to_livetalking post text (digital_human_sessionid st) st.

(** The body of a [/tts] request: a multipart form, or what
    [request.get_json()] gives (an exception, [None], or the object). *)
Record TtsData : Type := {
  td_text : option string;
  td_voice_id : option string;
  td_channel_id : option Z;
}.

Inductive TtsRequest : Type :=
| TtsForm (text voice_id channel_id : option string)
| TtsJson (data : result (option TtsData)).

(** The three parameters that [tts] reads, lines 161-169. *)
Definition tts_params (req : TtsRequest) : result (string * string * Z) :=
  match req with
  | TtsForm text voice_id channel_id =>
      match (match channel_id with
             | Some c => py_int c
             | None => Ok DIGITAL_HUMAN_CHANNEL_ID
             end) with
      | Ok channel => Ok (default "" text, default "default" voice_id, channel)
      | Raise e => Raise e
      end
  | TtsJson (Raise e) => Raise e
  | TtsJson (Ok None) => Ok ("", "default", DIGITAL_HUMAN_CHANNEL_ID)
  | TtsJson (Ok (Some data)) =>
      Ok (default "" (td_text data), default "default" (td_voice_id data),
          default DIGITAL_HUMAN_CHANNEL_ID (td_channel_id data))
  end.

(** [tts], lines 156-189. *)
Definition tts (post : HumanParams -> result Z) (req : TtsRequest) (st : Front)
    : reply * Front :=
  match tts_params req with
  | Raise e => (error_reply e 500, st)
  | Ok (text, voice_id, channel_id) =>
      if String.eqb text "" then (error_reply "text is required" 400, st)
      else if bool_decide (channel_id = DIGITAL_HUMAN_CHANNEL_ID) then
        let '(success, st') := tts_and_send post text voice_id st in
        if success
        then ((FObj [("success", FBool true);
                     ("message", FStr "Sent to digital human")], 200), st')
        else (error_reply "Failed to send to digital human" 500, st')
      else (error_reply "Channel not supported" 400, st)
  end.

(** [digital_human_status], lines 139-154.  For a POST, [body] is what
    [request.get_json()] gives; its exception is not caught here. *)
Record StatusData : Type := {
  sd_connected : option bool;
  sd_sessionid : option Z;
}.

Definition digital_human_status_post (body : result (option StatusData)) (st : Front)
    : result reply * Front :=
  match body with
  | Raise e => (Raise e, st)
  | Ok data =>
      let connected := match data with Some d => default false (sd_connected d) | None => false end in
      let sessionid := match data with Some d => default 0 (sd_sessionid d) | None => 0 end in
      (Ok (FObj [("success", FBool true)], 200),
       {| digital_human_connected := connected;
          digital_human_sessionid := sessionid;
          voice_templates := voice_templates st;
          files := files st;
          posted := posted st |})
  end.

Definition digital_human_status_get (st : Front) : reply :=
  (FObj [("connected", FBool (digital_human_connected st));
         ("sessionid", FNum (digital_human_sessionid st))], 200).

Definition template_json (t : Template) : fjson :=
  FObj [("id", FStr (t_id t)); ("name", FStr (t_name t));
        ("path", FStr (t_path t)); ("description", FStr (t_description t))].

(** [list_voices], lines 191-196. *)
Definition list_voices (st : Front) : reply :=
  (FObj [("voices", FList (map (fun kv => template_json (snd kv)) (voice_templates st)))],
   200).

(** [upload_voice], lines 198-229.  [makedirs_raises] and [save_raises]
    tell whether [os.makedirs] and [voice_file.save] raise. *)
Definition upload_voice (makedirs_raises save_raises : option string)
    (voice_id description : option string) (voice_file : option FileStorage)
    (st : Front) : reply * Front :=
  if falsy voice_id then (error_reply "voice_id is required" 400, st)
  else if no_file voice_file then (error_reply "file is required" 400, st)
  else
    match voice_id, voice_file with
    | Some voice_id, Some voice_file =>
        match makedirs_raises with
        | Some e => (error_reply e 500, st)
        | None =>
            let voice_path := path_join VOICES_DIR (voice_id +:+ ".wav") in
            match save_raises with
            | Some e => (error_reply e 500, st)
            | None =>
                ((FObj [("success", FBool true); ("voice_id", FStr voice_id)], 200),
                 {| digital_human_connected := digital_human_connected st;
                    digital_human_sessionid := digital_human_sessionid st;
                    voice_templates :=
                      dict_set voice_id
                        {| t_id := voice_id; t_name := voice_id;
                           t_path := voice_path;
                           t_description := default "" description |}
                        (voice_templates st);
                    files := <[voice_path := fs_content voice_file]> (files st);
                    posted := posted st |})
            end
        end
    | _, _ => (error_reply "voice_id is required" 400, st)
    end.

(** [delete_voice], lines 231-249.  [remove_raises] tells whether
    [os.remove] raises. *)
Definition delete_voice (remove_raises : option string) (voice_id : string)
    (st : Front) : reply * Front :=
  match dict_get voice_id (voice_templates st) with
  | None => (error_reply "Voice not found" 404, st)
  | Some t =>
      let voice_path := t_path t in
      let removed :=
        if bool_decide (is_Some (files st !! voice_path)) then
          match remove_raises with
          | Some e => Raise e
          | None => Ok (delete voice_path (files st))
          end
        else Ok (files st) in
      match removed with
      | Raise e => (error_reply e 500, st)
      | Ok files' =>
          ((FObj [("success", FBool true)], 200),
           {| digital_human_connected := digital_human_connected st;
              digital_human_sessionid := digital_human_sessionid st;
              voice_templates := dict_del voice_id (voice_templates st);
              files := files';
              posted := posted st |})
      end
  end.
End Handlers.

(** The status code that [requests.post] sees when the [/human] handler
    above serves the request: a returned [web.Response] has status 200, an
    escaped exception gives 500. *)
Definition human_status (out : result response) : Z :=
  match out with
  | Ok _ => 200
  | Raise _ => 500
  end.

(** [resp.status_code == 200] for the outcome of [requests.post], false
    when the call raised. *)
Definition accepted (r : result Z) : bool :=
  match r with
  | Ok status => bool_decide (status = 200)
  | Raise _ => false
  end.

(** The echo that [send_to_livetalking] posts. *)
Definition echo_body (text : string) (sessionid : Z) : HumanParams :=
  {| hp_sessionid := Some sessionid; hp_type := Some "echo";
     hp_text := Some text; hp_interrupt := false |}.

(** The globals with one more request posted. *)
Definition with_posted (body : HumanParams) (st : Front) : Front :=
  {| digital_human_connected := digital_human_connected st;
     digital_human_sessionid := digital_human_sessionid st;
     voice_templates := voice_templates st;
     files := files st;
     posted := posted st ++ [body] |}.

(** The two replies of [tts] on the digital-human channel. *)
Definition sent_reply : reply :=
  (FObj [("success", FBool true); ("message", FStr "Sent to digital human")], 200).
Definition not_sent_reply : reply :=
  (FObj [("error", FStr "Failed to send to digital human")], 500).

(** [requests.post] against a LiveTalking server in state [s] that is
    reachable. *)
Definition post_to_human (raises : Effect -> option string) (s : State)
    (body : HumanParams) : result Z :=
  Ok (human_status (fst (human raises (Ok body) s))).

End Frontend.

(** The template that [upload_voice] registers and the reply it gives. *)
Definition uploaded_template (VOICES_DIR voice_id : string)
    (description : option string) : Frontend.Template :=
  {| Frontend.t_id := voice_id; Frontend.t_name := voice_id;
     Frontend.t_path := Frontend.path_join VOICES_DIR (voice_id +:+ ".wav");
     Frontend.t_description := default "" description |}.

Definition uploaded_reply (voice_id : string) : Frontend.reply :=
  (Frontend.FObj [("success", Frontend.FBool true);
                  ("voice_id", Frontend.FStr voice_id)], 200).

(** The keys of a dict. *)
Definition dict_keys {V : Type} (d : list (string * V)) : list string := map fst d.

(** * The TTS server, [indextts2/api_server.py] *)

Module IndexTTS2.

(** What [/tts] answers: the WAV file, or [jsonify({'error': msg})] with a
    status. *)
Inductive tts_reply : Type :=
| Wav (audio : string)
| Failed (msg : string) (status : Z).

(** [load_model], lines 34-48.  The global [model] is [None] until the
    first successful load; [ctor] is the outcome of importing and
    constructing [IndexTTS], whose exception is logged and re-raised. *)
Definition load_model (ctor : result nat) (model : option nat)
    : result nat * option nat :=
  match model with
  | Some m => (Ok m, Some m)
  | None =>
      match ctor with
      | Ok m => (Ok m, Some m)
      | Raise e => (Raise e, None)
      end
  end.

(** The collaborators of one [/tts] request: the name of the temporary
    file and whether saving the upload to it raises, which paths exist,
    the synthesis [tts_model.tts(text[, reference])] and the WAV encoding
    by [soundfile.write]. *)
Record TtsEnv : Type := {
  tmp_name : string;
  save_raises : option string;
  path_exists : string -> bool;
  synth : nat -> string -> option string -> result string;
  sf_write : string -> result string;
}.

(** The body of a request: a multipart form with its [voice] file, or
    what [request.get_json()] gives. *)
Record TtsData : Type := {
  td_text : option string;
  td_voice_id : option string;
}.

Inductive TtsRequest : Type :=
| TtsForm (text voice_id : option string) (voice : option Frontend.FileStorage)
| TtsJson (data : result (option TtsData)).

Section Handlers.
(** [VOICES_DIR], read from the environment at import. *)
Variable VOICES_DIR : string.

(** Lines 67-75. *)
Definition tts_params (req : TtsRequest)
    : result (string * string * option Frontend.FileStorage) :=
  match req with
  | TtsForm text voice_id voice => Ok (default "" text, default "default" voice_id, voice)
  | TtsJson (Raise e) => Raise e
  | TtsJson (Ok None) => Ok ("", "default", None)
  | TtsJson (Ok (Some data)) =>
      Ok (default "" (td_text data), default "default" (td_voice_id data), None)
  end.

(** Lines 86-96: the reference audio chosen from the upload or the preset
    voice; [Raise] when saving the upload fails. *)
Definition ref_audio_path (env : TtsEnv) (voice_id : string)
    (voice_file : option Frontend.FileStorage) : result (option string) :=
  if negb (Frontend.no_file voice_file) then
    match save_raises env with
    | Some e => Raise e
    | None => Ok (Some (tmp_name env))
    end
  else if negb (String.eqb voice_id "") && negb (String.eqb voice_id "default") then
    let voice_path := Frontend.path_join VOICES_DIR (voice_id +:+ ".wav") in
    if path_exists env voice_path then Ok (Some voice_path) else Ok None
  else Ok None.

(** Lines 101-109: the synthesis call. *)
Definition generate (env : TtsEnv) (tts_model : nat) (text : string)
    (ref : option string) : result string :=
  if negb (Frontend.falsy ref) then synth env tts_model text ref
  else
    let default_voice := Frontend.path_join VOICES_DIR "default.wav" in
    if path_exists env default_voice
    then synth env tts_model text (Some default_voice)
    else synth env tts_model text None.

(** [tts], lines 59-129. *)
Definition tts (ctor : result nat) (env : TtsEnv) (req : TtsRequest)
    (model : option nat) : tts_reply * option nat :=
  match tts_params req with
  | Raise e => (Failed e 500, model)
  | Ok (text, voice_id, voice_file) =>
      if String.eqb text "" then (Failed "text is required" 400, model)
      else
        match load_model ctor model with
        | (Raise e, model') => (Failed e 500, model')
        | (Ok tts_model, model') =>
            match ref_audio_path env voice_id voice_file with
            | Raise e => (Failed e 500, model')
            | Ok ref =>
                match generate env tts_model text ref with
                | Raise e => (Failed e 500, model')
                | Ok audio_data =>
                    match sf_write env audio_data with
                    | Raise e => (Failed e 500, model')
                    | Ok wav => (Wav wav, model')
                    end
                end
            end
        end
  end.
End Handlers.

(** One [/tts] request together with what its collaborators would do. *)
Record TtsCall : Type := {
  tc_ctor : result nat;
  tc_env : TtsEnv;
  tc_req : TtsRequest;
}.

(** The global [model] after requests that are handled one at a time,
    each from its first line to its reply before the next one starts.
    The server runs its handlers on threads (line 177); requests that
    overlap are not executions of [serve]. *)
Definition serve (VOICES_DIR : string) (model : option nat)
    (calls : list TtsCall) : option nat :=
  fold_left (fun model c => snd (tts VOICES_DIR (tc_ctor c) (tc_env c) (tc_req c) model))
            calls model.

(** [load_model] as the threads of the server run it (line 177 serves
    with [threaded=True]).  Between the test of line 37 and the assignment
    of line 43 lie the import and the constructor, and another thread can
    run there: [past_test] holds the threads that found no model and have
    not assigned yet, [built] the models constructed so far, the latest
    first. *)
Record Loading : Type := {
  global_model : option nat;
  past_test : list nat;
  built : list nat;
}.

Inductive LoadEvent : Type :=
| LmTest (thread : nat)
| LmAssign (thread : nat) (ctor : result nat).

Definition load_step (l : Loading) (ev : LoadEvent) : Loading :=
  match ev with
  | LmTest t =>
      match global_model l with
      | None => {| global_model := None; past_test := t :: past_test l;
                   built := built l |}
      | Some _ => l
      end
  | LmAssign t ctor =>
      if bool_decide (t ∈ past_test l) then
        match ctor with
        | Ok m => {| global_model := Some m;
                     past_test := remove_first t (past_test l);
                     built := m :: built l |}
        | Raise _ => {| global_model := global_model l;
                        past_test := remove_first t (past_test l);
                        built := built l |}
        end
      else l
  end.

Definition load_run (l : Loading) (evs : list LoadEvent) : Loading :=
  fold_left load_step evs l.

End IndexTTS2.

(** * Properties *)

(** ** Session ids *)

Lemma pow10_step (k : Z) : 0 <= k -> 10 ^ k <= 10 ^ (k + 1) - 1.
Proof.
  intros Hk.
  rewrite Z.pow_add_r by lia.
  assert (0 < 10 ^ k) by (apply Z.pow_pos_nonneg; lia).
  change (10 ^ 1) with 10. lia.
Qed.

Lemma randN_bounds (randint : Z -> Z -> Z) (N : Z) :
  (forall a b, a <= b -> a <= randint a b <= b) ->
  1 <= N ->
  10 ^ (N - 1) <= randN randint N <= 10 ^ N - 1.
Proof.
  intros Hrand HN. unfold randN.
  apply Hrand.
  replace N with ((N - 1) + 1) at 2 by lia.
  apply pow10_step. lia.
Qed.

(** The first segment of [offer] either answers or suspends with the id it
    drew, which is [randN(6)]. *)
Lemma offer_admit_sessionid opt RTCSessionDescription randint body s sessionid s' :
  offer_admit opt RTCSessionDescription randint body s = (Ok (inr sessionid), s') ->
  sessionid = randN randint 6 /\
  s' = set_nerfreals (insert sessionid None) s.
Proof.
  unfold offer_admit, try_except, offer_admit_body.
  unfold mbind, M_bind, mret, M_ret, lift, raise, gets, setitem, modify.
  destruct body as [params|e]; [|intros [=]].
  destruct (op_sdp params) as [sdp|]; [|intros [=]].
  destruct (op_type params) as [type|]; [|intros [=]].
  destruct (RTCSessionDescription sdp type) as [d|e]; [|intros [=]].
  destruct (at_capacity opt (size (nerfreals s))); intros [= <- <-]; done.
Qed.

(** C8. For every integer [N >= 1], and a [random.randint] that answers
    within the bounds it is given, [randN(N)] lies in
    [[10^(N-1), 10^N - 1]], that is, it has exactly [N] digits; and every
    session id with which [offer] suspends on the executor (drawn with
    [N = 6]) lies in [[100000, 999999]]. *)
Theorem C8_randN_bounded (randint : Z -> Z -> Z) (N : Z) :
  (forall a b, a <= b -> a <= randint a b <= b) ->
  1 <= N ->
  10 ^ (N - 1) <= randN randint N <= 10 ^ N - 1 /\
  (forall opt RTCSessionDescription body s sessionid s',
      offer_admit opt RTCSessionDescription randint body s = (Ok (inr sessionid), s') ->
      100000 <= sessionid <= 999999).
Proof.
  intros Hrand HN. split.
  - by apply randN_bounds.
  - intros opt RTC body s sessionid s' Hadmit.
    apply offer_admit_sessionid in Hadmit as [-> _].
    pose proof (randN_bounds randint 6 Hrand ltac:(lia)) as H6.
    change (10 ^ (6 - 1)) with 100000 in H6.
    change (10 ^ 6 - 1) with 999999 in H6.
    exact H6.
Qed.

(** A [randint] that always answers its lower bound, at [N = 6]. *)
Lemma C8_randN_bounded_witness :
  100000 <= randN (fun a _ => a) 6 <= 999999.
Proof.
  pose proof (C8_randN_bounded (fun a _ => a) 6) as H.
  destruct H as [H _]; [intros a b Hab; lia | lia |].
  exact H.
Defined.

(** ** Codec preferences *)

Lemma append_matching_filter family codecs preferences :
  append_matching family codecs preferences =
  preferences ++ List.filter (in_family family) codecs.
Proof.
  unfold append_matching.
  revert preferences.
  induction codecs as [|c codecs IH]; intros preferences; simpl.
  - by rewrite app_nil_r.
  - rewrite IH. unfold in_family.
    destruct (String.eqb (mimeType c) family); [|done].
    by rewrite <- app_assoc.
Qed.

Lemma codec_preferences_filter codecs :
  codec_preferences codecs =
  List.filter (in_family "video/H264") codecs
  ++ List.filter (in_family "video/VP8") codecs
  ++ List.filter (in_family "video/rtx") codecs.
Proof.
  unfold codec_preferences.
  rewrite !append_matching_filter. simpl. by rewrite <- app_assoc.
Qed.

Lemma occurrences_app l1 l2 c :
  occurrences (l1 ++ l2) c = (occurrences l1 c + occurrences l2 c)%nat.
Proof. apply count_occ_app. Qed.

Lemma occurrences_filter (f : RTCRtpCodecCapability -> bool) codecs c :
  occurrences (List.filter f codecs) c =
  if f c then occurrences codecs c else 0%nat.
Proof.
  unfold occurrences.
  induction codecs as [|d codecs IH]; simpl.
  - by destruct (f c).
  - destruct (f d) eqn:Hd; simpl.
    + destruct (RTCRtpCodecCapability_eq_dec d c) as [->|Hne]; rewrite IH.
      * by rewrite Hd.
      * done.
    + rewrite IH. destruct (RTCRtpCodecCapability_eq_dec d c) as [->|Hne].
      * by rewrite Hd.
      * done.
Qed.

Lemma set_first_video_elem preferences transceivers t :
  t ∈ set_first_video preferences transceivers ->
  t ∈ transceivers \/ (kind t = "video" /\ preferred t = Some preferences).
Proof.
  induction transceivers as [|u rest IH]; simpl; [by left|].
  destruct (String.eqb (kind u) "video") eqn:Hk.
  - intros [->|Hin]%elem_of_cons.
    + right. simpl. split; [by apply String.eqb_eq | done].
    + left. by apply elem_of_cons; right.
  - intros [->|Hin]%elem_of_cons.
    + left. by apply elem_of_cons; left.
    + destruct (IH Hin) as [?|?]; [left | by right].
      by apply elem_of_cons; right.
Qed.

(** C7. For any capability list the preference list is the H264 entries,
    then the VP8 entries, then the rtx entries, each family in the order of
    the capability list (one full scan per family, matches concatenated);
    every entry of a preferred family occurs as often as in the capability
    list; [[VP8, H264, rtx, H264]] gives [[H264, H264, VP8, rtx]]; and the
    transceivers are left as they are when the list is empty, otherwise
    the list is handed to the first video transceiver, so a transceiver
    that is changed carries a non-empty preference list. *)
Theorem C7_codec_preference_order
    (codecs : list RTCRtpCodecCapability)
    (caps : result (option (list RTCRtpCodecCapability)))
    (ts : list RTCRtpTransceiver) :
  codec_preferences codecs =
    List.filter (in_family "video/H264") codecs
    ++ List.filter (in_family "video/VP8") codecs
    ++ List.filter (in_family "video/rtx") codecs
  /\ (forall c,
        in_family "video/H264" c || in_family "video/VP8" c || in_family "video/rtx" c = true ->
        occurrences (codec_preferences codecs) c = occurrences codecs c)
  /\ codec_preferences [codec_VP8; codec_H264_a; codec_rtx; codec_H264_b]
       = [codec_H264_a; codec_H264_b; codec_VP8; codec_rtx]
  /\ (codec_preferences codecs = [] ->
        apply_codec_preferences (Ok (Some codecs)) ts = ts)
  /\ (codec_preferences codecs <> [] ->
        apply_codec_preferences (Ok (Some codecs)) ts =
        set_first_video (codec_preferences codecs) ts)
  /\ (forall t, t ∈ apply_codec_preferences caps ts ->
        t ∈ ts \/
        exists cs, caps = Ok (Some cs) /\ kind t = "video" /\
                   preferred t = Some (codec_preferences cs) /\
                   codec_preferences cs <> []).
Proof.
  split; [apply codec_preferences_filter|].
  split.
  { intros c Hc. rewrite codec_preferences_filter.
    rewrite !occurrences_app, !occurrences_filter.
    unfold in_family in *.
    destruct (String.eqb_spec (mimeType c) "video/H264") as [E1|N1].
    - rewrite E1. simpl. lia.
    - destruct (String.eqb_spec (mimeType c) "video/VP8") as [E2|N2].
      + rewrite E2. simpl. lia.
      + destruct (String.eqb_spec (mimeType c) "video/rtx") as [E3|N3].
        * lia.
        * simpl in Hc. discriminate. }
  split; [reflexivity|].
  split.
  { intros Hnil. unfold apply_codec_preferences.
    destruct codecs; [done|]. by rewrite Hnil. }
  split.
  { intros Hne. unfold apply_codec_preferences.
    destruct codecs as [|c codecs]; [by destruct Hne|].
    destruct (codec_preferences (c :: codecs)); [by destruct Hne | done]. }
  intros t Hin. unfold apply_codec_preferences in Hin.
  destruct caps as [[cs|]|e]; [|by left|by left].
  destruct cs as [|c cs]; [by left|].
  destruct (codec_preferences (c :: cs)) as [|p ps] eqn:Hp; [by left|].
  apply set_first_video_elem in Hin as [?|[Hk Hpref]]; [by left|].
  right. exists (c :: cs). rewrite Hp. done.
Qed.

(** The capability list of the example, applied to an audio and a video
    transceiver. *)
Lemma C7_codec_preference_order_witness :
  apply_codec_preferences
    (Ok (Some [codec_VP8; codec_H264_a; codec_rtx; codec_H264_b]))
    [ {| kind := "audio"; preferred := None |};
      {| kind := "video"; preferred := None |} ]
  = [ {| kind := "audio"; preferred := None |};
      {| kind := "video";
         preferred := Some [codec_H264_a; codec_H264_b; codec_VP8; codec_rtx] |} ].
Proof.
  pose proof (C7_codec_preference_order
                [codec_VP8; codec_H264_a; codec_rtx; codec_H264_b]
                (Ok None)
                [ {| kind := "audio"; preferred := None |};
                  {| kind := "video"; preferred := None |} ])
    as (_ & _ & _ & _ & Happly & _).
  rewrite Happly; [reflexivity | discriminate].
Defined.

(** ** Command dispatch *)

Lemma contains_run sessionid s :
  contains sessionid s =
  (Ok (match nerfreals s !! sessionid with Some _ => true | None => false end), s).
Proof.
  unfold contains, gets. f_equal. f_equal.
  destruct (nerfreals s !! sessionid) as [v|].
  - apply bool_decide_eq_true_2. by exists v.
  - apply bool_decide_eq_false_2. by intros [? [=]].
Qed.

Lemma not_found_run sessionid s :
  not_found sessionid s = (Ok (negb (session_ready s sessionid)), s).
Proof.
  unfold not_found, mbind, M_bind. rewrite contains_run.
  unfold getitem, session_ready, mret, M_ret.
  destruct (nerfreals s !! sessionid) as [[r|]|] eqn:Hl; simpl; rewrite ?Hl; done.
Qed.

Lemma attached_run sessionid s :
  attached sessionid s = (Ok (session_ready s sessionid), s).
Proof.
  unfold attached, mbind, M_bind. rewrite contains_run.
  unfold getitem, session_ready, mret, M_ret.
  destruct (nerfreals s !! sessionid) as [[r|]|] eqn:Hl; simpl; rewrite ?Hl; done.
Qed.

Lemma session_ready_false s sessionid :
  session_ready s sessionid = false <->
  nerfreals s !! sessionid = None \/ nerfreals s !! sessionid = Some None.
Proof.
  unfold session_ready.
  destruct (nerfreals s !! sessionid) as [[r|]|]; split; intros H;
    try done; try (by left); try (by right).
  by destruct H.
Qed.

(** A body wrapped in [try / except Exception] whose handler only builds
    the error response always returns. *)
Lemma try_except_returns {A : Type} (body : M A) (f : string -> A) s :
  exists a s', try_except body (fun e => mret (f e)) s = (Ok a, s').
Proof.
  unfold try_except. destruct (body s) as [[a|e] s']; eauto.
Qed.

Ltac run_handler :=
  unfold try_except, mbind, M_bind, mret, M_ret, lift; simpl;
  rewrite ?not_found_run, ?attached_run; simpl.

Lemma human_not_ready raises params s :
  session_ready s (default 0 (hp_sessionid params)) = false ->
  human raises (Ok params) s = (Ok resp_session_not_found, s).
Proof.
  intros Hr. unfold human, human_body. run_handler. by rewrite Hr.
Qed.

Lemma humanaudio_not_ready py_int raises form sessionid s :
  match af_sessionid form with Some v => py_int v | None => Ok 0 end = Ok sessionid ->
  session_ready s sessionid = false ->
  humanaudio py_int raises (Ok form) s = (Ok resp_session_not_found, s).
Proof.
  intros Hid Hr. unfold humanaudio, humanaudio_body. run_handler.
  rewrite Hid. run_handler. by rewrite Hr.
Qed.

Lemma interrupt_talk_not_ready raises params s :
  session_ready s (default 0 (ip_sessionid params)) = false ->
  interrupt_talk raises (Ok params) s = (Ok resp_ok, s).
Proof.
  intros Hr. unfold interrupt_talk, interrupt_talk_body. run_handler. by rewrite Hr.
Qed.

Lemma set_audiotype_not_ready raises params s :
  session_ready s (default 0 (ap_sessionid params)) = false ->
  set_audiotype raises (Ok params) s = (Ok resp_ok, s).
Proof.
  intros Hr. unfold set_audiotype, set_audiotype_body. run_handler. by rewrite Hr.
Qed.

(** C5 (as the code has it). For a session id that is absent from the
    registry or whose entry is still the placeholder: the text command
    ([human], whatever its type, text and interrupt flag) and the audio
    upload ([humanaudio]) answer [{code: -1, msg: "session not found"}];
    the interrupt and set-playback-state endpoints answer
    [{code: 0, msg: "ok"}]; none of the four calls a renderer or changes
    the state; and for every request body and state each of the four
    handlers returns a response, no exception escapes. *)
Theorem C5_dispatch_without_renderer
    (py_int : string -> result Z) (raises : Effect -> option string)
    (s : State) (sessionid : Z)
    (type text : option string) (interrupt : bool)
    (field : string) (file : option FormValue) (audiotype : option Z) :
  nerfreals s !! sessionid = None \/ nerfreals s !! sessionid = Some None ->
  py_int field = Ok sessionid ->
  human raises
    (Ok {| hp_sessionid := Some sessionid; hp_type := type; hp_text := text;
           hp_interrupt := interrupt |}) s
    = (Ok resp_session_not_found, s)
  /\ humanaudio py_int raises
       (Ok {| af_sessionid := Some field; af_file := file |}) s
     = (Ok resp_session_not_found, s)
  /\ interrupt_talk raises (Ok {| ip_sessionid := Some sessionid |}) s
     = (Ok resp_ok, s)
  /\ set_audiotype raises
       (Ok {| ap_sessionid := Some sessionid; ap_audiotype := audiotype |}) s
     = (Ok resp_ok, s)
  /\ (forall body s0, exists r s', human raises body s0 = (Ok r, s'))
  /\ (forall form s0, exists r s', humanaudio py_int raises form s0 = (Ok r, s'))
  /\ (forall body s0, exists r s', interrupt_talk raises body s0 = (Ok r, s'))
  /\ (forall body s0, exists r s', set_audiotype raises body s0 = (Ok r, s')).
Proof.
  intros Hmissing%session_ready_false Hint.
  split; [by apply human_not_ready|].
  split; [by apply (humanaudio_not_ready _ _ _ sessionid)|].
  split; [by apply interrupt_talk_not_ready|].
  split; [by apply set_audiotype_not_ready|].
  repeat split; intros; apply try_except_returns.
Qed.

Lemma C5_dispatch_without_renderer_witness :
  human (fun _ => None)
    (Ok {| hp_sessionid := Some 123456; hp_type := Some "echo";
           hp_text := Some "hello"; hp_interrupt := true |}) pending_only
  = (Ok resp_session_not_found, pending_only).
Proof.
  refine (proj1 (C5_dispatch_without_renderer
                   (fun _ => Ok 123456) (fun _ => None) pending_only 123456
                   (Some "echo") (Some "hello") true "123456" None None _ _)).
  - right. reflexivity.
  - reflexivity.
Defined.

(** C5 as stated fails for two of the four command kinds: on an empty
    registry the interrupt and the set-playback-state endpoints answer
    [{code: 0, msg: "ok"}] for session 123456, which is not the
    session-not-found response. *)
Lemma C5_interrupt_replies_ok_for_absent_session :
  nerfreals (shared initial) !! 123456 = None
  /\ interrupt_talk (fun _ => None) (Ok {| ip_sessionid := Some 123456 |})
       (shared initial)
     = (Ok [("code", JInt 0); ("msg", JStr "ok")], shared initial)
  /\ set_audiotype (fun _ => None)
       (Ok {| ap_sessionid := Some 123456; ap_audiotype := Some 1 |})
       (shared initial)
     = (Ok [("code", JInt 0); ("msg", JStr "ok")], shared initial)
  /\ [("code", JInt 0); ("msg", JStr "ok")] <> resp_session_not_found.
Proof.
  repeat split; try reflexivity. discriminate.
Qed.

(** C10. For a session with an attached renderer, an audio upload without a
    file answers [{code: 0, msg: "ok"}] and leaves the whole state as it
    was: the registry is unchanged and the list of collaborator calls is
    unchanged, so nothing is stored and [put_audio_file] is not invoked. *)
Theorem C10_humanaudio_without_file
    (py_int : string -> result Z) (raises : Effect -> option string)
    (s : State) (sessionid : Z) (r : BaseReal) (form : AudioForm) :
  nerfreals s !! sessionid = Some (Some r) ->
  match af_sessionid form with Some v => py_int v | None => Ok 0 end = Ok sessionid ->
  af_file form = None ->
  humanaudio py_int raises (Ok form) s
  = (Ok [("code", JInt 0); ("msg", JStr "ok")], s).
Proof.
  intros Hr Hid Hfile.
  unfold humanaudio, humanaudio_body. run_handler.
  rewrite Hid. run_handler.
  unfold session_ready. rewrite Hr. simpl. by rewrite Hfile.
Qed.

(** An upload that names the attached session 123456 and carries no file;
    every collaborator call would raise, and none is made. *)
Lemma C10_humanaudio_without_file_witness :
  humanaudio (fun _ => Ok 123456) (fun _ => Some "unreachable")
    (Ok {| af_sessionid := Some "123456"; af_file := None |}) one_attached
  = (Ok [("code", JInt 0); ("msg", JStr "ok")], one_attached).
Proof.
  apply (C10_humanaudio_without_file _ _ one_attached 123456 (MuseReal 0));
    reflexivity.
Defined.

(** ** Commands leave the registry alone *)

Lemma readonly_ret {A : Type} (a : A) : readonly (mret a).
Proof. by intros s. Qed.

Lemma readonly_raise {A : Type} msg : readonly (@raise A msg).
Proof. by intros s. Qed.

Lemma readonly_lift {A : Type} (r : result A) : readonly (lift r).
Proof. by intros s. Qed.

Lemma readonly_gets {A : Type} (f : State -> A) : readonly (gets f).
Proof. by intros s. Qed.

Lemma readonly_contains sessionid : readonly (contains sessionid).
Proof. by intros s. Qed.

Lemma readonly_getitem sessionid : readonly (getitem sessionid).
Proof. intros s. unfold getitem. by destruct (nerfreals s !! sessionid). Qed.

Lemma readonly_attr name v : readonly (attr name v).
Proof. destruct v; [apply readonly_ret | apply readonly_raise]. Qed.

Lemma readonly_call raises e : readonly (call raises e).
Proof. by intros s. Qed.

Lemma readonly_bind {A B : Type} (c : M A) (k : A -> M B) :
  readonly c -> (forall a, readonly (k a)) -> readonly (c ≫= k).
Proof.
  intros Hc Hk s. unfold mbind, M_bind.
  specialize (Hc s). destruct (c s) as [[a|e] s1]; simpl in *.
  - by rewrite Hk.
  - done.
Qed.

Lemma readonly_try_except {A : Type} (body : M A) (h : string -> M A) :
  readonly body -> (forall e, readonly (h e)) -> readonly (try_except body h).
Proof.
  intros Hb Hh s. unfold try_except.
  specialize (Hb s). destruct (body s) as [[a|e] s1]; simpl in *.
  - done.
  - by rewrite Hh.
Qed.

Create HintDb readonly.
#[local] Hint Resolve readonly_ret readonly_raise readonly_lift readonly_gets
  readonly_contains readonly_getitem readonly_attr readonly_call : readonly.

Ltac readonly_steps :=
  repeat first
    [ apply readonly_try_except; [|intros ?]
    | apply readonly_bind; [|intros ?]
    | solve [auto with readonly]
    | match goal with
      | |- readonly (if ?b then _ else _) => destruct b
      | |- readonly (match ?x with _ => _ end) => destruct x
      end ].

Lemma readonly_not_found sessionid : readonly (not_found sessionid).
Proof. unfold not_found. readonly_steps. Qed.

Lemma readonly_attached sessionid : readonly (attached sessionid).
Proof. unfold attached. readonly_steps. Qed.

#[local] Hint Resolve readonly_not_found readonly_attached : readonly.

Lemma readonly_human raises body : readonly (human raises body).
Proof. unfold human, human_body. readonly_steps. Qed.

Lemma readonly_interrupt_talk raises body : readonly (interrupt_talk raises body).
Proof. unfold interrupt_talk, interrupt_talk_body. readonly_steps. Qed.

Lemma readonly_humanaudio py_int raises form : readonly (humanaudio py_int raises form).
Proof. unfold humanaudio, humanaudio_body. readonly_steps. Qed.

Lemma readonly_set_audiotype raises body : readonly (set_audiotype raises body).
Proof. unfold set_audiotype, set_audiotype_body. readonly_steps. Qed.

Lemma readonly_health opt : readonly (health opt).
Proof. unfold health. readonly_steps. Qed.

(** ** The segments of [offer] and the cleanup, as state transformers *)

Lemma offer_admit_well_formed opt RTCSessionDescription randint body s :
  well_formed RTCSessionDescription body = true ->
  offer_admit opt RTCSessionDescription randint body s =
  if at_capacity opt (size (nerfreals s)) then (Ok (inl resp_reach_max), s)
  else (Ok (inr (randN randint 6)),
        set_nerfreals (insert (randN randint 6) None) s).
Proof.
  unfold well_formed, offer_admit, try_except, offer_admit_body.
  unfold mbind, M_bind, mret, M_ret, lift, raise, gets, setitem, modify.
  destruct body as [params|e]; [|done].
  destruct (op_sdp params) as [sdp|]; [|done].
  destruct (op_type params) as [type|]; [|done].
  destruct (RTCSessionDescription sdp type) as [d|e]; [|done].
  intros _. by destruct (at_capacity opt (size (nerfreals s))).
Qed.

Lemma offer_admit_malformed opt RTCSessionDescription randint body s :
  well_formed RTCSessionDescription body = false ->
  exists e, offer_admit opt RTCSessionDescription randint body s
            = (Ok (inl (code_msg (-1) e)), s).
Proof.
  unfold well_formed, offer_admit, try_except, offer_admit_body.
  unfold mbind, M_bind, mret, M_ret, lift, raise, gets, setitem, modify.
  destruct body as [params|e]; [|by eauto].
  destruct (op_sdp params) as [sdp|]; [|by eauto].
  destruct (op_type params) as [type|]; [|by eauto].
  destruct (RTCSessionDescription sdp type) as [d|e]; [done|by eauto].
Qed.

(** The first segment either answers and leaves the state as it was, or
    finds room, writes the placeholder and suspends. *)
Lemma offer_admit_cases opt RTCSessionDescription randint body s :
  (exists r, offer_admit opt RTCSessionDescription randint body s = (Ok (inl r), s))
  \/ (well_formed RTCSessionDescription body = true
      /\ at_capacity opt (size (nerfreals s)) = false
      /\ offer_admit opt RTCSessionDescription randint body s =
           (Ok (inr (randN randint 6)),
            set_nerfreals (insert (randN randint 6) None) s)).
Proof.
  destruct (well_formed RTCSessionDescription body) eqn:Hwf.
  - rewrite offer_admit_well_formed by done.
    destruct (at_capacity opt (size (nerfreals s))); [left | right]; eauto.
  - left. destruct (offer_admit_malformed opt _ randint body s Hwf) as [e He]. eauto.
Qed.

Lemma at_capacity_true opt n :
  at_capacity opt n = true <->
  exists o m, opt = Some o /\ max_session o = Some m /\ m <= Z.of_nat n.
Proof.
  unfold at_capacity. split.
  - destruct opt as [o|]; [|done].
    destruct (max_session o) as [m|] eqn:Hm; [|done].
    intros H%bool_decide_eq_true. eauto.
  - intros (o & m & -> & -> & Hle). by apply bool_decide_eq_true.
Qed.

(** The second segment after a failed build: the exception surfaces as the
    error response and the state is not touched. *)
Lemma offer_resume_failed sessionid e env s :
  offer_resume sessionid (Raise e) env s = (Ok (code_msg (-1) e), s).
Proof. reflexivity. Qed.

(** The second segment after a successful build: the renderer is assigned
    to [nerfreals[sessionid]] whatever the registry holds, a peer
    connection is created and its callback captures [sessionid]. *)
Lemma offer_resume_built sessionid r env s :
  exists resp s',
    offer_resume sessionid (Ok r) env s = (Ok resp, s')
    /\ nerfreals s' = <[sessionid := Some r]> (nerfreals s)
    /\ handlers s' = <[next_pc s := sessionid]> (handlers s)
    /\ next_pc s' = S (next_pc s).
Proof.
  unfold offer_resume, try_except, offer_resume_body, new_pc, add_tracks.
  unfold mbind, M_bind, mret, M_ret, lift, raise, gets, setitem, modify, getitem.
  simpl. rewrite lookup_insert_eq.
  destruct (human_player env) as [e|]; simpl; [by eauto 10|].
  destruct (local_description env) as [d|e]; simpl; by eauto 10.
Qed.

Lemma cleanup_run pc sessionid s :
  cleanup pc sessionid s =
  (Ok tt, set_nerfreals (delete sessionid) (set_pcs (delete pc) s)).
Proof.
  unfold cleanup, mbind, M_bind, modify. rewrite contains_run. simpl.
  unfold delitem, mret, M_ret. simpl.
  destruct (nerfreals s !! sessionid) as [v|] eqn:Hl; simpl; rewrite ?Hl; [done|].
  unfold set_nerfreals. simpl. by rewrite delete_id.
Qed.

(** ** What one step does to the registry *)

Lemma elem_of_remove_first {A : Type} `{EqDecision A} (x y : A) (l : list A) :
  x ∈ remove_first y l -> x ∈ l.
Proof.
  induction l as [|z l IH]; simpl; [done|].
  destruct (decide (y = z)) as [->|Hne].
  - intros Hx. by apply elem_of_cons; right.
  - intros [->|Hx]%elem_of_cons; apply elem_of_cons; [by left | right; auto].
Qed.

Section Steps.
Variable opt : option Opt.
Variable py_int : string -> result Z.
Variable RTCSessionDescription : string -> string -> result (string * string).

Abbreviation step := (step opt py_int RTCSessionDescription).
Abbreviation run := (run opt py_int RTCSessionDescription).
Abbreviation undisturbed := (undisturbed opt py_int RTCSessionDescription).
Abbreviation acts := (acts opt RTCSessionDescription).

Lemma replied_readonly y (c : M response) :
  readonly c ->
  registry (fst (replied y (c (shared y)))) = registry y
  /\ building (fst (replied y (c (shared y)))) = building y
  /\ handlers (shared (fst (replied y (c (shared y))))) = handlers (shared y).
Proof.
  intros Hc. specialize (Hc (shared y)). unfold replied, registry, frame in *.
  destruct (c (shared y)) as [[r|e] s]; simpl in *; by simplify_eq.
Qed.

Lemma step_acts y ev : acts y ev (fst (step y ev)).
Proof.
  destruct ev as [body randint|sessionid ctor env|pc st|pc| | | | |]; simpl.
  - destruct (offer_admit_cases opt RTCSessionDescription randint body (shared y))
      as [[r ->]|(Hwf & Hcap & ->)]; simpl.
    + by apply acts_idle.
    + by apply acts_admitted.
  - case_bool_decide as Hin; [|by apply acts_idle].
    destruct (build_nerfreal opt ctor) as [r|e] eqn:Hb.
    + destruct (offer_resume_built sessionid r env (shared y))
        as (resp & s' & -> & Hreg & Hh & _); simpl.
      by eapply acts_attached.
    + rewrite offer_resume_failed. simpl. by apply acts_build_failed.
  - destruct (handlers (shared y) !! pc) as [sessionid|] eqn:Hpc;
      [|by apply acts_idle].
    destruct st; try (by apply acts_idle).
    rewrite cleanup_run. simpl. by eapply acts_cleaned.
  - destruct (handlers (shared y) !! pc) as [sessionid|] eqn:Hpc;
      [|by apply acts_idle].
    case_bool_decide; [|by apply acts_idle].
    rewrite cleanup_run. simpl. by eapply acts_cleaned.
  - destruct (replied_readonly y _ (readonly_human raises body)) as (? & ? & ?).
    by apply acts_idle.
  - destruct (replied_readonly y _ (readonly_interrupt_talk raises body)) as (? & ? & ?).
    by apply acts_idle.
  - destruct (replied_readonly y _ (readonly_humanaudio py_int raises form)) as (? & ? & ?).
    by apply acts_idle.
  - destruct (replied_readonly y _ (readonly_set_audiotype raises body)) as (? & ? & ?).
    by apply acts_idle.
  - destruct (replied_readonly y _ (readonly_health opt)) as (? & ? & ?).
    by apply acts_idle.
Qed.

(** *** Undisturbed executions *)

(** What a step does to the registry and to the suspended offers: a
    callback's removal, or else nothing, one more placeholder below the
    cap, or a renderer for a suspended offer. *)
Lemma step_effect y ev :
  match cleans y ev with
  | Some sessionid =>
      registry (fst (step y ev)) = delete sessionid (registry y)
      /\ building (fst (step y ev)) = building y
  | None =>
      (registry (fst (step y ev)) = registry y
       /\ forall sid, sid ∈ building (fst (step y ev)) -> sid ∈ building y)
      \/ (exists sessionid,
            at_capacity opt (size (registry y)) = false
            /\ registry (fst (step y ev)) = <[sessionid := None]> (registry y)
            /\ building (fst (step y ev)) = sessionid :: building y)
      \/ (exists sessionid r,
            sessionid ∈ building y
            /\ registry (fst (step y ev)) = <[sessionid := Some r]> (registry y)
            /\ building (fst (step y ev)) = remove_first sessionid (building y))
  end.
Proof.
  destruct ev as [body randint|sessionid ctor env|pc st|pc| | | | |]; simpl.
  - destruct (offer_admit_cases opt RTCSessionDescription randint body (shared y))
      as [[r ->]|(Hwf & Hcap & ->)]; simpl.
    + by left.
    + right; left. by exists (randN randint 6).
  - case_bool_decide as Hin; [|by left].
    destruct (build_nerfreal opt ctor) as [r|e] eqn:Hb.
    + destruct (offer_resume_built sessionid r env (shared y))
        as (resp & s' & -> & Hreg & _); simpl.
      right; right. by exists sessionid, r.
    + rewrite offer_resume_failed. simpl. left. split; [done|].
      intros sid Hsid. by apply (elem_of_remove_first _ sessionid).
  - destruct st; destruct (handlers (shared y) !! pc) as [sessionid|] eqn:Hpc;
      simpl; try (by left).
    by rewrite cleanup_run.
  - case_bool_decide as Hin.
    + destruct (handlers (shared y) !! pc) as [sessionid|] eqn:Hpc; simpl;
        [|by left].
      by rewrite cleanup_run.
    + destruct (handlers (shared y) !! pc); by left.
  - destruct (replied_readonly y _ (readonly_human raises body)) as (Hr & Hb & _).
    left. split; [exact Hr | intros sid Hsid; by rewrite <- Hb].
  - destruct (replied_readonly y _ (readonly_interrupt_talk raises body))
      as (Hr & Hb & _).
    left. split; [exact Hr | intros sid Hsid; by rewrite <- Hb].
  - destruct (replied_readonly y _ (readonly_humanaudio py_int raises form))
      as (Hr & Hb & _).
    left. split; [exact Hr | intros sid Hsid; by rewrite <- Hb].
  - destruct (replied_readonly y _ (readonly_set_audiotype raises body))
      as (Hr & Hb & _).
    left. split; [exact Hr | intros sid Hsid; by rewrite <- Hb].
  - destruct (replied_readonly y _ (readonly_health opt)) as (Hr & Hb & _).
    left. split; [exact Hr | intros sid Hsid; by rewrite <- Hb].
Qed.

(** A registry entry disappears only when a callback that captured its
    id runs its cleanup. *)
Lemma removed_by_callback y ev sessionid :
  is_Some (registry y !! sessionid) ->
  registry (fst (step y ev)) !! sessionid = None ->
  cleans y ev = Some sessionid.
Proof.
  intros [v Hv] Hgone. pose proof (step_effect y ev) as H.
  destruct (cleans y ev) as [sid|].
  - destruct H as [Hreg _]. rewrite Hreg in Hgone.
    apply lookup_delete_None in Hgone as [->|Hgone]; [done|congruence].
  - destruct H as [[Hreg _]|[(sid & _ & Hreg & _)|(sid & r & _ & Hreg & _)]];
      rewrite Hreg in Hgone; [congruence| |].
    + destruct (decide (sid = sessionid)) as [->|Hne].
      * by rewrite lookup_insert_eq in Hgone.
      * rewrite lookup_insert_ne in Hgone by done. congruence.
    + destruct (decide (sid = sessionid)) as [->|Hne].
      * by rewrite lookup_insert_eq in Hgone.
      * rewrite lookup_insert_ne in Hgone by done. congruence.
Qed.

(** Every suspended offer still has an entry under its id. *)
Lemma pending_step y ev :
  (forall sid, sid ∈ building y -> is_Some (registry y !! sid)) ->
  undisturbed_at y ev = true ->
  forall sid, sid ∈ building (fst (step y ev)) ->
              is_Some (registry (fst (step y ev)) !! sid).
Proof.
  intros Hy Hev sid. unfold undisturbed_at in Hev.
  pose proof (step_effect y ev) as H.
  destruct (cleans y ev) as [sessionid|].
  - destruct H as [-> ->]. apply bool_decide_eq_true in Hev. intros Hsid.
    rewrite lookup_delete_ne; [by apply Hy | by intros ->].
  - destruct H as [[-> Hb]|[(sessionid & _ & -> & ->)|(sessionid & r & _ & -> & ->)]].
    + intros Hsid. by apply Hy, Hb.
    + intros [->|Hsid]%elem_of_cons.
      * rewrite lookup_insert_eq. by eexists.
      * apply lookup_insert_is_Some'. right. by apply Hy.
    + intros Hsid. apply lookup_insert_is_Some'. right.
      by apply Hy, (elem_of_remove_first _ sessionid).
Qed.

Lemma pending_run y evs :
  (forall sid, sid ∈ building y -> is_Some (registry y !! sid)) ->
  undisturbed y evs = true ->
  forall sid, sid ∈ building (run y evs) -> is_Some (registry (run y evs) !! sid).
Proof.
  revert y. induction evs as [|ev evs IH]; intros y Hy Hfree; simpl in *; [done|].
  apply andb_true_iff in Hfree as [Hev Hrest].
  apply IH; [by apply pending_step | done].
Qed.

(** The cap: with [opt.max_session = m], a step that disturbs no
    suspended offer keeps the registry within [m] entries. *)
Lemma count_step o m y ev :
  opt = Some o -> max_session o = Some m ->
  (forall sid, sid ∈ building y -> is_Some (registry y !! sid)) ->
  count y <= m -> count (fst (step y ev)) <= m.
Proof.
  intros Hopt Hmax Hy Hle. unfold count in *.
  pose proof (step_effect y ev) as H.
  destruct (cleans y ev) as [sessionid|].
  - destruct H as [-> _]. rewrite map_size_delete.
    destruct (registry y !! sessionid); simpl; lia.
  - destruct H as [[-> _]|[(sessionid & Hroom & -> & _)|(sessionid & r & Hin & -> & _)]];
      [done| |].
    + assert (~ m <= Z.of_nat (size (registry y))) as Hlt.
      { intros Hge. rewrite (proj2 (at_capacity_true opt _)) in Hroom; [done|].
        by exists o, m. }
      rewrite map_size_insert. destruct (registry y !! sessionid); simpl; lia.
    + by rewrite map_size_insert_Some by by apply Hy.
Qed.

Lemma count_run o m y evs :
  opt = Some o -> max_session o = Some m ->
  (forall sid, sid ∈ building y -> is_Some (registry y !! sid)) ->
  undisturbed y evs = true ->
  count y <= m -> count (run y evs) <= m.
Proof.
  intros Hopt Hmax. revert y.
  induction evs as [|ev evs IH]; intros y Hy Hfree Hle; simpl in *; [done|].
  apply andb_true_iff in Hfree as [Hev Hrest].
  apply IH; [by apply pending_step | done | by eapply count_step].
Qed.
End Steps.

(** ** Admission *)

Lemma with_shared_id y : with_shared y (shared y) = y.
Proof. by destruct y. Qed.

(** C2 (as the code has it). With [opt.max_session = m] and an offer whose
    body decodes: in any state whose registry holds [m] or more entries the
    offer is answered [{code: -1, msg: "reach max session"}] and the state
    is left exactly as it was; in any state with fewer entries the same
    segment, without suspending in between, writes the placeholder and only
    then waits for the executor; and, with [m >= 0], the registry never
    holds more than [m] entries in any execution from the empty registry
    in which no connection-state callback runs its cleanup (on "closed",
    or on "failed" once its [pc.close()] has returned) for a session id
    while an offer that drew the same id is still waiting for its build.
    Ids may be drawn again otherwise. *)
Theorem C2_admission_cap
    (opt : option Opt) (py_int : string -> result Z)
    (RTCSessionDescription : string -> string -> result (string * string))
    (o : Opt) (m : Z) (y : Sys) (body : result OfferParams)
    (randint : Z -> Z -> Z) (evs : list Event) :
  opt = Some o -> max_session o = Some m -> 0 <= m ->
  well_formed RTCSessionDescription body = true ->
  undisturbed opt py_int RTCSessionDescription initial evs = true ->
  (m <= count y ->
     step opt py_int RTCSessionDescription y (EvOffer body randint)
     = (y, Replied [("code", JInt (-1)); ("msg", JStr "reach max session")]))
  /\ (count y < m ->
        step opt py_int RTCSessionDescription y (EvOffer body randint)
        = ({| shared := set_nerfreals (insert (randN randint 6) None) (shared y);
              building := randN randint 6 :: building y;
              closing := closing y |}, Suspended))
  /\ count (run opt py_int RTCSessionDescription initial evs) <= m.
Proof.
  intros Hopt Hmax Hm Hwf Hfree. split; [|split].
  - intros Hfull. simpl. rewrite offer_admit_well_formed by done.
    rewrite (proj2 (at_capacity_true opt _)) by (by exists o, m).
    by rewrite with_shared_id.
  - intros Hroom. simpl. rewrite offer_admit_well_formed by done.
    destruct (at_capacity opt (size (nerfreals (shared y)))) eqn:Hcap; [|done].
    apply at_capacity_true in Hcap as (o' & m' & Ho' & Hm' & Hle).
    unfold count, registry in Hroom. simplify_eq. lia.
  - eapply count_run; eauto.
    intros sid Hsid. by apply elem_of_nil in Hsid.
Qed.

(** A server with one slot: a second offer is turned away while the first
    is still building; and an execution in which 111111 is drawn, attached,
    closed and then drawn and attached again stays within the slot. *)
Lemma C2_admission_cap_witness :
  step (wav2lip_with 1) no_int accept_offer
    (run (wav2lip_with 1) no_int accept_offer initial
       [EvOffer sample_offer (draws 111111)])
    (EvOffer sample_offer (draws 222222))
  = (run (wav2lip_with 1) no_int accept_offer initial
       [EvOffer sample_offer (draws 111111)],
     Replied [("code", JInt (-1)); ("msg", JStr "reach max session")])
  /\ count (run (wav2lip_with 1) no_int accept_offer initial
              [EvOffer sample_offer (draws 111111);
               EvBuilt 111111 (Ok 1%nat) smooth;
               EvConnectionState 0%nat cs_closed;
               EvOffer sample_offer (draws 111111);
               EvBuilt 111111 (Ok 2%nat) smooth;
               EvOffer sample_offer (draws 222222)]) <= 1.
Proof.
  pose proof (C2_admission_cap (wav2lip_with 1) no_int accept_offer
                {| model := "wav2lip"; max_session := Some 1 |} 1
                (run (wav2lip_with 1) no_int accept_offer initial
                   [EvOffer sample_offer (draws 111111)])
                sample_offer (draws 222222)
                [EvOffer sample_offer (draws 111111);
                 EvBuilt 111111 (Ok 1%nat) smooth;
                 EvConnectionState 0%nat cs_closed;
                 EvOffer sample_offer (draws 111111);
                 EvBuilt 111111 (Ok 2%nat) smooth;
                 EvOffer sample_offer (draws 222222)]
                eq_refl eq_refl ltac:(lia) eq_refl ltac:(by vm_compute))
    as (Hfull & _ & Hcount).
  split; [apply Hfull; vm_compute; discriminate | exact Hcount].
Defined.

(** C2 as stated fails: with [--max_session 2], an offer that draws the id
    of a live session, the close of that session, two further admissions
    and then the completion of the first build leave three entries in the
    registry. *)
Lemma C2_registry_exceeds_max :
  count (run (wav2lip_with 2) no_int accept_offer initial
           (reused_id ++
            [ EvConnectionState 0%nat cs_closed;
              EvOffer sample_offer (draws 222222);
              EvOffer sample_offer (draws 333333);
              EvBuilt 111111 (Ok 2%nat) smooth ])) = 3
  /\ ~ (count (run (wav2lip_with 2) no_int accept_offer initial
           (reused_id ++
            [ EvConnectionState 0%nat cs_closed;
              EvOffer sample_offer (draws 222222);
              EvOffer sample_offer (draws 333333);
              EvBuilt 111111 (Ok 2%nat) smooth ])) <= 2).
Proof. split; [by vm_compute | vm_compute; intros H; by apply H]. Qed.

(** ** Completion of a build *)

Lemma step_built_attaches opt py_int RTCSessionDescription y sessionid ctor env r :
  sessionid ∈ building y ->
  build_nerfreal opt ctor = Ok r ->
  registry (fst (step opt py_int RTCSessionDescription y (EvBuilt sessionid ctor env)))
  = <[sessionid := Some r]> (registry y).
Proof.
  intros Hin Hb. simpl. rewrite bool_decide_eq_true_2 by done. rewrite Hb.
  destruct (offer_resume_built sessionid r env (shared y))
    as (resp & s' & -> & Hreg & _). done.
Qed.

(** C1 (as the code has it). While an offer waits for its build, the
    entry under its id disappears in a step only if that step is the
    cleanup of the connection-state callback of a peer connection that is
    already registered and captured the same id (on "closed", or on
    "failed" once its [pc.close()] has returned); in every execution from
    the empty registry in which no such callback runs its cleanup for an
    id while an offer that drew that id is waiting, every waiting offer
    still has an entry under its id; and when a build completes
    successfully the second segment of [offer] assigns the renderer to
    [nerfreals[sessionid]] without looking the id up first: in any state,
    also one from which the entry has gone, the registry afterwards maps
    the id to the new renderer. *)
Theorem C1_build_completion_attaches
    (opt : option Opt) (py_int : string -> result Z)
    (RTCSessionDescription : string -> string -> result (string * string))
    (evs : list Event) (y : Sys) (ev : Event) (sessionid : Z)
    (ctor : result nat) (env : OfferEnv) (r : BaseReal) :
  undisturbed opt py_int RTCSessionDescription initial evs = true ->
  sessionid ∈ building (run opt py_int RTCSessionDescription initial evs) ->
  sessionid ∈ building y ->
  build_nerfreal opt ctor = Ok r ->
  (is_Some (registry y !! sessionid) ->
   registry (fst (step opt py_int RTCSessionDescription y ev)) !! sessionid = None ->
   exists pc,
     handlers (shared y) !! pc = Some sessionid
     /\ (ev = EvConnectionState pc cs_closed
         \/ (ev = EvCloseReturned pc /\ pc ∈ closing y)))
  /\ is_Some (registry (run opt py_int RTCSessionDescription initial evs)
                !! sessionid)
  /\ registry (fst (step opt py_int RTCSessionDescription y
                     (EvBuilt sessionid ctor env))) !! sessionid
     = Some (Some r).
Proof.
  intros Hfree Hpending Hin Hb. split; [|split].
  - intros Hsome Hgone.
    pose proof (removed_by_callback opt py_int RTCSessionDescription
                  y ev sessionid Hsome Hgone) as Hc.
    destruct ev as [| |pc st|pc| | | | |]; simpl in Hc; try done.
    + destruct st; try done. exists pc. split; [done|by left].
    + case_bool_decide as Hcl; [|done].
      exists pc. split; [done|by right].
  - apply (pending_run opt py_int RTCSessionDescription initial evs); [|done..].
    intros sid Hsid. by apply elem_of_nil in Hsid.
  - rewrite (step_built_attaches _ _ _ _ _ _ _ r) by done.
    apply lookup_insert_eq.
Qed.

(** A second offer draws 111111 while the session attached under that id
    is live.  It waits with an entry under its id; the step that removes
    the entry is the "closed" callback of peer connection 0, which
    captured 111111 for the first session; and the completion of the build
    attaches the renderer. *)
Lemma C1_build_completion_attaches_witness :
  (is_Some (registry (run (wav2lip_with 2) no_int accept_offer initial reused_id)
              !! 111111) ->
   registry (fst (step (wav2lip_with 2) no_int accept_offer
                    (run (wav2lip_with 2) no_int accept_offer initial reused_id)
                    (EvConnectionState 0%nat cs_closed))) !! 111111 = None ->
   exists pc,
     handlers (shared (run (wav2lip_with 2) no_int accept_offer initial reused_id))
       !! pc = Some 111111
     /\ (EvConnectionState 0%nat cs_closed = EvConnectionState pc cs_closed
         \/ (EvConnectionState 0%nat cs_closed = EvCloseReturned pc
             /\ pc ∈ closing (run (wav2lip_with 2) no_int accept_offer
                                initial reused_id))))
  /\ is_Some (registry (run (wav2lip_with 2) no_int accept_offer initial reused_id)
                !! 111111)
  /\ registry (fst (step (wav2lip_with 2) no_int accept_offer
                     (run (wav2lip_with 2) no_int accept_offer initial reused_id)
                     (EvBuilt 111111 (Ok 2%nat) smooth))) !! 111111
     = Some (Some (LipReal 2)).
Proof.
  apply (C1_build_completion_attaches (wav2lip_with 2) no_int accept_offer
           reused_id
           (run (wav2lip_with 2) no_int accept_offer initial reused_id)
           (EvConnectionState 0%nat cs_closed)
           111111 (Ok 2%nat) smooth (LipReal 2)).
  - by vm_compute.
  - vm_compute. apply list_elem_of_here.
  - vm_compute. apply list_elem_of_here.
  - reflexivity.
Defined.

(** C1 as stated fails: the offer that drew 111111 again is waiting for its
    build when the older session with that id is closed, which removes the
    entry; when the build completes the new renderer is attached and the
    registry has an entry for 111111 again. *)
Lemma C1_renderer_attached_after_removal :
  building (run (wav2lip_with 2) no_int accept_offer initial
              (reused_id ++ [EvConnectionState 0%nat cs_closed])) = [111111]
  /\ registry (run (wav2lip_with 2) no_int accept_offer initial
                 (reused_id ++ [EvConnectionState 0%nat cs_closed])) !! 111111 = None
  /\ registry (run (wav2lip_with 2) no_int accept_offer initial
                 (reused_id ++ [EvConnectionState 0%nat cs_closed;
                                EvBuilt 111111 (Ok 2%nat) smooth])) !! 111111
     = Some (Some (LipReal 2)).
Proof. by vm_compute. Qed.

(** ** Failed builds *)

(** C3, evaluated on a server with one slot.  The constructor fails with an
    allocation error (and, in the second execution, the model selector is
    not one of the three): the offer is answered with the error, yet the
    placeholder written at admission is still in the registry, the count
    stays at 1 and the next offer is turned away. *)
Lemma C3_failed_build_keeps_placeholder :
  step (wav2lip_with 1) no_int accept_offer
    (run (wav2lip_with 1) no_int accept_offer initial
       [EvOffer sample_offer (draws 111111)])
    (EvBuilt 111111 (Raise "CUDA out of memory") smooth)
  = ({| shared := {| nerfreals := {[ 111111 := None ]}; pcs := ∅; handlers := ∅;
                     next_pc := 0%nat; calls := [] |};
        building := []; closing := [] |},
     Replied [("code", JInt (-1)); ("msg", JStr "CUDA out of memory")])
  /\ snd (step (wav2lip_with 1) no_int accept_offer
            (run (wav2lip_with 1) no_int accept_offer initial
               [EvOffer sample_offer (draws 111111);
                EvBuilt 111111 (Raise "CUDA out of memory") smooth])
            (EvOffer sample_offer (draws 222222)))
     = Replied [("code", JInt (-1)); ("msg", JStr "reach max session")]
  /\ step (Some {| model := "ernerf"; max_session := Some 1 |}) no_int accept_offer
       (run (Some {| model := "ernerf"; max_session := Some 1 |}) no_int accept_offer
          initial [EvOffer sample_offer (draws 111111)])
       (EvBuilt 111111 (Ok 1%nat) smooth)
     = ({| shared := {| nerfreals := {[ 111111 := None ]}; pcs := ∅; handlers := ∅;
                        next_pc := 0%nat; calls := [] |};
           building := []; closing := [] |},
        Replied [("code", JInt (-1)); ("msg", JStr "Unknown model: ernerf")]).
Proof. by vm_compute. Qed.

(** ** Cleanup *)

Lemma absent_step opt py_int RTCSessionDescription y ev sessionid :
  registry y !! sessionid = None ->
  writes sessionid ev = false ->
  registry (fst (step opt py_int RTCSessionDescription y ev)) !! sessionid = None.
Proof.
  intros Habs Hw.
  destruct (step_acts opt py_int RTCSessionDescription y ev)
    as [ev y' Hreg Hb Hh
       |body randint y' Hwf Hroom Hreg Hb Hh
       |sid ctor env y' Hin Hreg Hb Hh
       |sid ctor env r y' Hin Hbuilt Hreg Hb Hh
       |ev pc sid y' Hpc Hreg Hb Hh];
    rewrite Hreg; try done; simpl in Hw.
  - apply bool_decide_eq_false in Hw. by rewrite lookup_insert_ne.
  - apply bool_decide_eq_false in Hw. by rewrite lookup_insert_ne.
  - destruct (decide (sid = sessionid)) as [->|Hne].
    + apply lookup_delete_eq.
    + by rewrite lookup_delete_ne.
Qed.

Lemma absent_run opt py_int RTCSessionDescription y evs sessionid :
  registry y !! sessionid = None ->
  forallb (fun ev => negb (writes sessionid ev)) evs = true ->
  registry (run opt py_int RTCSessionDescription y evs) !! sessionid = None.
Proof.
  revert y. induction evs as [|ev evs IH]; intros y Habs Hq; simpl in *; [done|].
  apply andb_true_iff in Hq as [Hev Hrest].
  apply IH; [|done]. apply absent_step; [done|].
  by apply negb_true_iff.
Qed.

(** C4 (as the code has it). The cleanup of a session id never raises, and
    a second cleanup of the same id, run directly after the first or after
    any events that do not write the entry of that id again (no offer
    drawing the same id, no build completing for it), leaves the registry
    exactly as it found it; run directly after the first it leaves the
    whole state as it found it. *)
Theorem C4_cleanup_idempotent
    (opt : option Opt) (py_int : string -> result Z)
    (RTCSessionDescription : string -> string -> result (string * string))
    (y : Sys) (pc : nat) (sessionid : Z) (evs : list Event) :
  forallb (fun ev => negb (writes sessionid ev)) evs = true ->
  exists s1 s2,
    cleanup pc sessionid (shared y) = (Ok tt, s1)
    /\ cleanup pc sessionid
         (shared (run opt py_int RTCSessionDescription (with_shared y s1) evs))
       = (Ok tt, s2)
    /\ nerfreals s2
       = registry (run opt py_int RTCSessionDescription (with_shared y s1) evs)
    /\ cleanup pc sessionid s1 = (Ok tt, s1).
Proof.
  intros Hq.
  exists (set_nerfreals (delete sessionid) (set_pcs (delete pc) (shared y))).
  eexists. split; [apply cleanup_run|]. split; [apply cleanup_run|]. split.
  - simpl. apply delete_id.
    apply (absent_run opt py_int RTCSessionDescription); [|done].
    simpl. apply lookup_delete_eq.
  - rewrite cleanup_run. f_equal. unfold set_nerfreals, set_pcs. simpl.
    by rewrite !delete_delete_eq.
Qed.

(** One attached session whose connection is closed twice, with a health
    check and an offer for another id in between. *)
Lemma C4_cleanup_idempotent_witness :
  exists s1 s2,
    cleanup 0%nat 111111
      (shared (run (wav2lip_with 2) no_int accept_offer initial
                 [EvOffer sample_offer (draws 111111);
                  EvBuilt 111111 (Ok 1%nat) smooth])) = (Ok tt, s1)
    /\ cleanup 0%nat 111111
         (shared (run (wav2lip_with 2) no_int accept_offer
                    (with_shared
                       (run (wav2lip_with 2) no_int accept_offer initial
                          [EvOffer sample_offer (draws 111111);
                           EvBuilt 111111 (Ok 1%nat) smooth]) s1)
                    [EvHealth; EvOffer sample_offer (draws 222222)]))
       = (Ok tt, s2)
    /\ nerfreals s2
       = registry (run (wav2lip_with 2) no_int accept_offer
                     (with_shared
                        (run (wav2lip_with 2) no_int accept_offer initial
                           [EvOffer sample_offer (draws 111111);
                            EvBuilt 111111 (Ok 1%nat) smooth]) s1)
                     [EvHealth; EvOffer sample_offer (draws 222222)])
    /\ cleanup 0%nat 111111 s1 = (Ok tt, s1).
Proof.
  apply (C4_cleanup_idempotent (wav2lip_with 2) no_int accept_offer
           (run (wav2lip_with 2) no_int accept_offer initial
              [EvOffer sample_offer (draws 111111);
               EvBuilt 111111 (Ok 1%nat) smooth])
           0%nat 111111 [EvHealth; EvOffer sample_offer (draws 222222)]).
  reflexivity.
Defined.

(** C4 as stated fails for arbitrary events in between: the connection of
    session 111111 fails and is closed, which removes the entry; while the
    [failed] callback still waits in [pc.close()] an offer draws 111111
    again; the callback then resumes and removes the entry of the new
    session, so the second cleanup is not a no-op. *)
Lemma C4_second_cleanup_removes_new_entry :
  registry (run (wav2lip_with 2) no_int accept_offer initial
              [ EvOffer sample_offer (draws 111111);
                EvBuilt 111111 (Ok 1%nat) smooth;
                EvConnectionState 0%nat cs_failed;
                EvConnectionState 0%nat cs_closed;
                EvOffer sample_offer (draws 111111) ]) !! 111111 = Some None
  /\ registry (run (wav2lip_with 2) no_int accept_offer initial
                 [ EvOffer sample_offer (draws 111111);
                   EvBuilt 111111 (Ok 1%nat) smooth;
                   EvConnectionState 0%nat cs_failed;
                   EvConnectionState 0%nat cs_closed;
                   EvOffer sample_offer (draws 111111);
                   EvCloseReturned 0%nat ]) !! 111111 = None.
Proof. by vm_compute. Qed.

(** ** Reuse of a session id *)

(** C6. The id is [randN(6)] whatever the registry holds, and the first
    segment of [offer] does not look it up: when there is room and the id
    drawn is that of a registered session with an attached renderer, the
    offer neither errors nor draws again; it suspends on the executor with
    that same id, the entry of the existing session is overwritten by the
    placeholder, and the registry has no more entries than before, so two
    sessions now share one id. *)
Theorem C6_reused_id_overwrites
    (opt : option Opt) (py_int : string -> result Z)
    (RTCSessionDescription : string -> string -> result (string * string))
    (y : Sys) (body : result OfferParams) (randint : Z -> Z -> Z) (r : BaseReal) :
  well_formed RTCSessionDescription body = true ->
  at_capacity opt (size (registry y)) = false ->
  registry y !! randN randint 6 = Some (Some r) ->
  step opt py_int RTCSessionDescription y (EvOffer body randint)
  = ({| shared := set_nerfreals (insert (randN randint 6) None) (shared y);
        building := randN randint 6 :: building y;
        closing := closing y |}, Suspended)
  /\ registry (fst (step opt py_int RTCSessionDescription y (EvOffer body randint)))
       !! randN randint 6 = Some None
  /\ count (fst (step opt py_int RTCSessionDescription y (EvOffer body randint)))
     = count y.
Proof.
  intros Hwf Hroom Hold.
  assert (step opt py_int RTCSessionDescription y (EvOffer body randint)
          = ({| shared := set_nerfreals (insert (randN randint 6) None) (shared y);
                building := randN randint 6 :: building y;
                closing := closing y |}, Suspended)) as Hstep.
  { simpl. rewrite offer_admit_well_formed by done.
    unfold registry in Hroom. by rewrite Hroom. }
  rewrite Hstep. split; [done|]. split.
  - apply lookup_insert_eq.
  - unfold count, registry. simpl.
    rewrite map_size_insert_Some; [done|]. by eexists.
Qed.

(** On a server with two slots, session 111111 is attached and the next
    offer draws 111111 again. *)
Lemma C6_reused_id_overwrites_witness :
  registry (run (wav2lip_with 2) no_int accept_offer initial reused_id) !! 111111
    = Some None
  /\ count (run (wav2lip_with 2) no_int accept_offer initial reused_id) = 1.
Proof.
  pose proof (C6_reused_id_overwrites (wav2lip_with 2) no_int accept_offer
                (run (wav2lip_with 2) no_int accept_offer initial
                   [EvOffer sample_offer (draws 111111);
                    EvBuilt 111111 (Ok 1%nat) smooth])
                sample_offer (draws 111111) (LipReal 1)
                eq_refl eq_refl eq_refl) as (_ & Hover & Hcount).
  split; [exact Hover | exact Hcount].
Defined.

(** ** Pending sessions count *)

Lemma step_health opt py_int RTCSessionDescription y :
  step opt py_int RTCSessionDescription y EvHealth
  = (y, Replied [("status", JStr "healthy");
                 ("sessions", JInt (count y));
                 ("model", JStr (match opt with
                                 | Some o => model o
                                 | None => "unknown"
                                 end))]).
Proof. simpl. by rewrite with_shared_id. Qed.

Lemma step_offer_suspended opt py_int RTCSessionDescription y body randint :
  snd (step opt py_int RTCSessionDescription y (EvOffer body randint)) = Suspended ->
  well_formed RTCSessionDescription body = true
  /\ at_capacity opt (size (registry y)) = false
  /\ fst (step opt py_int RTCSessionDescription y (EvOffer body randint))
     = {| shared := set_nerfreals (insert (randN randint 6) None) (shared y);
          building := randN randint 6 :: building y;
          closing := closing y |}.
Proof.
  simpl.
  destruct (offer_admit_cases opt RTCSessionDescription randint body (shared y))
    as [[r ->]|(Hwf & Hcap & ->)]; simpl; [done|].
  by intros _.
Qed.

(** C9. An offer that passes admission (its first segment ends suspended
    on the executor) has written the placeholder [nerfreals[sessionid] =
    None] by then; a placeholder for an id not yet registered makes the
    registry one entry larger; the health endpoint reports the size of the
    registry, placeholders included; and a further offer is turned away
    exactly when the configured maximum is at most that same size. *)
Theorem C9_pending_session_counts
    (opt : option Opt) (py_int : string -> result Z)
    (RTCSessionDescription : string -> string -> result (string * string))
    (y : Sys) (body body' : result OfferParams) (randint randint' : Z -> Z -> Z) :
  snd (step opt py_int RTCSessionDescription y (EvOffer body randint)) = Suspended ->
  well_formed RTCSessionDescription body' = true ->
  let y' := fst (step opt py_int RTCSessionDescription y (EvOffer body randint)) in
  registry y' = <[randN randint 6 := None]> (registry y)
  /\ registry y' !! randN randint 6 = Some None
  /\ building y' = randN randint 6 :: building y
  /\ (registry y !! randN randint 6 = None -> count y' = count y + 1)
  /\ step opt py_int RTCSessionDescription y' EvHealth
     = (y', Replied [("status", JStr "healthy");
                     ("sessions", JInt (Z.of_nat (size (registry y'))));
                     ("model", JStr (match opt with
                                     | Some o => model o
                                     | None => "unknown"
                                     end))])
  /\ (snd (step opt py_int RTCSessionDescription y' (EvOffer body' randint'))
        = Replied resp_reach_max
      <-> exists o m, opt = Some o /\ max_session o = Some m
                      /\ m <= Z.of_nat (size (registry y'))).
Proof.
  intros Hsusp Hwf' y'.
  destruct (step_offer_suspended _ _ _ _ _ _ Hsusp) as (Hwf & Hroom & Hy').
  subst y'. rewrite Hy'.
  split; [done|]. split; [apply lookup_insert_eq|]. split; [done|]. split.
  { intros Hnew. unfold count, registry in *. simpl.
    rewrite map_size_insert_None by done. lia. }
  split; [apply step_health|].
  rewrite <- at_capacity_true.
  cbn [step]. rewrite offer_admit_well_formed by done.
  unfold registry. cbn [shared].
  match goal with
  | |- context [if ?c then _ else _] => destruct c
  end; simpl; split; intros H; done.
Qed.

(** One slot: the first offer is still building when the health check
    reports one session and the second offer is turned away. *)
Lemma C9_pending_session_counts_witness :
  snd (step (wav2lip_with 1) no_int accept_offer
         (run (wav2lip_with 1) no_int accept_offer initial
            [EvOffer sample_offer (draws 111111)]) EvHealth)
  = Replied [("status", JStr "healthy"); ("sessions", JInt 1);
             ("model", JStr "wav2lip")]
  /\ snd (step (wav2lip_with 1) no_int accept_offer
            (run (wav2lip_with 1) no_int accept_offer initial
               [EvOffer sample_offer (draws 111111)])
            (EvOffer sample_offer (draws 222222)))
     = Replied resp_reach_max.
Proof.
  pose proof (C9_pending_session_counts (wav2lip_with 1) no_int accept_offer
                initial sample_offer sample_offer (draws 111111) (draws 222222)
                eq_refl eq_refl) as (_ & _ & _ & _ & Hhealth & Hfull).
  split.
  - exact (f_equal snd Hhealth).
  - apply Hfull. exists {| model := "wav2lip"; max_session := Some 1 |}, 1.
    repeat split. vm_compute. discriminate.
Defined.


(** * Further properties of the handlers *)

(** ** No exception leaves a handler *)

(** X1. Whatever the request body, the state and the outcome of a build
    or of a collaborator call, a segment of a request handler returns: no
    exception escapes [offer] (before or after its build), a command
    handler or [health].  The connection-state callback is left out: it
    has no [try], so an exception of its [pc.close()] would leave it. *)
Theorem X1_no_exception_escapes_a_handler
    (opt : option Opt) (py_int : string -> result Z)
    (RTCSessionDescription : string -> string -> result (string * string))
    (y : Sys) (ev : Event) (e : string) :
  handler_segment ev = true ->
  snd (step opt py_int RTCSessionDescription y ev) <> Escaped e.
Proof.
  destruct ev as [body randint|sessionid ctor env|pc st|pc
                 |raises body|raises body|raises form|raises body|];
    simpl; intros Hseg; try discriminate Hseg.
  - destruct (offer_admit_cases opt RTCSessionDescription randint body (shared y))
      as [[r ->]|(_ & _ & ->)]; done.
  - case_bool_decide; [|done].
    destruct (build_nerfreal opt ctor) as [r|msg].
    + destruct (offer_resume_built sessionid r env (shared y))
        as (resp & s' & -> & _). done.
    + by rewrite offer_resume_failed.
  - unfold human.
    destruct (try_except_returns (human_body raises body) (code_msg (-1)) (shared y))
      as (r & s' & ->). done.
  - unfold interrupt_talk.
    destruct (try_except_returns (interrupt_talk_body raises body) (code_msg (-1))
                (shared y)) as (r & s' & ->). done.
  - unfold humanaudio.
    destruct (try_except_returns (humanaudio_body py_int raises form) (code_msg (-1))
                (shared y)) as (r & s' & ->). done.
  - unfold set_audiotype.
    destruct (try_except_returns (set_audiotype_body raises body) (code_msg (-1))
                (shared y)) as (r & s' & ->). done.
  - done.
Qed.

(** A text for a session whose renderer fails on every call: the handler
    still returns. *)
Lemma X1_no_exception_escapes_a_handler_witness :
  snd (step (wav2lip_with 1) no_int accept_offer
         (run (wav2lip_with 1) no_int accept_offer initial
            [EvOffer sample_offer (draws 111111);
             EvBuilt 111111 (Ok 1%nat) smooth])
         (EvHuman (fun _ => Some "boom")
                  (Ok {| hp_sessionid := Some 111111; hp_type := Some "echo";
                         hp_text := Some "hi"; hp_interrupt := false |})))
  <> Escaped "boom".
Proof.
  apply (X1_no_exception_escapes_a_handler (wav2lip_with 1) no_int accept_offer).
  reflexivity.
Defined.

(** ** Commands and the session state *)

Lemma replied_frame y (c : M response) :
  readonly c ->
  frame (shared (fst (replied y (c (shared y))))) = frame (shared y)
  /\ building (fst (replied y (c (shared y)))) = building y
  /\ closing (fst (replied y (c (shared y)))) = closing y.
Proof.
  intros Hc. specialize (Hc (shared y)). unfold replied.
  destruct (c (shared y)) as [[r|e] s]; simpl in *; done.
Qed.

(** X2. A command request ([human], [interrupt_talk], [humanaudio],
    [set_audiotype], [health]) never changes the registry, the set of peer
    connections, the registered callbacks, or the suspended coroutines,
    whatever its body and whichever collaborator call raises. *)
Theorem X2_commands_keep_sessions
    (opt : option Opt) (py_int : string -> result Z)
    (RTCSessionDescription : string -> string -> result (string * string))
    (y : Sys) (ev : Event) :
  is_command ev = true ->
  frame (shared (fst (step opt py_int RTCSessionDescription y ev))) = frame (shared y)
  /\ building (fst (step opt py_int RTCSessionDescription y ev)) = building y
  /\ closing (fst (step opt py_int RTCSessionDescription y ev)) = closing y.
Proof.
  destruct ev as [body randint|sessionid ctor env|pc st|pc
                 |raises body|raises body|raises form|raises body|];
    try discriminate; intros _; cbn [step].
  - apply replied_frame, readonly_human.
  - apply replied_frame, readonly_interrupt_talk.
  - apply replied_frame, readonly_humanaudio.
  - apply replied_frame, readonly_set_audiotype.
  - apply replied_frame, readonly_health.
Qed.

(** An echo with the interrupt flag whose flush raises, sent to the
    attached session 123456. *)
Lemma X2_commands_keep_sessions_witness :
  frame (shared (fst (step (wav2lip_with 1) no_int accept_offer
                        {| shared := one_attached; building := []; closing := [] |}
                        (EvHuman (fun _ => Some "boom")
                           (Ok {| hp_sessionid := Some 123456; hp_type := Some "echo";
                                  hp_text := Some "hi"; hp_interrupt := true |})))))
  = frame one_attached.
Proof.
  refine (proj1 (X2_commands_keep_sessions (wav2lip_with 1) no_int accept_offer
                   {| shared := one_attached; building := []; closing := [] |}
                   (EvHuman (fun _ => Some "boom")
                      (Ok {| hp_sessionid := Some 123456; hp_type := Some "echo";
                             hp_text := Some "hi"; hp_interrupt := true |})) _)).
  reflexivity.
Defined.

(** ** Commands for an attached session *)

Lemma getitem_run sessionid v s :
  nerfreals s !! sessionid = Some v -> getitem sessionid s = (Ok v, s).
Proof. intros Hl. unfold getitem. by rewrite Hl. Qed.

Lemma add_calls_nil s : add_calls [] s = s.
Proof. destruct s. unfold add_calls. simpl. by rewrite app_nil_r. Qed.

Lemma add_call_add_calls e es s :
  add_calls es (add_call e s) = add_calls (e :: es) s.
Proof. unfold add_calls, add_call. simpl. by rewrite <- app_assoc. Qed.

Lemma add_call_one e s : add_call e s = add_calls [e] s.
Proof. reflexivity. Qed.

Lemma call_run raises e s :
  call raises e s
  = (match raises e with None => Ok tt | Some msg => Raise msg end, add_calls [e] s).
Proof. reflexivity. Qed.

Ltac finish_calls s :=
  destruct s; unfold add_calls, add_call; simpl;
  rewrite <- ?app_assoc, ?app_nil_r; simpl; done.

(** X3. For a session with an attached renderer and collaborators that do
    not raise, [human] answers [{code: 0, msg: "ok"}] and calls, on the
    renderer registered under that session id and in this order: the flush
    if the interrupt flag is set, then [put_msg_txt] with the text for an
    echo, or the submission of [llm_response] to the executor for a chat
    (an absent text is the empty string; any other type delivers nothing).
    Nothing else in the state changes.  The submitted job, when it runs,
    hands the text prefixed by the acknowledgement to [put_msg_txt] of the
    same renderer. *)
Theorem X3_human_delivers_to_session
    (raises : Effect -> option string) (params : HumanParams)
    (s s0 : State) (r : BaseReal) (message : string) :
  (forall e, raises e = None) ->
  nerfreals s !! default 0 (hp_sessionid params) = Some (Some r) ->
  human raises (Ok params) s = (Ok resp_ok, add_calls (human_calls params r) s)
  /\ llm_response raises message (Some r) s0
     = (Ok tt, add_calls [put_msg_txt r ("收到: " +:+ message)] s0).
Proof.
  intros Hquiet Hr. split.
  - unfold human, human_body, human_calls.
    unfold try_except, mbind, M_bind, mret, M_ret, lift. simpl.
    rewrite not_found_run. unfold session_ready. rewrite Hr. simpl.
    destruct (hp_interrupt params);
      destruct (bool_decide (hp_type params = Some "echo"));
      try destruct (bool_decide (hp_type params = Some "chat"));
      unfold getitem, attr, call, mret, M_ret; simpl;
      repeat (rewrite ?Hr, ?Hquiet; simpl);
      finish_calls s.
  - unfold llm_response, mbind, M_bind, attr, mret, M_ret. simpl.
    rewrite call_run. by rewrite Hquiet.
Qed.

(** A chat with the interrupt flag for the attached session 123456. *)
Lemma X3_human_delivers_to_session_witness :
  human (fun _ => None)
    (Ok {| hp_sessionid := Some 123456; hp_type := Some "chat";
           hp_text := Some "hello"; hp_interrupt := true |}) one_attached
  = (Ok resp_ok,
     add_calls [flush_talk (MuseReal 0);
                executor_llm_response "hello" (Some (MuseReal 0))] one_attached).
Proof.
  refine (proj1 (X3_human_delivers_to_session (fun _ => None)
                   {| hp_sessionid := Some 123456; hp_type := Some "chat";
                      hp_text := Some "hello"; hp_interrupt := true |}
                   one_attached one_attached (MuseReal 0) "hello" _ _)).
  - intros e. reflexivity.
  - reflexivity.
Defined.

(** X4. If the interrupt flag is set and the flush raises, [human] answers
    [{code: -1, msg}] with the message of that exception and the text is
    not delivered: the flush is the only collaborator call made, whatever
    the type and text of the request. *)
Theorem X4_failed_flush_drops_text
    (raises : Effect -> option string) (params : HumanParams)
    (s : State) (r : BaseReal) (msg : string) :
  nerfreals s !! default 0 (hp_sessionid params) = Some (Some r) ->
  hp_interrupt params = true ->
  raises (flush_talk r) = Some msg ->
  human raises (Ok params) s
  = (Ok [("code", JInt (-1)); ("msg", JStr msg)], add_calls [flush_talk r] s).
Proof.
  intros Hr Hint Hraise.
  unfold human, human_body.
  unfold try_except, mbind, M_bind, mret, M_ret, lift. simpl.
  rewrite not_found_run. unfold session_ready. rewrite Hr. simpl.
  rewrite Hint. unfold getitem, attr, call, mret, M_ret. simpl.
  rewrite Hr. simpl. by rewrite Hraise.
Qed.

Lemma X4_failed_flush_drops_text_witness :
  human (fun e => match e with flush_talk _ => Some "queue closed" | _ => None end)
    (Ok {| hp_sessionid := Some 123456; hp_type := Some "echo";
           hp_text := Some "hello"; hp_interrupt := true |}) one_attached
  = (Ok [("code", JInt (-1)); ("msg", JStr "queue closed")],
     add_calls [flush_talk (MuseReal 0)] one_attached).
Proof.
  apply (X4_failed_flush_drops_text
           (fun e => match e with flush_talk _ => Some "queue closed" | _ => None end)
           {| hp_sessionid := Some 123456; hp_type := Some "echo";
              hp_text := Some "hello"; hp_interrupt := true |}
           one_attached (MuseReal 0) "queue closed"); reflexivity.
Defined.

(** X5. For a session with an attached renderer, [interrupt_talk] calls
    [flush_talk] and [set_audiotype] calls [set_curr_state] (with 0 when
    the request has no [audiotype]) exactly once, on the renderer of that
    session, and nothing else changes; the answer is [{code: 0, msg: "ok"}]
    if the call returns and [{code: -1, msg}] with its message if it
    raises. *)
Theorem X5_interrupt_and_state_reach_renderer
    (raises : Effect -> option string) (s : State) (sessionid : Z)
    (r : BaseReal) (audiotype : option Z) :
  nerfreals s !! sessionid = Some (Some r) ->
  interrupt_talk raises (Ok {| ip_sessionid := Some sessionid |}) s
  = (Ok (reply_after raises (flush_talk r)), add_calls [flush_talk r] s)
  /\ set_audiotype raises
       (Ok {| ap_sessionid := Some sessionid; ap_audiotype := audiotype |}) s
     = (Ok (reply_after raises (set_curr_state r (default 0 audiotype))),
        add_calls [set_curr_state r (default 0 audiotype)] s).
Proof.
  intros Hr. unfold reply_after. split.
  - unfold interrupt_talk, interrupt_talk_body.
    unfold try_except, mbind, M_bind, mret, M_ret, lift. simpl.
    rewrite attached_run. unfold session_ready. rewrite Hr. simpl.
    unfold getitem, attr, call, mret, M_ret. simpl. rewrite Hr. simpl.
    by destruct (raises (flush_talk r)).
  - unfold set_audiotype, set_audiotype_body.
    unfold try_except, mbind, M_bind, mret, M_ret, lift. simpl.
    rewrite attached_run. unfold session_ready. rewrite Hr. simpl.
    unfold getitem, attr, call, mret, M_ret. simpl. rewrite Hr. simpl.
    by destruct (raises (set_curr_state r (default 0 audiotype))).
Qed.

Lemma X5_interrupt_and_state_reach_renderer_witness :
  set_audiotype (fun _ => None)
    (Ok {| ap_sessionid := Some 123456; ap_audiotype := None |}) one_attached
  = (Ok resp_ok, add_calls [set_curr_state (MuseReal 0) 0] one_attached).
Proof.
  refine (proj2 (X5_interrupt_and_state_reach_renderer (fun _ => None)
                   one_attached 123456 (MuseReal 0) None _)).
  reflexivity.
Defined.

(** X6. For a session with an attached renderer, an audio upload with a
    file creates the directory, writes the content under
    [/tmp/audio/audio_<sessionid>_<filename>] and only then hands that same
    path to [put_audio_file] of the session's renderer.  If creating the
    directory or writing raises, the renderer is not called and the answer
    is [{code: -1, msg}]; the registry is never changed. *)
Theorem X6_humanaudio_stores_before_forwarding
    (py_int : string -> result Z) (raises : Effect -> option string)
    (s : State) (sessionid : Z) (r : BaseReal)
    (field filename content : string) :
  py_int field = Ok sessionid ->
  nerfreals s !! sessionid = Some (Some r) ->
  humanaudio py_int raises
    (Ok {| af_sessionid := Some field;
           af_file := Some (FileField filename content) |}) s
  = match raises (os_makedirs "/tmp/audio") with
    | Some msg =>
        (Ok (code_msg (-1) msg), add_calls [os_makedirs "/tmp/audio"] s)
    | None =>
        match raises (write_file (audio_path sessionid filename) content) with
        | Some msg =>
            (Ok (code_msg (-1) msg),
             add_calls [os_makedirs "/tmp/audio";
                        write_file (audio_path sessionid filename) content] s)
        | None =>
            (Ok (reply_after raises
                   (put_audio_file r (audio_path sessionid filename))),
             add_calls [os_makedirs "/tmp/audio";
                        write_file (audio_path sessionid filename) content;
                        put_audio_file r (audio_path sessionid filename)] s)
        end
    end.
Proof.
  intros Hid Hr. unfold reply_after, audio_path.
  unfold humanaudio, humanaudio_body.
  unfold try_except, mbind, M_bind, mret, M_ret, lift. simpl.
  rewrite Hid. rewrite not_found_run. unfold session_ready. rewrite Hr. simpl.
  unfold call. simpl.
  destruct (raises (os_makedirs "/tmp/audio")); [finish_calls s|].
  destruct (raises (write_file _ content)); [finish_calls s|].
  unfold getitem. simpl. rewrite Hr. simpl.
  destruct (raises (put_audio_file r _)); finish_calls s.
Qed.

(** The disk is full: the write raises and the renderer is not called. *)
Lemma X6_humanaudio_stores_before_forwarding_witness :
  humanaudio (fun _ => Ok 123456)
    (fun e => match e with write_file _ _ => Some "No space left on device" | _ => None end)
    (Ok {| af_sessionid := Some "123456";
           af_file := Some (FileField "a.wav" "RIFF") |}) one_attached
  = (Ok (code_msg (-1) "No space left on device"),
     add_calls [os_makedirs "/tmp/audio";
                write_file "/tmp/audio/audio_123456_a.wav" "RIFF"] one_attached).
Proof.
  apply (X6_humanaudio_stores_before_forwarding (fun _ => Ok 123456)
           (fun e => match e with
                     | write_file _ _ => Some "No space left on device"
                     | _ => None
                     end)
           one_attached 123456 (MuseReal 0) "123456" "a.wav" "RIFF");
    reflexivity.
Defined.

(** ** Building renderers *)

Lemma build_nerfreal_class o ctor :
  build_nerfreal (Some o) ctor
  = match renderer_class (model o) with
    | Some cls => match ctor with Ok oid => Ok (cls oid) | Raise e => Raise e end
    | None => Raise ("Unknown model: " +:+ model o)
    end.
Proof.
  unfold build_nerfreal, renderer_class.
  destruct (String.eqb (model o) "wav2lip"); [done|].
  destruct (String.eqb (model o) "musetalk"); [done|].
  by destruct (String.eqb (model o) "ultralight").
Qed.

(** X7. Once [load_models] has returned at start-up, the model selector is
    one of the three known names, so [build_nerfreal] never fails with
    "Unknown model": it returns the renderer of the class that belongs to
    the selector whenever the constructor returns, and otherwise re-raises
    the constructor's own exception. *)
Theorem X7_build_after_startup
    (opt : option Opt) (loader : result (nat * nat)) (loaded : nat * nat)
    (ctor : result nat) :
  load_models opt loader = Ok loaded ->
  exists o cls,
    opt = Some o
    /\ renderer_class (model o) = Some cls
    /\ (model o = "wav2lip" /\ cls = LipReal
        \/ model o = "musetalk" /\ cls = MuseReal
        \/ model o = "ultralight" /\ cls = LightReal)
    /\ build_nerfreal opt ctor
       = match ctor with Ok oid => Ok (cls oid) | Raise e => Raise e end.
Proof.
  unfold load_models. destruct opt as [o|]; [|done]. intros Hload.
  assert (exists cls, renderer_class (model o) = Some cls
                      /\ (model o = "wav2lip" /\ cls = LipReal
                          \/ model o = "musetalk" /\ cls = MuseReal
                          \/ model o = "ultralight" /\ cls = LightReal))
    as (cls & Hcls & Hname).
  { unfold renderer_class.
    destruct (String.eqb_spec (model o) "wav2lip") as [E|_]; [by eauto 6|].
    destruct (String.eqb_spec (model o) "musetalk") as [E|_]; [by eauto 6|].
    destruct (String.eqb_spec (model o) "ultralight") as [E|_]; [by eauto 7|].
    destruct (String.eqb (model o) "musetalk"); [|done].
    all: done. }
  exists o, cls. split; [done|]. split; [done|]. split; [done|].
  rewrite build_nerfreal_class. by rewrite Hcls.
Qed.

Lemma X7_build_after_startup_witness :
  build_nerfreal (wav2lip_with 1) (Raise "CUDA out of memory")
  = Raise "CUDA out of memory".
Proof.
  destruct (X7_build_after_startup (wav2lip_with 1) (Ok (0%nat, 0%nat))
              (0%nat, 0%nat) (Raise "CUDA out of memory") eq_refl)
    as (o & cls & _ & _ & _ & Hbuild).
  exact Hbuild.
Defined.

(** ** The second segment of [offer] *)

Lemma apply_codec_preferences_new_pc caps :
  apply_codec_preferences caps [audio_transceiver; video_transceiver]
  = match caps with
    | Ok (Some codecs) =>
        match codec_preferences codecs with
        | [] => [audio_transceiver; video_transceiver]
        | _ :: _ =>
            [audio_transceiver;
             {| kind := "video"; preferred := Some (codec_preferences codecs) |}]
        end
    | _ => [audio_transceiver; video_transceiver]
    end.
Proof.
  unfold apply_codec_preferences.
  destruct caps as [[codecs|]|e]; [|done..].
  destruct codecs as [|c codecs]; [done|].
  by destruct (codec_preferences (c :: codecs)).
Qed.

(** X8. When the build has succeeded and neither the player nor the
    negotiation raises, the second segment of [offer] answers with the
    local description and the session id drawn at admission; it has
    attached the renderer to that id, added one new peer connection to
    [pcs] with an audio and a video track, and registered the callback
    that captures the id.  Of the two transceivers only the video one can
    carry codec preferences, and it does exactly when the computed list is
    not empty. *)
Theorem X8_offer_answers_with_session
    (sessionid : Z) (r : BaseReal) (env : OfferEnv) (s : State)
    (d : string * string) :
  human_player env = None ->
  local_description env = Ok d ->
  offer_resume sessionid (Ok r) env s
  = (Ok [("sdp", JStr (fst d)); ("type", JStr (snd d)); ("sessionid", JInt sessionid)],
     {| nerfreals := <[sessionid := Some r]> (nerfreals s);
        pcs := <[next_pc s :=
                   {| tracks := ["audio"; "video"];
                      transceivers :=
                        match capabilities env with
                        | Ok (Some codecs) =>
                            match codec_preferences codecs with
                            | [] => [audio_transceiver; video_transceiver]
                            | _ :: _ =>
                                [audio_transceiver;
                                 {| kind := "video";
                                    preferred := Some (codec_preferences codecs) |}]
                            end
                        | _ => [audio_transceiver; video_transceiver]
                        end |}]> (pcs s);
        handlers := <[next_pc s := sessionid]> (handlers s);
        next_pc := S (next_pc s);
        calls := calls s |}).
Proof.
  intros Hplayer Hdesc.
  rewrite <- apply_codec_preferences_new_pc.
  unfold offer_resume, try_except, offer_resume_body, new_pc, add_tracks.
  unfold mbind, M_bind, mret, M_ret, lift, raise, gets, setitem, modify, getitem.
  simpl. rewrite lookup_insert_eq. rewrite Hplayer, Hdesc. simpl.
  unfold set_pcs, set_handlers, set_next_pc, set_nerfreals. simpl.
  rewrite !alter_insert_eq. simpl.
  reflexivity.
Qed.

Lemma X8_offer_answers_with_session_witness :
  fst (offer_resume 111111 (Ok (LipReal 1)) smooth (shared initial))
  = Ok [("sdp", JStr "v=0"); ("type", JStr "answer"); ("sessionid", JInt 111111)].
Proof.
  rewrite (X8_offer_answers_with_session 111111 (LipReal 1) smooth (shared initial)
             ("v=0", "answer") eq_refl eq_refl).
  reflexivity.
Defined.

(** X9. When the build has succeeded but the player or the negotiation
    raises afterwards, the client gets [{code: -1, msg}], yet the session
    stays in the registry with its renderer attached, its peer connection
    stays in [pcs] and its callback stays registered: the entry leaves the
    registry only through that callback. *)
Theorem X9_late_failure_keeps_session
    (sessionid : Z) (r : BaseReal) (env : OfferEnv) (s : State) (msg : string) :
  human_player env = Some msg
  \/ (human_player env = None /\ local_description env = Raise msg) ->
  exists s',
    offer_resume sessionid (Ok r) env s
    = (Ok [("code", JInt (-1)); ("msg", JStr msg)], s')
    /\ nerfreals s' = <[sessionid := Some r]> (nerfreals s)
    /\ is_Some (pcs s' !! next_pc s)
    /\ handlers s' !! next_pc s = Some sessionid
    /\ cleanup (next_pc s) sessionid s'
       = (Ok tt, set_nerfreals (delete sessionid) (set_pcs (delete (next_pc s)) s')).
Proof.
  intros Hfail.
  unfold offer_resume, try_except, offer_resume_body, new_pc, add_tracks.
  unfold mbind, M_bind, mret, M_ret, lift, raise, gets, setitem, modify, getitem.
  simpl. rewrite lookup_insert_eq.
  destruct Hfail as [Hplayer|[Hplayer Hdesc]]; rewrite Hplayer; simpl.
  - eexists. split; [reflexivity|]. simpl.
    split; [done|]. split; [|split; [apply lookup_insert_eq|apply cleanup_run]].
    rewrite lookup_insert_eq. by eexists.
  - rewrite Hdesc. simpl.
    eexists. split; [reflexivity|]. simpl.
    split; [done|]. split; [|split; [apply lookup_insert_eq|apply cleanup_run]].
    rewrite !lookup_alter_eq, lookup_insert_eq. by eexists.
Qed.

Lemma X9_late_failure_keeps_session_witness :
  exists s',
    offer_resume 111111 (Ok (LipReal 1))
      {| human_player := None; capabilities := Ok None;
         local_description := Raise "Invalid SDP" |} (shared initial)
    = (Ok [("code", JInt (-1)); ("msg", JStr "Invalid SDP")], s')
    /\ nerfreals s' = <[111111 := Some (LipReal 1)]> (nerfreals (shared initial))
    /\ is_Some (pcs s' !! next_pc (shared initial))
    /\ handlers s' !! next_pc (shared initial) = Some 111111
    /\ cleanup (next_pc (shared initial)) 111111 s'
       = (Ok tt, set_nerfreals (delete 111111)
                   (set_pcs (delete (next_pc (shared initial))) s')).
Proof.
  apply (X9_late_failure_keeps_session 111111 (LipReal 1)
           {| human_player := None; capabilities := Ok None;
              local_description := Raise "Invalid SDP" |}
           (shared initial) "Invalid SDP").
  right. split; reflexivity.
Defined.

(** ** Offers that do not decode *)

(** X10. An offer whose body does not decode is answered [{code: -1, msg}]
    with the message of the first failure (the JSON error, then the missing
    [sdp] key, then the missing [type] key, then the rejection by the
    session-description constructor) and changes nothing: no id is drawn
    and no slot is reserved.  This happens before the capacity test, so
    also a full server answers such an offer with that message and not
    with "reach max session". *)
Theorem X10_malformed_offer_reserves_nothing
    (opt : option Opt) (py_int : string -> result Z)
    (RTCSessionDescription : string -> string -> result (string * string))
    (y : Sys) (body : result OfferParams) (randint : Z -> Z -> Z) :
  well_formed RTCSessionDescription body = false ->
  step opt py_int RTCSessionDescription y (EvOffer body randint)
  = (y, Replied [("code", JInt (-1));
                 ("msg", JStr (offer_error RTCSessionDescription body))]).
Proof.
  intros Hwf. cbn [step].
  assert (offer_admit opt RTCSessionDescription randint body (shared y)
          = (Ok (inl (code_msg (-1) (offer_error RTCSessionDescription body))),
             shared y)) as ->.
  { revert Hwf.
    unfold well_formed, offer_error, offer_admit, try_except, offer_admit_body.
    unfold mbind, M_bind, mret, M_ret, lift, raise, gets, setitem, modify.
    destruct body as [params|e]; [|done].
    destruct (op_sdp params) as [sdp|]; [|done].
    destruct (op_type params) as [type|]; [|done].
    by destruct (RTCSessionDescription sdp type) as [d|e]. }
  by rewrite with_shared_id.
Qed.

(** A full server and a body without [sdp]. *)
Lemma X10_malformed_offer_reserves_nothing_witness :
  snd (step (wav2lip_with 1) no_int accept_offer
         (run (wav2lip_with 1) no_int accept_offer initial
            [EvOffer sample_offer (draws 111111)])
         (EvOffer (Ok {| op_sdp := None; op_type := Some "offer" |}) (draws 222222)))
  = Replied [("code", JInt (-1)); ("msg", JStr "'sdp'")].
Proof.
  rewrite (X10_malformed_offer_reserves_nothing (wav2lip_with 1) no_int accept_offer
             (run (wav2lip_with 1) no_int accept_offer initial
                [EvOffer sample_offer (draws 111111)])
             (Ok {| op_sdp := None; op_type := Some "offer" |}) (draws 222222)
             eq_refl).
  reflexivity.
Defined.

(** ** Terminal notifications *)

(** X11. The [closed] notification of a peer connection whose session is
    still registered removes exactly that entry, so the count drops by one
    and every other entry is as before, and it removes the connection from
    [pcs]; if the registry was within the configured maximum, the next
    offer that decodes is admitted. *)
Theorem X11_closed_frees_one_slot
    (opt : option Opt) (py_int : string -> result Z)
    (RTCSessionDescription : string -> string -> result (string * string))
    (y : Sys) (pc : nat) (sessionid : Z) (v : option BaseReal)
    (o : Opt) (m : Z) (body : result OfferParams) (randint : Z -> Z -> Z) :
  handlers (shared y) !! pc = Some sessionid ->
  registry y !! sessionid = Some v ->
  opt = Some o -> max_session o = Some m -> count y <= m ->
  well_formed RTCSessionDescription body = true ->
  registry (fst (step opt py_int RTCSessionDescription y
                   (EvConnectionState pc cs_closed)))
    = delete sessionid (registry y)
  /\ count (fst (step opt py_int RTCSessionDescription y
                   (EvConnectionState pc cs_closed))) = count y - 1
  /\ pcs (shared (fst (step opt py_int RTCSessionDescription y
                         (EvConnectionState pc cs_closed))))
     = delete pc (pcs (shared y))
  /\ snd (step opt py_int RTCSessionDescription
            (fst (step opt py_int RTCSessionDescription y
                    (EvConnectionState pc cs_closed)))
            (EvOffer body randint)) = Suspended.
Proof.
  intros Hpc Hv Hopt Hmax Hle Hwf.
  assert (fst (step opt py_int RTCSessionDescription y
                 (EvConnectionState pc cs_closed))
          = with_shared y (set_nerfreals (delete sessionid)
                             (set_pcs (delete pc) (shared y)))) as ->.
  { cbn [step]. rewrite Hpc, cleanup_run. reflexivity. }
  assert (size (delete sessionid (registry y)) = pred (size (registry y))) as Hsize.
  { apply map_size_delete_Some. by eexists. }
  assert (size (registry y) <> 0%nat) as Hpos.
  { apply map_size_non_empty_iff. intros Hempty.
    rewrite Hempty in Hv. by rewrite lookup_empty in Hv. }
  split; [done|]. split; [|split; [done|]].
  - unfold count, registry in *. simpl.
    rewrite Hsize. lia.
  - cbn [step with_shared shared]. rewrite offer_admit_well_formed by done.
    simpl.
    destruct (at_capacity opt _) eqn:Hcap; [|done].
    apply at_capacity_true in Hcap as (o' & m' & Ho' & Hm' & Hfull).
    unfold count, registry in *. simplify_eq. rewrite Hsize in Hfull. lia.
Qed.

(** One slot, taken by session 111111; its connection is closed and the
    next offer is admitted. *)
Lemma X11_closed_frees_one_slot_witness :
  count (run (wav2lip_with 1) no_int accept_offer initial
           [EvOffer sample_offer (draws 111111);
            EvBuilt 111111 (Ok 1%nat) smooth;
            EvConnectionState 0%nat cs_closed]) = 0
  /\ snd (step (wav2lip_with 1) no_int accept_offer
            (run (wav2lip_with 1) no_int accept_offer initial
               [EvOffer sample_offer (draws 111111);
                EvBuilt 111111 (Ok 1%nat) smooth;
                EvConnectionState 0%nat cs_closed])
            (EvOffer sample_offer (draws 222222))) = Suspended.
Proof.
  pose proof (X11_closed_frees_one_slot (wav2lip_with 1) no_int accept_offer
                (run (wav2lip_with 1) no_int accept_offer initial
                   [EvOffer sample_offer (draws 111111);
                    EvBuilt 111111 (Ok 1%nat) smooth])
                0%nat 111111 (Some (LipReal 1))
                {| model := "wav2lip"; max_session := Some 1 |} 1
                sample_offer (draws 222222)
                eq_refl eq_refl eq_refl eq_refl ltac:(by vm_compute) eq_refl)
    as (_ & Hcount & _ & Hnext).
  split; [exact Hcount | exact Hnext].
Defined.

(** X12. The two terminal paths agree: the [failed] notification followed
    by the return of its [await pc.close()] leaves the configuration that
    the [closed] notification leaves; while the [failed] callback is still
    waiting in [pc.close()] the shared state is unchanged, so the session
    is still registered; and the other connection states ([new],
    [connecting], [connected], [disconnected]) change nothing at all. *)
Theorem X12_failed_path_agrees_with_closed
    (opt : option Opt) (py_int : string -> result Z)
    (RTCSessionDescription : string -> string -> result (string * string))
    (y : Sys) (pc : nat) (sessionid : Z) (st : connectionState) :
  handlers (shared y) !! pc = Some sessionid ->
  run opt py_int RTCSessionDescription y
    [EvConnectionState pc cs_failed; EvCloseReturned pc]
  = fst (step opt py_int RTCSessionDescription y (EvConnectionState pc cs_closed))
  /\ shared (fst (step opt py_int RTCSessionDescription y
                    (EvConnectionState pc cs_failed))) = shared y
  /\ (st <> cs_failed -> st <> cs_closed ->
      step opt py_int RTCSessionDescription y (EvConnectionState pc st)
      = (y, Silent)).
Proof.
  intros Hpc. split; [|split].
  - unfold run. cbn [fold_left step]. rewrite Hpc. cbn [fst shared closing].
    rewrite Hpc. rewrite bool_decide_eq_true_2 by apply list_elem_of_here.
    rewrite !cleanup_run. cbn [callback fst remove_first].
    rewrite decide_True by done. by destruct y.
  - cbn [step]. by rewrite Hpc.
  - intros Hf Hc. cbn [step]. rewrite Hpc. by destruct st.
Qed.

Lemma X12_failed_path_agrees_with_closed_witness :
  run (wav2lip_with 1) no_int accept_offer
    (run (wav2lip_with 1) no_int accept_offer initial
       [EvOffer sample_offer (draws 111111); EvBuilt 111111 (Ok 1%nat) smooth])
    [EvConnectionState 0%nat cs_failed; EvCloseReturned 0%nat]
  = fst (step (wav2lip_with 1) no_int accept_offer
           (run (wav2lip_with 1) no_int accept_offer initial
              [EvOffer sample_offer (draws 111111); EvBuilt 111111 (Ok 1%nat) smooth])
           (EvConnectionState 0%nat cs_closed)).
Proof.
  refine (proj1 (X12_failed_path_agrees_with_closed (wav2lip_with 1) no_int accept_offer
                   (run (wav2lip_with 1) no_int accept_offer initial
                      [EvOffer sample_offer (draws 111111);
                       EvBuilt 111111 (Ok 1%nat) smooth])
                   0%nat 111111 cs_connected _)).
  reflexivity.
Defined.

(** ** Session ids in reachable states *)

Section Reachable.
Variable opt : option Opt.
Variable py_int : string -> result Z.
Variable RTCSessionDescription : string -> string -> result (string * string).

Abbreviation step := (step opt py_int RTCSessionDescription).
Abbreviation run := (run opt py_int RTCSessionDescription).

Lemma run_snoc y evs ev : run y (evs ++ [ev]) = fst (step (run y evs) ev).
Proof. unfold run. by rewrite fold_left_app. Qed.

Lemma ids_step (P : Z -> Prop) y ev :
  (forall body randint, ev = EvOffer body randint -> P (randN randint 6)) ->
  (forall sessionid, is_Some (registry y !! sessionid) -> P sessionid) ->
  (forall sessionid, sessionid ∈ building y -> P sessionid) ->
  (forall sessionid, is_Some (registry (fst (step y ev)) !! sessionid) -> P sessionid)
  /\ (forall sessionid, sessionid ∈ building (fst (step y ev)) -> P sessionid).
Proof.
  intros Hdraw Hreg Hb.
  destruct (step_acts opt py_int RTCSessionDescription y ev)
    as [ev y' Hr' Hb' Hh'
       |body randint y' Hwf Hroom Hr' Hb' Hh'
       |sid ctor env y' Hin Hr' Hb' Hh'
       |sid ctor env r y' Hin Hbuilt Hr' Hb' Hh'
       |ev pc sid y' Hpc Hr' Hb' Hh'];
    rewrite Hr', Hb'; split; try done.
  - intros sessionid. rewrite lookup_insert_is_Some.
    intros [<-|[_ Hs]]; [by eapply Hdraw | by apply Hreg].
  - intros sessionid [->|Hs]%elem_of_cons; [by eapply Hdraw | by apply Hb].
  - intros sessionid Hs. by apply Hb, (elem_of_remove_first _ sid).
  - intros sessionid. rewrite lookup_insert_is_Some.
    intros [<-|[_ Hs]]; [by apply Hb | by apply Hreg].
  - intros sessionid Hs. by apply Hb, (elem_of_remove_first _ sid).
  - intros sessionid. rewrite lookup_delete_is_Some. intros [_ Hs]. by apply Hreg.
Qed.

Lemma ids_run (P : Z -> Prop) evs :
  Forall (fun ev => forall body randint,
                      ev = EvOffer body randint -> P (randN randint 6)) evs ->
  (forall sessionid,
      is_Some (registry (run initial evs) !! sessionid) -> P sessionid)
  /\ (forall sessionid, sessionid ∈ building (run initial evs) -> P sessionid).
Proof.
  induction evs as [|ev evs IH] using rev_ind; intros Hall.
  - split; intros sessionid H.
    + unfold registry in H. simpl in H. rewrite lookup_empty in H. by destruct H.
    + by apply elem_of_nil in H.
  - apply Forall_app in Hall as [Hevs Hev]. apply List.Forall_inv in Hev.
    destruct (IH Hevs) as [Hreg Hb]. rewrite run_snoc.
    apply (ids_step P); [exact Hev | exact Hreg | exact Hb].
Qed.
End Reachable.

(** X13. In every execution in which [random.randint] answers within its
    bounds, every key of the registry and every id held by a suspended
    offer has exactly six digits.  The id 0, which the command handlers
    take when a request has no [sessionid], is therefore never registered:
    such a text command is answered "session not found" and such an
    interrupt is answered "ok" without reaching any renderer. *)
Theorem X13_registered_ids_have_six_digits
    (opt : option Opt) (py_int : string -> result Z)
    (RTCSessionDescription : string -> string -> result (string * string))
    (evs : list Event) (sessionid : Z)
    (raises : Effect -> option string) (params : HumanParams) :
  honest_events evs ->
  is_Some (registry (run opt py_int RTCSessionDescription initial evs) !! sessionid)
  \/ sessionid ∈ building (run opt py_int RTCSessionDescription initial evs) ->
  hp_sessionid params = None ->
  100000 <= sessionid <= 999999
  /\ human raises (Ok params)
       (shared (run opt py_int RTCSessionDescription initial evs))
     = (Ok resp_session_not_found,
        shared (run opt py_int RTCSessionDescription initial evs))
  /\ interrupt_talk raises (Ok {| ip_sessionid := None |})
       (shared (run opt py_int RTCSessionDescription initial evs))
     = (Ok resp_ok, shared (run opt py_int RTCSessionDescription initial evs)).
Proof.
  intros Hhonest Hin Hnone.
  destruct (ids_run opt py_int RTCSessionDescription
              (fun z => 100000 <= z <= 999999) evs) as [Hreg Hb].
  { eapply Forall_impl; [exact Hhonest|].
    intros ev Hev body randint ->.
    pose proof (randN_bounds randint 6 Hev ltac:(lia)) as H6.
    change (10 ^ (6 - 1)) with 100000 in H6.
    change (10 ^ 6 - 1) with 999999 in H6. exact H6. }
  assert (session_ready (shared (run opt py_int RTCSessionDescription initial evs)) 0
          = false) as Hzero.
  { apply session_ready_false.
    destruct (nerfreals (shared (run opt py_int RTCSessionDescription initial evs)) !! 0)
      as [v|] eqn:Hl; [|by left].
    assert (100000 <= 0 <= 999999) by (apply Hreg; unfold registry; by eexists).
    lia. }
  split; [destruct Hin; auto|]. split.
  - apply human_not_ready. by rewrite Hnone.
  - by apply interrupt_talk_not_ready.
Qed.

Lemma X13_registered_ids_have_six_digits_witness :
  100000 <= 100000 <= 999999
  /\ human (fun _ => None)
       (Ok {| hp_sessionid := None; hp_type := Some "echo";
              hp_text := Some "hello"; hp_interrupt := false |})
       (shared (run (wav2lip_with 1) no_int accept_offer initial
                  [EvOffer sample_offer (fun a _ => a);
                   EvBuilt 100000 (Ok 1%nat) smooth]))
     = (Ok resp_session_not_found,
        shared (run (wav2lip_with 1) no_int accept_offer initial
                  [EvOffer sample_offer (fun a _ => a);
                   EvBuilt 100000 (Ok 1%nat) smooth])).
Proof.
  destruct (X13_registered_ids_have_six_digits (wav2lip_with 1) no_int accept_offer
              [EvOffer sample_offer (fun a _ => a); EvBuilt 100000 (Ok 1%nat) smooth]
              100000 (fun _ => None)
              {| hp_sessionid := None; hp_type := Some "echo";
                 hp_text := Some "hello"; hp_interrupt := false |})
    as (Hrange & Hhuman & _).
  - constructor; [|constructor; [exact I|constructor]].
    intros a b Hab. lia.
  - left. vm_compute. by eexists.
  - reflexivity.
  - split; [exact Hrange | exact Hhuman].
Defined.

(** ** Attached sessions and their connections *)

Lemma offer_resume_built_pcs sessionid r env s :
  exists resp s' pcobj,
    offer_resume sessionid (Ok r) env s = (Ok resp, s')
    /\ nerfreals s' = <[sessionid := Some r]> (nerfreals s)
    /\ pcs s' = <[next_pc s := pcobj]> (pcs s)
    /\ handlers s' = <[next_pc s := sessionid]> (handlers s)
    /\ next_pc s' = S (next_pc s).
Proof.
  unfold offer_resume, try_except, offer_resume_body, new_pc, add_tracks.
  unfold mbind, M_bind, mret, M_ret, lift, raise, gets, setitem, modify, getitem.
  simpl. rewrite lookup_insert_eq.
  destruct (human_player env) as [e|]; simpl; [by eauto 10|].
  destruct (local_description env) as [d|e]; simpl;
    (eexists _, _, _; split; [reflexivity|]; simpl;
     rewrite !alter_insert_eq; done).
Qed.

Section Tracking.
Variable opt : option Opt.
Variable py_int : string -> result Z.
Variable RTCSessionDescription : string -> string -> result (string * string).

Abbreviation step := (step opt py_int RTCSessionDescription).
Abbreviation run := (run opt py_int RTCSessionDescription).

(** The four ways in which a step acts on the shared state. *)
Lemma step_shared y ev :
  frame (shared (fst (step y ev))) = frame (shared y)
  \/ (exists sessionid,
        shared (fst (step y ev)) = set_nerfreals (insert sessionid None) (shared y))
  \/ (exists sessionid r pcobj,
        nerfreals (shared (fst (step y ev)))
          = <[sessionid := Some r]> (nerfreals (shared y))
        /\ pcs (shared (fst (step y ev)))
           = <[next_pc (shared y) := pcobj]> (pcs (shared y))
        /\ handlers (shared (fst (step y ev)))
           = <[next_pc (shared y) := sessionid]> (handlers (shared y))
        /\ next_pc (shared (fst (step y ev))) = S (next_pc (shared y)))
  \/ (exists pc sessionid,
        handlers (shared y) !! pc = Some sessionid
        /\ shared (fst (step y ev))
           = set_nerfreals (delete sessionid) (set_pcs (delete pc) (shared y))).
Proof.
  destruct ev as [body randint|sessionid ctor env|pc st|pc
                 |raises body|raises body|raises form|raises body|]; cbn [step].
  - destruct (offer_admit_cases opt RTCSessionDescription randint body (shared y))
      as [[r ->]|(_ & _ & ->)]; simpl; [by left | right; left; eauto].
  - case_bool_decide; [|by left].
    destruct (build_nerfreal opt ctor) as [r|msg].
    + destruct (offer_resume_built_pcs sessionid r env (shared y))
        as (resp & s' & pcobj & -> & Hn & Hp & Hh & Hnext). simpl.
      right; right; left. by exists sessionid, r, pcobj.
    + rewrite offer_resume_failed. by left.
  - destruct (handlers (shared y) !! pc) as [sessionid|] eqn:Hpc; [|by left].
    destruct st; try (by left).
    rewrite cleanup_run. simpl. right; right; right. eauto.
  - destruct (handlers (shared y) !! pc) as [sessionid|] eqn:Hpc; [|by left].
    case_bool_decide; [|by left].
    rewrite cleanup_run. simpl. right; right; right. eauto.
  - left. apply replied_frame, readonly_human.
  - left. apply replied_frame, readonly_interrupt_talk.
  - left. apply replied_frame, readonly_humanaudio.
  - left. apply replied_frame, readonly_set_audiotype.
  - left. apply replied_frame, readonly_health.
Qed.

Lemma tracked_initial : tracked (shared initial).
Proof.
  split; simpl.
  - intros sessionid r H. by rewrite lookup_empty in H.
  - intros pc [[? H]|[? H]]; by rewrite lookup_empty in H.
Qed.

Lemma tracked_step y ev : tracked (shared y) -> tracked (shared (fst (step y ev))).
Proof.
  intros [Hatt Hbelow].
  destruct (step_shared y ev)
    as [Hframe
       |[(sid & ->)
        |[(sid & r0 & pcobj & Hn & Hp & Hh & Hnext)
         |(pc0 & sid & Hpc0 & ->)]]].
  - unfold frame in Hframe.
    assert (nerfreals (shared (fst (step y ev))) = nerfreals (shared y)) as Hn
      by congruence.
    assert (pcs (shared (fst (step y ev))) = pcs (shared y)) as Hp by congruence.
    assert (handlers (shared (fst (step y ev))) = handlers (shared y)) as Hh
      by congruence.
    assert (next_pc (shared (fst (step y ev))) = next_pc (shared y)) as Hnext
      by congruence.
    split.
    + intros sessionid r. rewrite Hn, Hp, Hh. apply Hatt.
    + intros pc. rewrite Hp, Hh, Hnext. apply Hbelow.
  - split; simpl.
    + intros sessionid r Hl.
      destruct (decide (sid = sessionid)) as [->|Hne].
      * by rewrite lookup_insert_eq in Hl.
      * rewrite lookup_insert_ne in Hl by done. by apply (Hatt _ r).
    + apply Hbelow.
  - split.
    + intros sessionid r. rewrite Hn, Hp, Hh. intros Hl.
      destruct (decide (sid = sessionid)) as [->|Hne].
      * exists (next_pc (shared y)). rewrite !lookup_insert_eq. by eauto.
      * rewrite lookup_insert_ne in Hl by done.
        destruct (Hatt _ _ Hl) as (pc & Hopen & Hcap).
        assert (pc < next_pc (shared y))%nat as Hlt by (apply Hbelow; eauto).
        exists pc. rewrite !lookup_insert_ne by lia. done.
    + intros pc. rewrite Hh, Hp, Hnext. rewrite !lookup_insert_is_Some.
      intros [[<-|[_ H]]|[<-|[_ H]]]; try lia.
      * assert (pc < next_pc (shared y))%nat by (apply Hbelow; eauto). lia.
      * assert (pc < next_pc (shared y))%nat by (apply Hbelow; eauto). lia.
  - split; simpl.
    + intros sessionid r Hl.
      apply lookup_delete_Some in Hl as [Hne Hl].
      destruct (Hatt _ _ Hl) as (pc & Hopen & Hcap).
      exists pc. split; [|done].
      rewrite lookup_delete_ne; [done|]. intros ->. congruence.
    + intros pc. rewrite lookup_delete_is_Some.
      intros [H|[_ H]]; apply Hbelow; eauto.
Qed.

Lemma tracked_run evs : tracked (shared (run initial evs)).
Proof.
  induction evs as [|ev evs IH] using rev_ind.
  - apply tracked_initial.
  - rewrite (run_snoc opt py_int RTCSessionDescription). by apply tracked_step.
Qed.

(** The [closed] notifications of a list of connections only remove
    entries, and they remove every entry whose id one of those connections
    has captured. *)
Lemma closed_events_run y l :
  handlers (shared (run y (closed_events l))) = handlers (shared y)
  /\ forall sessionid v,
       registry (run y (closed_events l)) !! sessionid = Some v ->
       registry y !! sessionid = Some v
       /\ forall pc, pc ∈ l -> handlers (shared y) !! pc <> Some sessionid.
Proof.
  revert y. induction l as [|pc l IH]; intros y.
  - split; [done|]. intros sessionid v H. split; [done|].
    intros pc Hpc. by apply elem_of_nil in Hpc.
  - change (run y (closed_events (pc :: l)))
      with (run (fst (step y (EvConnectionState pc cs_closed))) (closed_events l)).
    destruct (IH (fst (step y (EvConnectionState pc cs_closed)))) as [Hh Hreg].
    cbn [step] in *.
    destruct (handlers (shared y) !! pc) as [sid|] eqn:Hpc.
    + rewrite cleanup_run in *. cbn [callback fst with_shared shared] in *.
      split; [by rewrite Hh|].
      intros sessionid v Hl. destruct (Hreg _ _ Hl) as [Hl1 Hrest].
      unfold registry in Hl1. cbn in Hl1.
      apply lookup_delete_Some in Hl1 as [Hne Hl1].
      split; [done|].
      intros pc' [->|Hin]%elem_of_cons; [congruence|].
      by apply Hrest.
    + cbn [fst] in *. split; [done|].
      intros sessionid v Hl. destruct (Hreg _ _ Hl) as [Hl1 Hrest].
      split; [done|].
      intros pc' [->|Hin]%elem_of_cons; [congruence|].
      by apply Hrest.
Qed.
End Tracking.

(** X14. In every reachable state, whatever ids were drawn, a session with
    an attached renderer has an open peer connection whose callback has
    captured its id: the [closed] notification of that connection removes
    the entry.  (A placeholder has no such connection.) *)
Theorem X14_attached_session_can_be_closed
    (opt : option Opt) (py_int : string -> result Z)
    (RTCSessionDescription : string -> string -> result (string * string))
    (evs : list Event) (sessionid : Z) (r : BaseReal) :
  registry (run opt py_int RTCSessionDescription initial evs) !! sessionid
    = Some (Some r) ->
  exists pc,
    is_Some (pcs (shared (run opt py_int RTCSessionDescription initial evs)) !! pc)
    /\ handlers (shared (run opt py_int RTCSessionDescription initial evs)) !! pc
       = Some sessionid
    /\ registry (fst (step opt py_int RTCSessionDescription
                        (run opt py_int RTCSessionDescription initial evs)
                        (EvConnectionState pc cs_closed))) !! sessionid = None.
Proof.
  intros Hl.
  destruct (attached_has_pc _ (tracked_run opt py_int RTCSessionDescription evs)
              sessionid r Hl) as (pc & Hopen & Hcap).
  exists pc. split; [done|]. split; [done|].
  cbn [step]. rewrite Hcap, cleanup_run. unfold registry. simpl.
  apply lookup_delete_eq.
Qed.

(** The offer that drew 111111 again has been attached as well. *)
Lemma X14_attached_session_can_be_closed_witness :
  exists pc,
    is_Some (pcs (shared (run (wav2lip_with 2) no_int accept_offer initial
                            (reused_id ++ [EvBuilt 111111 (Ok 2%nat) smooth]))) !! pc)
    /\ handlers (shared (run (wav2lip_with 2) no_int accept_offer initial
                           (reused_id ++ [EvBuilt 111111 (Ok 2%nat) smooth]))) !! pc
       = Some 111111
    /\ registry (fst (step (wav2lip_with 2) no_int accept_offer
                        (run (wav2lip_with 2) no_int accept_offer initial
                           (reused_id ++ [EvBuilt 111111 (Ok 2%nat) smooth]))
                        (EvConnectionState pc cs_closed))) !! 111111 = None.
Proof.
  apply (X14_attached_session_can_be_closed (wav2lip_with 2) no_int accept_offer
           (reused_id ++ [EvBuilt 111111 (Ok 2%nat) smooth]) 111111 (LipReal 2)).
  reflexivity.
Defined.

(** X15. [on_shutdown], when no [pc.close()] raises, empties [pcs] and
    leaves the registry as it is; the sessions are removed by the [closed]
    callbacks of the connections it closes.  Once those callbacks have run
    for every connection that was in [pcs], no attached renderer is left in
    the registry: what remains are placeholders. *)
Theorem X15_shutdown_drains_attached_sessions
    (opt : option Opt) (py_int : string -> result Z)
    (RTCSessionDescription : string -> string -> result (string * string))
    (evs : list Event) (close_raises : nat -> option string) :
  (forall pc, close_raises pc = None) ->
  on_shutdown close_raises (shared (run opt py_int RTCSessionDescription initial evs))
  = (Ok tt,
     set_pcs (fun _ => ∅) (shared (run opt py_int RTCSessionDescription initial evs)))
  /\ forall sessionid v,
       registry (run opt py_int RTCSessionDescription
                   (run opt py_int RTCSessionDescription initial evs)
                   (closed_events
                      (open_pcs (shared (run opt py_int RTCSessionDescription
                                           initial evs))))) !! sessionid = Some v ->
       v = None
       /\ registry (run opt py_int RTCSessionDescription initial evs) !! sessionid
          = Some None.
Proof.
  intros Hquiet. split.
  - unfold on_shutdown.
    destruct (list_find _ _) as [[i pc]|] eqn:Hfind; [|done].
    apply list_find_Some in Hfind as (_ & [e He] & _).
    by rewrite Hquiet in He.
  - intros sessionid v Hl.
    destruct (closed_events_run opt py_int RTCSessionDescription
                (run opt py_int RTCSessionDescription initial evs)
                (open_pcs (shared (run opt py_int RTCSessionDescription initial evs))))
      as [_ Hreg].
    destruct (Hreg _ _ Hl) as [Hold Hnone].
    destruct v as [r|]; [|done]. exfalso.
    destruct (attached_has_pc _ (tracked_run opt py_int RTCSessionDescription evs)
                sessionid r Hold) as (pc & [obj Hopen] & Hcap).
    apply (Hnone pc); [|done].
    unfold open_pcs. apply list_elem_of_fmap. exists (pc, obj). split; [done|].
    by apply elem_of_map_to_list.
Qed.

(** Session 111111 is attached and an offer for 222222 is still building
    when the server shuts down: the placeholder of 222222 remains. *)
Lemma X15_shutdown_drains_attached_sessions_witness :
  on_shutdown (fun _ => None)
    (shared (run (wav2lip_with 2) no_int accept_offer initial
               [EvOffer sample_offer (draws 111111);
                EvBuilt 111111 (Ok 1%nat) smooth;
                EvOffer sample_offer (draws 222222)]))
  = (Ok tt,
     set_pcs (fun _ => ∅)
       (shared (run (wav2lip_with 2) no_int accept_offer initial
                  [EvOffer sample_offer (draws 111111);
                   EvBuilt 111111 (Ok 1%nat) smooth;
                   EvOffer sample_offer (draws 222222)]))).
Proof.
  refine (proj1 (X15_shutdown_drains_attached_sessions (wav2lip_with 2) no_int
                   accept_offer
                   [EvOffer sample_offer (draws 111111);
                    EvBuilt 111111 (Ok 1%nat) smooth;
                    EvOffer sample_offer (draws 222222)] (fun _ => None) _)).
  intros pc. reflexivity.
Defined.

(** ** More on codec preferences *)

Lemma filter_in_family_twice a b codecs :
  List.filter (in_family a) (List.filter (in_family b) codecs)
  = if String.eqb a b then List.filter (in_family b) codecs else [].
Proof.
  induction codecs as [|c codecs IH]; simpl.
  - by destruct (String.eqb a b).
  - destruct (in_family b c) eqn:Hbc; simpl.
    + rewrite IH. unfold in_family in *. apply String.eqb_eq in Hbc.
      rewrite Hbc, (String.eqb_sym b a). by destruct (String.eqb a b).
    + exact IH.
Qed.

Lemma elem_of_filter_family (f : RTCRtpCodecCapability -> bool) codecs c :
  c ∈ List.filter f codecs <-> c ∈ codecs /\ f c = true.
Proof. rewrite !list_elem_of_In. apply filter_In. Qed.

(** X16. Computing the preference list is idempotent: applied to its own
    result it changes nothing.  The list holds exactly the capabilities of
    the three preferred families (every other codec is dropped), it is
    never longer than the capability list, and it is empty exactly when no
    capability belongs to a preferred family. *)
Theorem X16_codec_preferences_idempotent (codecs : list RTCRtpCodecCapability) :
  codec_preferences (codec_preferences codecs) = codec_preferences codecs
  /\ (forall c, c ∈ codec_preferences codecs <->
                c ∈ codecs /\ preferred_family c = true)
  /\ (length (codec_preferences codecs) <= length codecs)%nat
  /\ (codec_preferences codecs = [] <->
      forall c, c ∈ codecs -> preferred_family c = false).
Proof.
  assert (forall c, c ∈ codec_preferences codecs <->
                    c ∈ codecs /\ preferred_family c = true) as Hmem.
  { intros c. rewrite codec_preferences_filter. rewrite !elem_of_app.
    rewrite !elem_of_filter_family. unfold preferred_family.
    rewrite !orb_true_iff. tauto. }
  split; [|split; [exact Hmem|split]].
  - rewrite (codec_preferences_filter (codec_preferences codecs)).
    rewrite (codec_preferences_filter codecs).
    rewrite !List.filter_app, !filter_in_family_twice. simpl.
    by rewrite !app_nil_r.
  - rewrite codec_preferences_filter.
    assert (forall l : list RTCRtpCodecCapability,
               (length (List.filter (in_family "video/H264") l)
                + length (List.filter (in_family "video/VP8") l)
                + length (List.filter (in_family "video/rtx") l)
                <= length l)%nat) as Hlen.
    { induction l as [|c l IH]; simpl; [lia|].
      destruct (in_family "video/H264" c) eqn:E1,
               (in_family "video/VP8" c) eqn:E2,
               (in_family "video/rtx" c) eqn:E3; simpl; try lia;
        exfalso; unfold in_family in *;
        repeat match goal with
               | H : String.eqb _ _ = true |- _ => apply String.eqb_eq in H
               end; congruence. }
    rewrite !length_app. specialize (Hlen codecs). lia.
  - split.
    + intros Hnil c Hc. destruct (preferred_family c) eqn:Hp; [|done].
      assert (c ∈ codec_preferences codecs) as Hin by (by apply Hmem).
      rewrite Hnil in Hin. by apply elem_of_nil in Hin.
    + intros Hnone. destruct (codec_preferences codecs) as [|c l] eqn:Hp; [done|].
      assert (c ∈ codecs /\ preferred_family c = true) as [Hc Hf].
      { apply Hmem. apply list_elem_of_here. }
      rewrite (Hnone c Hc) in Hf. discriminate.
Qed.

Lemma set_first_video_length preferences ts :
  length (set_first_video preferences ts) = length ts
  /\ map kind (set_first_video preferences ts) = map kind ts.
Proof.
  induction ts as [|t ts [IHl IHk]]; simpl; [done|].
  destruct (String.eqb (kind t) "video"); simpl; [done|].
  by rewrite IHl, IHk.
Qed.

(** X17. Handing the preference list to the transceivers changes at most
    one of them: among transceivers of which none before [t] is a video
    transceiver and [t] is one, exactly [t] gets the list and all others,
    also later video transceivers, are left as they are; if there is no
    video transceiver nothing changes; and the number and the kinds of the
    transceivers are always as before. *)
Theorem X17_only_first_video_transceiver
    (preferences : list RTCRtpCodecCapability)
    (before after others : list RTCRtpTransceiver) (t : RTCRtpTransceiver) :
  forallb (fun u => negb (is_video u)) before = true ->
  is_video t = true ->
  forallb (fun u => negb (is_video u)) others = true ->
  set_first_video preferences (before ++ t :: after)
  = before ++ {| kind := kind t; preferred := Some preferences |} :: after
  /\ set_first_video preferences others = others
  /\ length (set_first_video preferences (before ++ t :: after))
     = length (before ++ t :: after)
  /\ map kind (set_first_video preferences (before ++ t :: after))
     = map kind (before ++ t :: after).
Proof.
  intros Hbefore Ht Hothers. split; [|split].
  - induction before as [|u before IH]; simpl.
    + unfold is_video in Ht. by rewrite Ht.
    + simpl in Hbefore. apply andb_true_iff in Hbefore as [Hu Hrest].
      unfold is_video in Hu. apply negb_true_iff in Hu. rewrite Hu.
      by rewrite IH.
  - induction others as [|u others IH]; simpl; [done|].
    simpl in Hothers. apply andb_true_iff in Hothers as [Hu Hrest].
    unfold is_video in Hu. apply negb_true_iff in Hu. rewrite Hu.
    by rewrite IH.
  - apply set_first_video_length.
Qed.

Lemma X17_only_first_video_transceiver_witness :
  set_first_video [codec_H264_a]
    ([audio_transceiver] ++ video_transceiver :: [video_transceiver])
  = [audio_transceiver] ++
    {| kind := "video"; preferred := Some [codec_H264_a] |} :: [video_transceiver].
Proof.
  refine (proj1 (X17_only_first_video_transceiver [codec_H264_a]
                   [audio_transceiver] [video_transceiver] [audio_transceiver]
                   video_transceiver _ _ _)); reflexivity.
Defined.

(** ** A maximum that admits nobody *)

(** X18. With [--max_session] zero or negative no offer is ever admitted:
    in every execution the registry stays empty and no offer is waiting for
    a build, and every offer that decodes is answered
    [{code: -1, msg: "reach max session"}]. *)
Theorem X18_nonpositive_maximum_admits_nobody
    (opt : option Opt) (py_int : string -> result Z)
    (RTCSessionDescription : string -> string -> result (string * string))
    (o : Opt) (m : Z) (evs : list Event)
    (body : result OfferParams) (randint : Z -> Z -> Z) :
  opt = Some o -> max_session o = Some m -> m <= 0 ->
  well_formed RTCSessionDescription body = true ->
  registry (run opt py_int RTCSessionDescription initial evs) = ∅
  /\ building (run opt py_int RTCSessionDescription initial evs) = []
  /\ step opt py_int RTCSessionDescription
       (run opt py_int RTCSessionDescription initial evs) (EvOffer body randint)
     = (run opt py_int RTCSessionDescription initial evs,
        Replied [("code", JInt (-1)); ("msg", JStr "reach max session")]).
Proof.
  intros Hopt Hmax Hm Hwf.
  assert (forall n, at_capacity opt n = true) as Hfull.
  { intros n. apply at_capacity_true. exists o, m. repeat split; [done..|lia]. }
  assert (registry (run opt py_int RTCSessionDescription initial evs) = ∅
          /\ building (run opt py_int RTCSessionDescription initial evs) = [])
    as [Hreg Hb].
  { induction evs as [|ev evs [IHr IHb]] using rev_ind; [done|].
    rewrite run_snoc.
    destruct (step_acts opt py_int RTCSessionDescription
                (run opt py_int RTCSessionDescription initial evs) ev)
      as [ev y' Hr' Hb' Hh'
         |body' randint' y' Hwf' Hroom Hr' Hb' Hh'
         |sid ctor env y' Hin Hr' Hb' Hh'
         |sid ctor env r y' Hin Hbuilt Hr' Hb' Hh'
         |ev pc sid y' Hpc Hr' Hb' Hh'].
    - by rewrite Hr', Hb'.
    - by rewrite Hfull in Hroom.
    - rewrite IHb in Hin. by apply elem_of_nil in Hin.
    - rewrite IHb in Hin. by apply elem_of_nil in Hin.
    - rewrite Hr', Hb', IHr. split; [apply delete_empty | done]. }
  split; [done|]. split; [done|].
  cbn [step]. rewrite offer_admit_well_formed by done.
  rewrite Hfull. by rewrite with_shared_id.
Qed.

(** [--max_session 0]: the very first offer is turned away. *)
Lemma X18_nonpositive_maximum_admits_nobody_witness :
  step (wav2lip_with 0) no_int accept_offer initial
    (EvOffer sample_offer (draws 111111))
  = (initial, Replied [("code", JInt (-1)); ("msg", JStr "reach max session")]).
Proof.
  refine (proj2 (proj2 (X18_nonpositive_maximum_admits_nobody (wav2lip_with 0)
                          no_int accept_offer
                          {| model := "wav2lip"; max_session := Some 0 |} 0 []
                          sample_offer (draws 111111) eq_refl eq_refl _ eq_refl))).
  lia.
Defined.


(** * Properties of the TTS front end *)

(** ** Forwarding text to LiveTalking *)

Lemma tts_and_send_run post text voice_id st :
  Frontend.tts_and_send post text voice_id st
  = Frontend.send_to_livetalking post text (Frontend.digital_human_sessionid st) st.
Proof. reflexivity. Qed.

Lemma tts_on_channel py_int post text voice_id channel st :
  text <> "" ->
  default Frontend.DIGITAL_HUMAN_CHANNEL_ID channel = 100 ->
  Frontend.tts py_int post
    (Frontend.TtsJson
       (Ok (Some {| Frontend.td_text := Some text;
                    Frontend.td_voice_id := voice_id;
                    Frontend.td_channel_id := channel |}))) st
  = ((if fst (Frontend.send_to_livetalking post text
                (Frontend.digital_human_sessionid st) st)
      then Frontend.sent_reply else Frontend.not_sent_reply),
     snd (Frontend.send_to_livetalking post text
            (Frontend.digital_human_sessionid st) st)).
Proof.
  intros Htext Hchannel.
  unfold Frontend.tts, Frontend.tts_params.
  cbn [Frontend.td_text Frontend.td_voice_id Frontend.td_channel_id].
  rewrite Hchannel. cbn [default from_option id].
  apply String.eqb_neq in Htext. rewrite Htext.
  rewrite bool_decide_eq_true_2 by done.
  rewrite tts_and_send_run.
  destruct (Frontend.send_to_livetalking post text _ st) as [[|] st']; done.
Qed.

(** X19. For a text that is not empty on the digital-human channel (100,
    also when the request names no channel), [tts] posts exactly one
    request to LiveTalking, an echo of that text for the session id last
    stored by the status endpoint and without interrupt flag, and answers
    [{success: true, ...}] with status 200 if the response has status 200
    and [{error: "Failed to send to digital human"}] with status 500
    otherwise (another status or an exception); nothing else in the
    globals changes.  The voice id and the voice templates have no
    influence on either. *)
Theorem X19_tts_forwards_one_echo
    (py_int : string -> result Z) (post : HumanParams -> result Z)
    (text : string) (voice_id : option string) (channel : option Z)
    (st : Frontend.Front) :
  text <> "" ->
  default Frontend.DIGITAL_HUMAN_CHANNEL_ID channel = 100 ->
  Frontend.tts py_int post
    (Frontend.TtsJson
       (Ok (Some {| Frontend.td_text := Some text;
                    Frontend.td_voice_id := voice_id;
                    Frontend.td_channel_id := channel |}))) st
  = ((if Frontend.accepted
           (post (Frontend.echo_body text (Frontend.digital_human_sessionid st)))
      then Frontend.sent_reply else Frontend.not_sent_reply),
     Frontend.with_posted
       (Frontend.echo_body text (Frontend.digital_human_sessionid st)) st).
Proof.
  intros Htext Hchannel.
  rewrite tts_on_channel by done.
  unfold Frontend.send_to_livetalking, Frontend.accepted.
  fold (Frontend.echo_body text (Frontend.digital_human_sessionid st)).
  fold (Frontend.with_posted
          (Frontend.echo_body text (Frontend.digital_human_sessionid st)) st).
  destruct (post _) as [status|e]; [|done].
  by destruct (bool_decide (status = 200)).
Qed.

Lemma X19_tts_forwards_one_echo_witness :
  fst (Frontend.tts (fun _ => Raise "invalid literal") (fun _ => Ok 404)
         (Frontend.TtsJson
            (Ok (Some {| Frontend.td_text := Some "hello";
                         Frontend.td_voice_id := Some "alice";
                         Frontend.td_channel_id := None |})))
         {| Frontend.digital_human_connected := false;
            Frontend.digital_human_sessionid := 0;
            Frontend.voice_templates := [];
            Frontend.files := ∅;
            Frontend.posted := [] |})
  = Frontend.not_sent_reply.
Proof.
  rewrite (X19_tts_forwards_one_echo (fun _ => Raise "invalid literal")
             (fun _ => Ok 404) "hello" (Some "alice") None
             {| Frontend.digital_human_connected := false;
                Frontend.digital_human_sessionid := 0;
                Frontend.voice_templates := [];
                Frontend.files := ∅;
                Frontend.posted := [] |});
    [reflexivity | discriminate | reflexivity].
Defined.

(** X20. [tts] turns a request away without contacting LiveTalking and
    without changing the globals: with status 400 and "text is required"
    when the text is absent or empty (also for a JSON body that is
    [null]), with status 400 and "Channel not supported" for a text on a
    channel other than 100, and with status 500 and the message of
    [int()] when the channel of a form is not a number, which is decided
    before the text is looked at. *)
Theorem X20_tts_rejects_without_posting
    (py_int : string -> result Z) (post : HumanParams -> result Z)
    (st : Frontend.Front) (text : string) (voice_id : option string)
    (other : Z) (field e : string) (any_text : option string) :
  text <> "" -> other <> 100 -> py_int field = Raise e ->
  Frontend.tts py_int post
    (Frontend.TtsJson
       (Ok (Some {| Frontend.td_text := None; Frontend.td_voice_id := voice_id;
                    Frontend.td_channel_id := Some other |}))) st
    = (Frontend.error_reply "text is required" 400, st)
  /\ Frontend.tts py_int post (Frontend.TtsForm (Some "") voice_id None) st
     = (Frontend.error_reply "text is required" 400, st)
  /\ Frontend.tts py_int post (Frontend.TtsJson (Ok None)) st
     = (Frontend.error_reply "text is required" 400, st)
  /\ Frontend.tts py_int post
       (Frontend.TtsJson
          (Ok (Some {| Frontend.td_text := Some text; Frontend.td_voice_id := voice_id;
                       Frontend.td_channel_id := Some other |}))) st
     = (Frontend.error_reply "Channel not supported" 400, st)
  /\ Frontend.tts py_int post (Frontend.TtsForm any_text voice_id (Some field)) st
     = (Frontend.error_reply e 500, st).
Proof.
  intros Htext Hother Hint.
  split; [reflexivity|]. split; [reflexivity|]. split; [reflexivity|]. split.
  - unfold Frontend.tts, Frontend.tts_params.
    cbn [Frontend.td_text Frontend.td_voice_id Frontend.td_channel_id
         default from_option id].
    apply String.eqb_neq in Htext. rewrite Htext.
    by rewrite bool_decide_eq_false_2.
  - unfold Frontend.tts, Frontend.tts_params. by rewrite Hint.
Qed.

Lemma X20_tts_rejects_without_posting_witness :
  Frontend.tts (fun _ => Raise "invalid literal for int() with base 10: 'x'")
    (fun _ => Ok 200) (Frontend.TtsForm (Some "") None (Some "x"))
    {| Frontend.digital_human_connected := true;
       Frontend.digital_human_sessionid := 111111;
       Frontend.voice_templates := []; Frontend.files := ∅;
       Frontend.posted := [] |}
  = (Frontend.error_reply "invalid literal for int() with base 10: 'x'" 500,
     {| Frontend.digital_human_connected := true;
        Frontend.digital_human_sessionid := 111111;
        Frontend.voice_templates := []; Frontend.files := ∅;
        Frontend.posted := [] |}).
Proof.
  refine (proj2 (proj2 (proj2 (proj2
    (X20_tts_rejects_without_posting
       (fun _ => Raise "invalid literal for int() with base 10: 'x'")
       (fun _ => Ok 200)
       {| Frontend.digital_human_connected := true;
          Frontend.digital_human_sessionid := 111111;
          Frontend.voice_templates := []; Frontend.files := ∅;
          Frontend.posted := [] |}
       "hello" None 7 "x" "invalid literal for int() with base 10: 'x'"
       (Some "") _ _ _))))); [discriminate | lia | reflexivity].
Defined.

(** ** The front end against the [/human] handler *)

Lemma post_to_human_ok raises s body : Frontend.post_to_human raises s body = Ok 200.
Proof.
  unfold Frontend.post_to_human, human.
  destruct (try_except_returns (human_body raises (Ok body)) (code_msg (-1)) s)
    as (r & s' & ->). reflexivity.
Qed.

Lemma zero_not_ready opt py_int RTCSessionDescription evs :
  honest_events evs ->
  session_ready (shared (run opt py_int RTCSessionDescription initial evs)) 0 = false.
Proof.
  intros Hhonest.
  destruct (ids_run opt py_int RTCSessionDescription
              (fun z => 100000 <= z <= 999999) evs) as [Hreg _].
  { eapply Forall_impl; [exact Hhonest|].
    intros ev Hev body randint ->.
    pose proof (randN_bounds randint 6 Hev ltac:(lia)) as H6.
    change (10 ^ (6 - 1)) with 100000 in H6.
    change (10 ^ 6 - 1) with 999999 in H6. exact H6. }
  apply session_ready_false.
  destruct (nerfreals (shared (run opt py_int RTCSessionDescription initial evs)) !! 0)
    as [v|] eqn:Hl; [|by left].
  assert (100000 <= 0 <= 999999) by (apply Hreg; unfold registry; by eexists).
  lia.
Qed.

(** X21. Against a LiveTalking server that is reachable, [tts] on the
    digital-human channel always answers [{success: true, message: "Sent
    to digital human"}]: [human] answers every request with a response of
    status 200 and the front end looks at the status only.  This includes
    the case in which the stored session id has no attached renderer,
    where [human] answered [{code: -1, msg: "session not found"}] and
    delivered nothing; a front end that still holds the initial id 0 is
    always in that case. *)
Theorem X21_success_reported_for_every_answer
    (py_int : string -> result Z) (raises : Effect -> option string)
    (s : State) (text : string) (voice_id : option string) (channel : option Z)
    (st : Frontend.Front) :
  text <> "" ->
  default Frontend.DIGITAL_HUMAN_CHANNEL_ID channel = 100 ->
  fst (Frontend.tts py_int (Frontend.post_to_human raises s)
         (Frontend.TtsJson
            (Ok (Some {| Frontend.td_text := Some text;
                         Frontend.td_voice_id := voice_id;
                         Frontend.td_channel_id := channel |}))) st)
  = Frontend.sent_reply
  /\ (session_ready s (Frontend.digital_human_sessionid st) = false ->
      human raises
        (Ok (Frontend.echo_body text (Frontend.digital_human_sessionid st))) s
      = (Ok resp_session_not_found, s))
  /\ (forall opt py_int' RTCSessionDescription evs,
        honest_events evs ->
        Frontend.digital_human_sessionid st = 0 ->
        human raises (Ok (Frontend.echo_body text 0))
          (shared (run opt py_int' RTCSessionDescription initial evs))
        = (Ok resp_session_not_found,
           shared (run opt py_int' RTCSessionDescription initial evs))).
Proof.
  intros Htext Hchannel. split; [|split].
  - rewrite tts_on_channel by done.
    unfold Frontend.send_to_livetalking. by rewrite post_to_human_ok.
  - intros Hnot. by apply human_not_ready.
  - intros opt py_int' RTC evs Hhonest Hzero.
    apply human_not_ready. by apply zero_not_ready.
Qed.

(** The front end holds the id 111111, which the LiveTalking server has
    not registered; the text is reported as sent. *)
Lemma X21_success_reported_for_every_answer_witness :
  fst (Frontend.tts no_int (Frontend.post_to_human (fun _ => None) (shared initial))
         (Frontend.TtsJson
            (Ok (Some {| Frontend.td_text := Some "hello";
                         Frontend.td_voice_id := None;
                         Frontend.td_channel_id := Some 100 |})))
         {| Frontend.digital_human_connected := true;
            Frontend.digital_human_sessionid := 111111;
            Frontend.voice_templates := []; Frontend.files := ∅;
            Frontend.posted := [] |})
  = Frontend.sent_reply
  /\ human (fun _ => None) (Ok (Frontend.echo_body "hello" 111111)) (shared initial)
     = (Ok resp_session_not_found, shared initial).
Proof.
  destruct (X21_success_reported_for_every_answer no_int (fun _ => None)
              (shared initial) "hello" None (Some 100)
              {| Frontend.digital_human_connected := true;
                 Frontend.digital_human_sessionid := 111111;
                 Frontend.voice_templates := []; Frontend.files := ∅;
                 Frontend.posted := [] |}) as (Hsent & Hdropped & _).
  - discriminate.
  - reflexivity.
  - split; [exact Hsent | apply Hdropped; reflexivity].
Defined.

(** ** The stored session id *)

(** X22. A status POST stores the connected flag and the session id it
    carries, taking [false] and 0 for what it does not carry (a POST with
    an empty body resets both); a following GET reports exactly the stored
    pair, and a following [tts] addresses its echo to the stored session
    id.  The voice templates and the files are not touched. *)
Theorem X22_status_is_stored_and_used
    (py_int : string -> result Z) (post : HumanParams -> result Z)
    (connected : option bool) (sessionid : option Z) (text : string)
    (st : Frontend.Front) :
  text <> "" ->
  fst (Frontend.digital_human_status_post
         (Ok (Some {| Frontend.sd_connected := connected;
                      Frontend.sd_sessionid := sessionid |})) st)
  = Ok (Frontend.FObj [("success", Frontend.FBool true)], 200)
  /\ Frontend.digital_human_status_get
       (snd (Frontend.digital_human_status_post
               (Ok (Some {| Frontend.sd_connected := connected;
                            Frontend.sd_sessionid := sessionid |})) st))
     = (Frontend.FObj [("connected", Frontend.FBool (default false connected));
                       ("sessionid", Frontend.FNum (default 0 sessionid))], 200)
  /\ Frontend.digital_human_status_get
       (snd (Frontend.digital_human_status_post (Ok None) st))
     = (Frontend.FObj [("connected", Frontend.FBool false);
                       ("sessionid", Frontend.FNum 0)], 200)
  /\ Frontend.posted
       (snd (Frontend.tts py_int post
               (Frontend.TtsJson
                  (Ok (Some {| Frontend.td_text := Some text;
                               Frontend.td_voice_id := None;
                               Frontend.td_channel_id := None |})))
               (snd (Frontend.digital_human_status_post
                       (Ok (Some {| Frontend.sd_connected := connected;
                                    Frontend.sd_sessionid := sessionid |})) st))))
     = Frontend.posted st ++ [Frontend.echo_body text (default 0 sessionid)]
  /\ Frontend.voice_templates
       (snd (Frontend.digital_human_status_post
               (Ok (Some {| Frontend.sd_connected := connected;
                            Frontend.sd_sessionid := sessionid |})) st))
     = Frontend.voice_templates st
  /\ Frontend.files
       (snd (Frontend.digital_human_status_post
               (Ok (Some {| Frontend.sd_connected := connected;
                            Frontend.sd_sessionid := sessionid |})) st))
     = Frontend.files st.
Proof.
  intros Htext.
  split; [reflexivity|]. split; [reflexivity|]. split; [reflexivity|].
  split; [|split; reflexivity].
  rewrite tts_on_channel by done.
  unfold Frontend.send_to_livetalking.
  cbn [Frontend.digital_human_status_post snd Frontend.digital_human_sessionid
       Frontend.sd_sessionid Frontend.sd_connected Frontend.posted].
  by destruct (post _).
Qed.

Lemma X22_status_is_stored_and_used_witness :
  Frontend.posted
    (snd (Frontend.tts no_int (fun _ => Ok 200)
            (Frontend.TtsJson
               (Ok (Some {| Frontend.td_text := Some "hello";
                            Frontend.td_voice_id := None;
                            Frontend.td_channel_id := None |})))
            (snd (Frontend.digital_human_status_post
                    (Ok (Some {| Frontend.sd_connected := Some true;
                                 Frontend.sd_sessionid := Some 222222 |}))
                    {| Frontend.digital_human_connected := false;
                       Frontend.digital_human_sessionid := 0;
                       Frontend.voice_templates := []; Frontend.files := ∅;
                       Frontend.posted := [] |}))))
  = [] ++ [Frontend.echo_body "hello" 222222].
Proof.
  destruct (X22_status_is_stored_and_used no_int (fun _ => Ok 200)
              (Some true) (Some 222222) "hello"
              {| Frontend.digital_human_connected := false;
                 Frontend.digital_human_sessionid := 0;
                 Frontend.voice_templates := []; Frontend.files := ∅;
                 Frontend.posted := [] |}) as (_ & _ & _ & Hposted & _).
  - discriminate.
  - exact Hposted.
Defined.

(** ** Voice templates *)

Lemma dict_get_set_eq {V : Type} k (v : V) d :
  Frontend.dict_get k (Frontend.dict_set k v d) = Some v.
Proof.
  induction d as [|[k' v'] d IH]; simpl.
  - by rewrite String.eqb_refl.
  - destruct (String.eqb k k') eqn:E; simpl.
    + by rewrite String.eqb_refl.
    + by rewrite E.
Qed.

Lemma dict_get_set_ne {V : Type} k k' (v : V) d :
  k <> k' ->
  Frontend.dict_get k' (Frontend.dict_set k v d) = Frontend.dict_get k' d.
Proof.
  intros Hne. induction d as [|[k0 v0] d IH]; simpl.
  - apply not_eq_sym in Hne. apply String.eqb_neq in Hne. by rewrite Hne.
  - destruct (String.eqb_spec k k0) as [->|Hk]; simpl.
    + apply not_eq_sym in Hne. apply String.eqb_neq in Hne. by rewrite Hne.
    + by rewrite IH.
Qed.

Lemma dict_get_None_keys {V : Type} k (d : list (string * V)) :
  Frontend.dict_get k d = None <-> k ∉ dict_keys d.
Proof.
  unfold dict_keys. induction d as [|[k0 v0] d IH]; simpl.
  - split; [intros _ H; by apply elem_of_nil in H | done].
  - rewrite not_elem_of_cons.
    destruct (String.eqb_spec k k0) as [->|Hk].
    + split; [done | by intros [? _]].
    + rewrite IH. tauto.
Qed.

Lemma dict_keys_set {V : Type} k (v : V) d :
  dict_keys (Frontend.dict_set k v d)
  = if bool_decide (k ∈ dict_keys d) then dict_keys d else dict_keys d ++ [k].
Proof.
  unfold dict_keys. induction d as [|[k0 v0] d IH].
  - cbn [Frontend.dict_set map fst app].
    case_bool_decide as H; [by apply elem_of_nil in H | done].
  - cbn [Frontend.dict_set map fst].
    destruct (String.eqb_spec k k0) as [Heq|Hk]; cbn [map fst].
    + clear IH. subst k0.
      case_bool_decide as H; [done|]. exfalso. apply H, list_elem_of_here.
    + rewrite IH.
      case_bool_decide as Hin; case_bool_decide as Hin'; try done.
      * exfalso. apply Hin'. by apply elem_of_cons; right.
      * exfalso. by apply elem_of_cons in Hin' as [?|?].
Qed.

Lemma dict_del_set_fresh {V : Type} k (v : V) d :
  Frontend.dict_get k d = None ->
  Frontend.dict_del k (Frontend.dict_set k v d) = d.
Proof.
  induction d as [|[k0 v0] d IH]; simpl.
  - by rewrite String.eqb_refl.
  - destruct (String.eqb k k0) eqn:E; [done|]. simpl. rewrite E.
    intros H. by rewrite IH.
Qed.

Lemma startswith_sep_append a b :
  a <> "" -> Frontend.startswith_sep (a +:+ b) = Frontend.startswith_sep a.
Proof. destruct a; [done|]. reflexivity. Qed.

(** X23. An upload with a voice id and a file, when neither [os.makedirs]
    nor [save] raises, answers [{success: true, voice_id}] and afterwards
    the id maps to the template with that id as name, the given
    description and the path [os.path.join(VOICES_DIR, id + ".wav")]; the
    file at that path holds the uploaded content; the templates of all
    other ids are as before; the keys stay distinct, and the dict grows by
    one entry exactly when the id is new (an existing id keeps its place). *)
Theorem X23_upload_registers_voice
    (VOICES_DIR voice_id : string) (description : option string)
    (voice_file : Frontend.FileStorage) (st : Frontend.Front) :
  voice_id <> "" ->
  Frontend.fs_filename voice_file <> "" ->
  NoDup (dict_keys (Frontend.voice_templates st)) ->
  fst (Frontend.upload_voice VOICES_DIR None None (Some voice_id) description
         (Some voice_file) st) = uploaded_reply voice_id
  /\ Frontend.dict_get voice_id
       (Frontend.voice_templates
          (snd (Frontend.upload_voice VOICES_DIR None None (Some voice_id)
                  description (Some voice_file) st)))
     = Some (uploaded_template VOICES_DIR voice_id description)
  /\ Frontend.files
       (snd (Frontend.upload_voice VOICES_DIR None None (Some voice_id)
               description (Some voice_file) st))
       !! Frontend.path_join VOICES_DIR (voice_id +:+ ".wav")
     = Some (Frontend.fs_content voice_file)
  /\ (forall other, other <> voice_id ->
        Frontend.dict_get other
          (Frontend.voice_templates
             (snd (Frontend.upload_voice VOICES_DIR None None (Some voice_id)
                     description (Some voice_file) st)))
        = Frontend.dict_get other (Frontend.voice_templates st))
  /\ NoDup (dict_keys
              (Frontend.voice_templates
                 (snd (Frontend.upload_voice VOICES_DIR None None (Some voice_id)
                         description (Some voice_file) st))))
  /\ dict_keys
       (Frontend.voice_templates
          (snd (Frontend.upload_voice VOICES_DIR None None (Some voice_id)
                  description (Some voice_file) st)))
     = if bool_decide (voice_id ∈ dict_keys (Frontend.voice_templates st))
       then dict_keys (Frontend.voice_templates st)
       else dict_keys (Frontend.voice_templates st) ++ [voice_id].
Proof.
  intros Hid Hfile Hnodup.
  unfold Frontend.upload_voice, Frontend.falsy, Frontend.no_file.
  apply String.eqb_neq in Hid, Hfile. rewrite Hid, Hfile.
  cbn [fst snd Frontend.voice_templates Frontend.files].
  fold (uploaded_template VOICES_DIR voice_id description).
  split; [reflexivity|]. split; [apply dict_get_set_eq|].
  split; [apply lookup_insert_eq|].
  split; [intros other Hne; by apply dict_get_set_ne|].
  assert (dict_keys (Frontend.dict_set voice_id
                       (uploaded_template VOICES_DIR voice_id description)
                       (Frontend.voice_templates st))
          = if bool_decide (voice_id ∈ dict_keys (Frontend.voice_templates st))
            then dict_keys (Frontend.voice_templates st)
            else dict_keys (Frontend.voice_templates st) ++ [voice_id]) as Hkeys
    by apply dict_keys_set.
  split; [|exact Hkeys].
  rewrite Hkeys. case_bool_decide as Hin; [done|].
  apply NoDup_app. split; [done|]. split.
  - intros k Hk [->|H]%elem_of_cons; [done | by apply elem_of_nil in H].
  - apply NoDup_singleton.
Qed.

Lemma X23_upload_registers_voice_witness :
  Frontend.dict_get "alice"
    (Frontend.voice_templates
       (snd (Frontend.upload_voice "/app/voices" None None (Some "alice")
               (Some "warm") (Some {| Frontend.fs_filename := "a.wav";
                                      Frontend.fs_content := "RIFF" |})
               {| Frontend.digital_human_connected := false;
                  Frontend.digital_human_sessionid := 0;
                  Frontend.voice_templates := []; Frontend.files := ∅;
                  Frontend.posted := [] |})))
  = Some {| Frontend.t_id := "alice"; Frontend.t_name := "alice";
            Frontend.t_path := "/app/voices/alice.wav";
            Frontend.t_description := "warm" |}.
Proof.
  destruct (X23_upload_registers_voice "/app/voices" "alice" (Some "warm")
              {| Frontend.fs_filename := "a.wav"; Frontend.fs_content := "RIFF" |}
              {| Frontend.digital_human_connected := false;
                 Frontend.digital_human_sessionid := 0;
                 Frontend.voice_templates := []; Frontend.files := ∅;
                 Frontend.posted := [] |}) as (_ & Hget & _).
  - discriminate.
  - discriminate.
  - constructor.
  - exact Hget.
Defined.

(** X24. The voice id is used as a path component as it is.  An id that
    starts with a slash makes [os.path.join] drop [VOICES_DIR], so the
    upload is written to [id + ".wav"] itself, outside the voices
    directory; for any other id and a directory name that is not empty and
    has no trailing slash the file goes to [VOICES_DIR/id.wav]. *)
Theorem X24_absolute_voice_id_leaves_voices_dir
    (VOICES_DIR voice_id plain : string) (description : option string)
    (voice_file : Frontend.FileStorage) (st : Frontend.Front) :
  Frontend.startswith_sep voice_id = true ->
  plain <> "" -> Frontend.startswith_sep plain = false ->
  VOICES_DIR <> "" -> Frontend.endswith_sep VOICES_DIR = false ->
  Frontend.fs_filename voice_file <> "" ->
  Frontend.files
    (snd (Frontend.upload_voice VOICES_DIR None None (Some voice_id) description
            (Some voice_file) st)) !! (voice_id +:+ ".wav")
  = Some (Frontend.fs_content voice_file)
  /\ Frontend.files
       (snd (Frontend.upload_voice VOICES_DIR None None (Some plain) description
               (Some voice_file) st)) !! (VOICES_DIR +:+ "/" +:+ plain +:+ ".wav")
     = Some (Frontend.fs_content voice_file).
Proof.
  intros Habs Hplain Hrel Hdir Hslash Hfile.
  assert (voice_id <> "") as Hid by (by destruct voice_id).
  unfold Frontend.upload_voice, Frontend.falsy, Frontend.no_file.
  apply String.eqb_neq in Hid, Hfile, Hplain. rewrite Hid, Hfile, Hplain.
  cbn [snd Frontend.files]. unfold Frontend.path_join.
  apply String.eqb_neq in Hid, Hplain.
  rewrite !startswith_sep_append by done. rewrite Habs, Hrel.
  apply String.eqb_neq in Hdir. rewrite Hdir, Hslash. cbn [orb].
  split; apply lookup_insert_eq.
Qed.

Lemma X24_absolute_voice_id_leaves_voices_dir_witness :
  Frontend.files
    (snd (Frontend.upload_voice "/app/voices" None None (Some "/etc/cron.d/x")
            None (Some {| Frontend.fs_filename := "a.wav";
                          Frontend.fs_content := "RIFF" |})
            {| Frontend.digital_human_connected := false;
               Frontend.digital_human_sessionid := 0;
               Frontend.voice_templates := []; Frontend.files := ∅;
               Frontend.posted := [] |})) !! "/etc/cron.d/x.wav"
  = Some "RIFF".
Proof.
  refine (proj1 (X24_absolute_voice_id_leaves_voices_dir "/app/voices"
                   "/etc/cron.d/x" "alice" None
                   {| Frontend.fs_filename := "a.wav"; Frontend.fs_content := "RIFF" |}
                   {| Frontend.digital_human_connected := false;
                      Frontend.digital_human_sessionid := 0;
                      Frontend.voice_templates := []; Frontend.files := ∅;
                      Frontend.posted := [] |} _ _ _ _ _ _));
    first [reflexivity | discriminate].
Defined.

(** X25. Uploading a voice under a new id whose file does not exist yet
    and then deleting that id restores the globals and the files exactly
    (when no file operation raises); the deletion answers
    [{success: true}]. *)
Theorem X25_upload_then_delete_restores
    (VOICES_DIR voice_id : string) (description : option string)
    (voice_file : Frontend.FileStorage) (st : Frontend.Front) :
  voice_id <> "" ->
  Frontend.fs_filename voice_file <> "" ->
  Frontend.dict_get voice_id (Frontend.voice_templates st) = None ->
  Frontend.files st !! Frontend.path_join VOICES_DIR (voice_id +:+ ".wav") = None ->
  Frontend.delete_voice None voice_id
    (snd (Frontend.upload_voice VOICES_DIR None None (Some voice_id) description
            (Some voice_file) st))
  = ((Frontend.FObj [("success", Frontend.FBool true)], 200), st).
Proof.
  intros Hid Hfile Hnew Hfree.
  unfold Frontend.upload_voice, Frontend.falsy, Frontend.no_file.
  apply String.eqb_neq in Hid, Hfile. rewrite Hid, Hfile.
  unfold Frontend.delete_voice.
  cbn [snd Frontend.voice_templates Frontend.files Frontend.posted
       Frontend.digital_human_connected Frontend.digital_human_sessionid].
  rewrite dict_get_set_eq. cbn [Frontend.t_path].
  rewrite lookup_insert_eq.
  rewrite bool_decide_eq_true_2 by (by eexists).
  rewrite dict_del_set_fresh by done.
  rewrite delete_insert_eq, delete_id by done.
  by destruct st.
Qed.

Lemma X25_upload_then_delete_restores_witness :
  Frontend.delete_voice None "alice"
    (snd (Frontend.upload_voice "/app/voices" None None (Some "alice") None
            (Some {| Frontend.fs_filename := "a.wav"; Frontend.fs_content := "RIFF" |})
            {| Frontend.digital_human_connected := false;
               Frontend.digital_human_sessionid := 0;
               Frontend.voice_templates := []; Frontend.files := ∅;
               Frontend.posted := [] |}))
  = ((Frontend.FObj [("success", Frontend.FBool true)], 200),
     {| Frontend.digital_human_connected := false;
        Frontend.digital_human_sessionid := 0;
        Frontend.voice_templates := []; Frontend.files := ∅;
        Frontend.posted := [] |}).
Proof.
  apply (X25_upload_then_delete_restores "/app/voices" "alice" None
           {| Frontend.fs_filename := "a.wav"; Frontend.fs_content := "RIFF" |}
           {| Frontend.digital_human_connected := false;
              Frontend.digital_human_sessionid := 0;
              Frontend.voice_templates := []; Frontend.files := ∅;
              Frontend.posted := [] |});
    first [reflexivity | discriminate].
Defined.

(** X26. Deleting an id that has no template answers
    [{error: "Voice not found"}] with status 404 and changes nothing.  If
    the file of a template exists and [os.remove] raises, the answer has
    status 500 and both the template and the file remain; if the file does
    not exist, [os.remove] is not called and the template is deleted. *)
Theorem X26_delete_voice_failures
    (voice_id : string) (t : Frontend.Template) (e : string)
    (remove_raises : option string) (st : Frontend.Front) :
  (Frontend.dict_get voice_id (Frontend.voice_templates st) = None ->
   Frontend.delete_voice remove_raises voice_id st
   = (Frontend.error_reply "Voice not found" 404, st))
  /\ (Frontend.dict_get voice_id (Frontend.voice_templates st) = Some t ->
      is_Some (Frontend.files st !! Frontend.t_path t) ->
      Frontend.delete_voice (Some e) voice_id st = (Frontend.error_reply e 500, st))
  /\ (Frontend.dict_get voice_id (Frontend.voice_templates st) = Some t ->
      Frontend.files st !! Frontend.t_path t = None ->
      Frontend.delete_voice remove_raises voice_id st
      = ((Frontend.FObj [("success", Frontend.FBool true)], 200),
         {| Frontend.digital_human_connected := Frontend.digital_human_connected st;
            Frontend.digital_human_sessionid := Frontend.digital_human_sessionid st;
            Frontend.voice_templates :=
              Frontend.dict_del voice_id (Frontend.voice_templates st);
            Frontend.files := Frontend.files st;
            Frontend.posted := Frontend.posted st |})).
Proof.
  unfold Frontend.delete_voice. split; [|split].
  - by intros ->.
  - intros -> Hfile. by rewrite bool_decide_eq_true_2.
  - intros -> Hfile. rewrite bool_decide_eq_false_2; [done|].
    rewrite Hfile. by intros [? [=]].
Qed.

(** A template whose file exists and cannot be removed. *)
Lemma X26_delete_voice_failures_witness :
  Frontend.delete_voice (Some "Permission denied") "alice"
    {| Frontend.digital_human_connected := false;
       Frontend.digital_human_sessionid := 0;
       Frontend.voice_templates := [("alice", uploaded_template "/app/voices" "alice" None)];
       Frontend.files := {[ "/app/voices/alice.wav" := "RIFF" ]};
       Frontend.posted := [] |}
  = (Frontend.error_reply "Permission denied" 500,
     {| Frontend.digital_human_connected := false;
        Frontend.digital_human_sessionid := 0;
        Frontend.voice_templates := [("alice", uploaded_template "/app/voices" "alice" None)];
        Frontend.files := {[ "/app/voices/alice.wav" := "RIFF" ]};
        Frontend.posted := [] |}).
Proof.
  refine (proj1 (proj2 (X26_delete_voice_failures "alice"
                          (uploaded_template "/app/voices" "alice" None)
                          "Permission denied" None
                          {| Frontend.digital_human_connected := false;
                             Frontend.digital_human_sessionid := 0;
                             Frontend.voice_templates :=
                               [("alice", uploaded_template "/app/voices" "alice" None)];
                             Frontend.files := {[ "/app/voices/alice.wav" := "RIFF" ]};
                             Frontend.posted := [] |})) _ _).
  - reflexivity.
  - by vm_compute; eexists.
Defined.

(** X27. [upload_voice] turns a request away with status 400 and changes
    nothing when the voice id is absent or empty ("voice_id is required",
    also when the file is missing as well) or when the file is absent or
    has an empty filename ("file is required"); when [os.makedirs] or
    [save] raises it answers with status 500 and the message, and no
    template is registered and no file recorded. *)
Theorem X27_upload_voice_rejections
    (VOICES_DIR voice_id e : string) (description : option string)
    (voice_file : Frontend.FileStorage) (any_file : option Frontend.FileStorage)
    (save_raises : option string) (st : Frontend.Front) :
  voice_id <> "" ->
  Frontend.fs_filename voice_file <> "" ->
  Frontend.upload_voice VOICES_DIR None None None description any_file st
    = (Frontend.error_reply "voice_id is required" 400, st)
  /\ Frontend.upload_voice VOICES_DIR None None (Some "") description any_file st
     = (Frontend.error_reply "voice_id is required" 400, st)
  /\ Frontend.upload_voice VOICES_DIR None None (Some voice_id) description None st
     = (Frontend.error_reply "file is required" 400, st)
  /\ Frontend.upload_voice VOICES_DIR None None (Some voice_id) description
       (Some {| Frontend.fs_filename := ""; Frontend.fs_content := e |}) st
     = (Frontend.error_reply "file is required" 400, st)
  /\ Frontend.upload_voice VOICES_DIR (Some e) save_raises (Some voice_id) description
       (Some voice_file) st
     = (Frontend.error_reply e 500, st)
  /\ Frontend.upload_voice VOICES_DIR None (Some e) (Some voice_id) description
       (Some voice_file) st
     = (Frontend.error_reply e 500, st).
Proof.
  intros Hid Hfile.
  unfold Frontend.upload_voice, Frontend.falsy, Frontend.no_file.
  apply String.eqb_neq in Hid, Hfile. rewrite Hid, Hfile.
  cbn [Frontend.fs_filename]. repeat split; reflexivity.
Qed.

Lemma X27_upload_voice_rejections_witness :
  Frontend.upload_voice "/app/voices" None (Some "Permission denied") (Some "alice")
    None (Some {| Frontend.fs_filename := "a.wav"; Frontend.fs_content := "RIFF" |})
    {| Frontend.digital_human_connected := false;
       Frontend.digital_human_sessionid := 0;
       Frontend.voice_templates := []; Frontend.files := ∅;
       Frontend.posted := [] |}
  = (Frontend.error_reply "Permission denied" 500,
     {| Frontend.digital_human_connected := false;
        Frontend.digital_human_sessionid := 0;
        Frontend.voice_templates := []; Frontend.files := ∅;
        Frontend.posted := [] |}).
Proof.
  refine (proj2 (proj2 (proj2 (proj2 (proj2
    (X27_upload_voice_rejections "/app/voices" "alice" "Permission denied" None
       {| Frontend.fs_filename := "a.wav"; Frontend.fs_content := "RIFF" |}
       None None
       {| Frontend.digital_human_connected := false;
          Frontend.digital_human_sessionid := 0;
          Frontend.voice_templates := []; Frontend.files := ∅;
          Frontend.posted := [] |} _ _)))))); discriminate.
Defined.


(** * Properties of the TTS server *)

Lemma tts_keeps_loaded VOICES_DIR ctor env req m :
  snd (IndexTTS2.tts VOICES_DIR ctor env req (Some m)) = Some m.
Proof.
  unfold IndexTTS2.tts.
  destruct (IndexTTS2.tts_params req) as [[[t v] f]|]; [|done].
  destruct (String.eqb t ""); [done|]. cbn [IndexTTS2.load_model].
  destruct (IndexTTS2.ref_audio_path _ _ _ _) as [ref|]; [|done].
  destruct (IndexTTS2.generate _ _ _ _ _) as [audio|]; [|done].
  by destruct (IndexTTS2.sf_write _ _).
Qed.

(** X28. The lazy load of the model is safe only for requests that do not
    overlap.  For [/tts] requests handled one at a time (no request starts
    before the previous one has been answered): a request with a text that
    finds no model loads it before anything else, and the model it
    constructed is still the loaded one after any number of later
    requests, also when its own synthesis fails; once a model is loaded,
    no sequence of requests replaces or unloads it, and the answer of a
    request does not depend on what the constructor would do; if the
    constructor raises, the answer has status 500 with its message and the
    model stays unloaded, so the next request tries again; and a request
    without text is answered with status 400 before any load is attempted.
    On the threads of the server, a thread that runs the test and the
    assignment of [load_model] without another thread in between leaves
    the global as the one-at-a-time handler does; but two threads that
    both run the test before either assigns both construct a model, and
    the second assignment replaces the first model. *)
Theorem X28_lazy_model_load
    (VOICES_DIR : string) (env env' : IndexTTS2.TtsEnv)
    (req req' : IndexTTS2.TtsRequest) (m m' : nat) (e : string)
    (ctor ctor' : result nat) (calls : list IndexTTS2.TtsCall)
    (l : IndexTTS2.Loading) (t t' : nat)
    (text voice_id : string) (voice_file : option Frontend.FileStorage) :
  IndexTTS2.tts_params req = Ok (text, voice_id, voice_file) ->
  text <> "" ->
  t ∉ IndexTTS2.past_test l ->
  t <> t' ->
  IndexTTS2.serve VOICES_DIR None
    ({| IndexTTS2.tc_ctor := Ok m; IndexTTS2.tc_env := env;
        IndexTTS2.tc_req := req |} :: calls) = Some m
  /\ IndexTTS2.serve VOICES_DIR (Some m) calls = Some m
  /\ IndexTTS2.tts VOICES_DIR ctor env' req' (Some m)
     = IndexTTS2.tts VOICES_DIR ctor' env' req' (Some m)
  /\ IndexTTS2.tts VOICES_DIR (Raise e) env req None
     = (IndexTTS2.Failed e 500, None)
  /\ IndexTTS2.tts VOICES_DIR ctor env (IndexTTS2.TtsJson (Ok None)) None
     = (IndexTTS2.Failed "text is required" 400, None)
  /\ IndexTTS2.global_model
       (IndexTTS2.load_run l [IndexTTS2.LmTest t; IndexTTS2.LmAssign t ctor])
     = snd (IndexTTS2.load_model ctor (IndexTTS2.global_model l))
  /\ IndexTTS2.load_run
       {| IndexTTS2.global_model := None; IndexTTS2.past_test := [];
          IndexTTS2.built := [] |}
       [ IndexTTS2.LmTest t; IndexTTS2.LmTest t';
         IndexTTS2.LmAssign t (Ok m); IndexTTS2.LmAssign t' (Ok m') ]
     = {| IndexTTS2.global_model := Some m'; IndexTTS2.past_test := [];
          IndexTTS2.built := [m'; m] |}.
Proof.
  intros Hparams Htext Ht Hne. apply String.eqb_neq in Htext.
  assert (IndexTTS2.serve VOICES_DIR (Some m) calls = Some m) as Hkept.
  { unfold IndexTTS2.serve. induction calls as [|c calls IH]; simpl; [done|].
    by rewrite tts_keeps_loaded. }
  split; [|split; [|split; [|split; [|split; [|split]]]]].
  - unfold IndexTTS2.serve in *. simpl.
    assert (snd (IndexTTS2.tts VOICES_DIR (Ok m) env req None) = Some m) as ->;
      [|exact Hkept].
    unfold IndexTTS2.tts. rewrite Hparams, Htext. cbn [IndexTTS2.load_model].
    destruct (IndexTTS2.ref_audio_path _ _ _ _) as [ref|]; [|done].
    destruct (IndexTTS2.generate _ _ _ _ _) as [audio|]; [|done].
    by destruct (IndexTTS2.sf_write _ _).
  - exact Hkept.
  - reflexivity.
  - unfold IndexTTS2.tts. by rewrite Hparams, Htext.
  - reflexivity.
  - unfold IndexTTS2.load_run. simpl.
    destruct (IndexTTS2.global_model l) as [m0|] eqn:Hm; simpl.
    + rewrite bool_decide_eq_false_2 by done. by rewrite Hm.
    + rewrite bool_decide_eq_true_2 by apply list_elem_of_here.
      by destruct ctor.
  - unfold IndexTTS2.load_run. simpl.
    assert (t ∈ [t'; t]) as Hin by (apply elem_of_cons; right; apply list_elem_of_here).
    rewrite (bool_decide_eq_true_2 _ Hin). simpl.
    destruct (decide (t = t')) as [|_]; [done|].
    destruct (decide (t = t)) as [_|]; [|done]. simpl.
    rewrite bool_decide_eq_true_2 by apply list_elem_of_here.
    simpl. by destruct (decide (t' = t')).
Qed.

(** The first request loads model 7 and its synthesis fails; the second
    request, whose constructor would give model 8, leaves model 7 loaded.
    Had the two requests overlapped, both models would have been built. *)
Lemma X28_lazy_model_load_witness :
  IndexTTS2.serve "/app/voices" None
    [ {| IndexTTS2.tc_ctor := Ok 7%nat;
         IndexTTS2.tc_env :=
           {| IndexTTS2.tmp_name := "/tmp/x.wav"; IndexTTS2.save_raises := None;
              IndexTTS2.path_exists := fun _ => false;
              IndexTTS2.synth := fun _ _ _ => Raise "CUDA out of memory";
              IndexTTS2.sf_write := fun a => Ok a |};
         IndexTTS2.tc_req :=
           IndexTTS2.TtsJson
             (Ok (Some {| IndexTTS2.td_text := Some "hello";
                          IndexTTS2.td_voice_id := None |})) |};
      {| IndexTTS2.tc_ctor := Ok 8%nat;
         IndexTTS2.tc_env :=
           {| IndexTTS2.tmp_name := "/tmp/x.wav"; IndexTTS2.save_raises := None;
              IndexTTS2.path_exists := fun _ => false;
              IndexTTS2.synth := fun _ _ _ => Ok "pcm";
              IndexTTS2.sf_write := fun a => Ok a |};
         IndexTTS2.tc_req :=
           IndexTTS2.TtsJson
             (Ok (Some {| IndexTTS2.td_text := Some "again";
                          IndexTTS2.td_voice_id := None |})) |} ]
  = Some 7%nat
  /\ IndexTTS2.load_run
       {| IndexTTS2.global_model := None; IndexTTS2.past_test := [];
          IndexTTS2.built := [] |}
       [ IndexTTS2.LmTest 1%nat; IndexTTS2.LmTest 2%nat;
         IndexTTS2.LmAssign 1%nat (Ok 7%nat); IndexTTS2.LmAssign 2%nat (Ok 8%nat) ]
     = {| IndexTTS2.global_model := Some 8%nat; IndexTTS2.past_test := [];
          IndexTTS2.built := [8%nat; 7%nat] |}.
Proof.
  pose proof (X28_lazy_model_load "/app/voices"
                {| IndexTTS2.tmp_name := "/tmp/x.wav"; IndexTTS2.save_raises := None;
                   IndexTTS2.path_exists := fun _ => false;
                   IndexTTS2.synth := fun _ _ _ => Raise "CUDA out of memory";
                   IndexTTS2.sf_write := fun a => Ok a |}
                {| IndexTTS2.tmp_name := "/tmp/x.wav"; IndexTTS2.save_raises := None;
                   IndexTTS2.path_exists := fun _ => false;
                   IndexTTS2.synth := fun _ _ _ => Raise "CUDA out of memory";
                   IndexTTS2.sf_write := fun a => Ok a |}
                (IndexTTS2.TtsJson
                   (Ok (Some {| IndexTTS2.td_text := Some "hello";
                                IndexTTS2.td_voice_id := None |})))
                (IndexTTS2.TtsJson (Ok None)) 7%nat 8%nat "x" (Ok 7%nat) (Ok 7%nat)
                [ {| IndexTTS2.tc_ctor := Ok 8%nat;
                     IndexTTS2.tc_env :=
                       {| IndexTTS2.tmp_name := "/tmp/x.wav";
                          IndexTTS2.save_raises := None;
                          IndexTTS2.path_exists := fun _ => false;
                          IndexTTS2.synth := fun _ _ _ => Ok "pcm";
                          IndexTTS2.sf_write := fun a => Ok a |};
                     IndexTTS2.tc_req :=
                       IndexTTS2.TtsJson
                         (Ok (Some {| IndexTTS2.td_text := Some "again";
                                      IndexTTS2.td_voice_id := None |})) |} ]
                {| IndexTTS2.global_model := None; IndexTTS2.past_test := [];
                   IndexTTS2.built := [] |}
                1%nat 2%nat "hello" "default" None
                eq_refl ltac:(discriminate) ltac:(by apply not_elem_of_nil)
                ltac:(discriminate))
    as (Hfirst & _ & _ & _ & _ & _ & Hrace).
  split; [exact Hfirst | exact Hrace].
Defined.

(** X29. The reference voice of a synthesis.  An uploaded voice file wins
    over the voice id: the synthesis gets the temporary copy, whatever id
    the request names.  Without an upload, a preset id whose file does not
    exist is not an error: the request is answered exactly as if it had
    named the voice "default", that is with [default.wav] if that exists
    and with the model's own voice otherwise. *)
Theorem X29_missing_preset_falls_back
    (VOICES_DIR : string) (ctor : result nat) (env : IndexTTS2.TtsEnv)
    (model : option nat) (text : option string) (voice_id other : string)
    (voice_file : Frontend.FileStorage) (m : nat) (t : string) :
  IndexTTS2.path_exists env (Frontend.path_join VOICES_DIR (voice_id +:+ ".wav"))
    = false ->
  Frontend.fs_filename voice_file <> "" ->
  IndexTTS2.save_raises env = None ->
  IndexTTS2.tmp_name env <> "" ->
  t <> "" ->
  IndexTTS2.tts VOICES_DIR ctor env
    (IndexTTS2.TtsJson
       (Ok (Some {| IndexTTS2.td_text := text;
                    IndexTTS2.td_voice_id := Some voice_id |}))) model
  = IndexTTS2.tts VOICES_DIR ctor env
      (IndexTTS2.TtsJson
         (Ok (Some {| IndexTTS2.td_text := text;
                      IndexTTS2.td_voice_id := Some "default" |}))) model
  /\ IndexTTS2.tts VOICES_DIR ctor env
       (IndexTTS2.TtsForm (Some t) (Some other) (Some voice_file)) (Some m)
     = (match IndexTTS2.synth env m t (Some (IndexTTS2.tmp_name env)) with
        | Ok audio =>
            match IndexTTS2.sf_write env audio with
            | Ok wav => IndexTTS2.Wav wav
            | Raise e => IndexTTS2.Failed e 500
            end
        | Raise e => IndexTTS2.Failed e 500
        end, Some m).
Proof.
  intros Hmissing Hfile Hsave Htmp Ht. split.
  - unfold IndexTTS2.tts, IndexTTS2.tts_params.
    cbn [IndexTTS2.td_text IndexTTS2.td_voice_id default from_option id].
    destruct (String.eqb (from_option id "" text) ""); [done|].
    destruct (IndexTTS2.load_model ctor model) as [[tts_model|e] model']; [|done].
    unfold IndexTTS2.ref_audio_path. cbn [Frontend.no_file negb].
    rewrite Hmissing.
    by destruct (negb (String.eqb voice_id "")
                 && negb (String.eqb voice_id "default")).
  - unfold IndexTTS2.tts, IndexTTS2.tts_params.
    cbn [default from_option id].
    apply String.eqb_neq in Ht, Hfile, Htmp. rewrite Ht.
    cbn [IndexTTS2.load_model].
    unfold IndexTTS2.ref_audio_path, Frontend.no_file. rewrite Hfile, Hsave.
    cbn [negb]. unfold IndexTTS2.generate, Frontend.falsy. rewrite Htmp. cbn [negb].
    destruct (IndexTTS2.synth env m t _) as [audio|e]; [|done].
    by destruct (IndexTTS2.sf_write env audio).
Qed.

Lemma X29_missing_preset_falls_back_witness :
  IndexTTS2.tts "/app/voices" (Ok 7%nat)
    {| IndexTTS2.tmp_name := "/tmp/x.wav"; IndexTTS2.save_raises := None;
       IndexTTS2.path_exists := fun p => String.eqb p "/app/voices/default.wav";
       IndexTTS2.synth := fun _ text ref => Ok (text +:+ "@" +:+ default "-" ref);
       IndexTTS2.sf_write := fun a => Ok a |}
    (IndexTTS2.TtsJson
       (Ok (Some {| IndexTTS2.td_text := Some "hello";
                    IndexTTS2.td_voice_id := Some "bob" |}))) None
  = (IndexTTS2.Wav "hello@/app/voices/default.wav", Some 7%nat).
Proof.
  rewrite (proj1 (X29_missing_preset_falls_back "/app/voices" (Ok 7%nat)
                    {| IndexTTS2.tmp_name := "/tmp/x.wav";
                       IndexTTS2.save_raises := None;
                       IndexTTS2.path_exists :=
                         fun p => String.eqb p "/app/voices/default.wav";
                       IndexTTS2.synth :=
                         fun _ text ref => Ok (text +:+ "@" +:+ default "-" ref);
                       IndexTTS2.sf_write := fun a => Ok a |}
                    None (Some "hello") "bob" "any"
                    {| Frontend.fs_filename := "a.wav"; Frontend.fs_content := "RIFF" |}
                    7%nat "hello" eq_refl ltac:(discriminate) eq_refl
                    ltac:(discriminate) ltac:(discriminate))).
  reflexivity.
Defined.
